(** * The summary service: a model of [backend/server.js],
      [backend/routes/auth.js] and [backend/middleware/auth.js]

    The handlers of the Express application are embedded as functions
    over an explicit database state.  What the handlers obtain from the
    environment (the clock, a fresh ObjectId, the output of [nanoid], the
    signing secret) is passed as an argument.  The libraries the handlers
    call (express-validator, Mongoose, jsonwebtoken, the regular
    expression engine) are modelled by the part of their documented
    behaviour the handlers rely on; every such definition says so. *)

From Stdlib Require Import ZArith Lia Bool Ascii DecimalString.
From stdpp Require Import gmap strings list.

Set Warnings "-register-all,-abstract-large-number".
Local Open Scope Z_scope.

(** ** JavaScript strings

    A string is a sequence of code units; the model keeps the code units
    below 256, which is what [string] holds. *)
Module JsString.

(** ECMAScript WhiteSpace and LineTerminator code units below 256:
    TAB, LF, VT, FF, CR, SP and NBSP.  [String.prototype.trim] strips
    exactly these (and the ones above 255). *)
Definition is_space (c : ascii) : bool :=
  match nat_of_ascii c with
  | 9%nat | 10%nat | 11%nat | 12%nat | 13%nat | 32%nat | 160%nat => true
  | _ => false
  end.

Fixpoint trimStart (s : string) : string :=
  match s with
  | EmptyString => EmptyString
  | String c s' => if is_space c then trimStart s' else s
  end.

Fixpoint trimEnd (s : string) : string :=
  match s with
  | EmptyString => EmptyString
  | String c s' =>
      match trimEnd s' with
      | EmptyString => if is_space c then EmptyString else String c EmptyString
      | r => String c r
      end
  end.

(** [s.trim()] *)
Definition trim (s : string) : string := trimEnd (trimStart s).

(** Truthiness of a string: [Boolean(s)], as used by [filter(Boolean)]
    and by [q ? ... : ...]. *)
Definition truthy (s : string) : bool :=
  match s with EmptyString => false | _ => true end.

(** [toLowerCase] of one code unit below 256: the letters A-Z and the
    capital letters of Latin-1, which are the code units 192 to 222
    without the multiplication sign 215, have their small letter 32
    further on. *)
Definition lower (c : ascii) : ascii :=
  let n := nat_of_ascii c in
  if ((65 <=? n) && (n <=? 90)
      || (192 <=? n) && (n <=? 222) && negb (n =? 215))%nat
  then ascii_of_nat (n + 32) else c.

Fixpoint toLowerCase (s : string) : string :=
  match s with
  | EmptyString => EmptyString
  | String c s' => String (lower c) (toLowerCase s')
  end.

(** No white space at either end. *)
Definition trimmed (s : string) : Prop := trim s = s.

End JsString.

(** ** JavaScript values that travel in JSON

    Request bodies come out of [express.json()]; object literals go into
    [res.json].  Numbers are the integer-valued ones: [JNum n] is the
    number that the integer literal [n] is read as.  A [Date] that is
    put into a response is kept as its time value in milliseconds. *)
Inductive json :=
| JNull
| JBool (b : bool)
| JNum (n : Z)
| JStr (s : string)
| JArr (items : list json)
| JObj (fields : list (string * json)).

Module Js.

(** The decimal digits of an integer that is not negative. *)
Definition digits (n : Z) : string := NilZero.string_of_int (Z.to_int n).

(** The finite double nearest to the integer [n >= 0], ties to the even
    significand: what the JSON literal [n] parses to. *)
Definition nearestDouble (n : Z) : Z :=
  let bits := Z.log2 n + 1 in
  if bits <=? 53 then n
  else
    let shift := bits - 53 in
    let q := Z.shiftr n shift in
    let r := n - Z.shiftl q shift in
    let half := Z.shiftl 1 (shift - 1) in
    Z.shiftl (if (half <? r) || ((r =? half) && Z.odd q) then q + 1 else q) shift.

(** The distance from the double [x >= 1] to the next double. *)
Definition ulp (x : Z) : Z := Z.shiftl 1 (Z.max 0 (Z.log2 x - 52)).

(** Whether the real number [c] is read as the double [x]: it lies between
    the midpoints to the neighbours of [x], the midpoints included when
    the significand of [x] is even.  Below a power of two the doubles
    are twice as dense. *)
Definition readsAs (x c : Z) : bool :=
  let below := if (x =? Z.shiftl 1 (Z.log2 x)) && (1 <? ulp x)
               then ulp x else 2 * ulp x in
  let above := 2 * ulp x in
  if Z.even (x / ulp x)
  then (4 * x - below <=? 4 * c) && (4 * c <=? 4 * x + above)
  else (4 * x - below <? 4 * c) && (4 * c <? 4 * x + above).

(** The multiple of the largest power of ten, [10^t] at most, that is
    read as [x]; of two such multiples the one nearer to [x], and of two
    equally near the even one. *)
Fixpoint shortest (t : nat) (x : Z) : Z :=
  let p := 10 ^ Z.of_nat t in
  let c1 := x / p * p in
  let c2 := c1 + p in
  match readsAs x c1, readsAs x c2 with
  | true, true =>
      if x - c1 <? c2 - x then c1
      else if c2 - x <? x - c1 then c2
      else if Z.even (x / p) then c1 else c2
  | true, false => c1
  | false, true => c2
  | false, false =>
      match t with
      | O => x
      | S t' => shortest t' x
      end
  end.

Fixpoint stripZeros (s : string) : string :=
  match s with
  | EmptyString => EmptyString
  | String c s' =>
      match stripZeros s' with
      | EmptyString => if (c =? "0")%char then EmptyString else String c EmptyString
      | r => String c r
      end
  end.

(** [Number::toString] of the double [x >= 0] that is an integer:
    the digits up to 21 of them, the exponent form beyond. *)
Definition positiveToString (x : Z) : string :=
  let v := digits (shortest (String.length (digits x)) x) in
  if (String.length v <=? 21)%nat then v
  else
    match stripZeros v with
    | EmptyString => v
    | String d EmptyString =>
        (String d "e+" +:+ digits (Z.of_nat (String.length v) - 1))%string
    | String d rest =>
        (String d ("." +:+ rest) +:+ "e+"
           +:+ digits (Z.of_nat (String.length v) - 1))%string
    end.

(** [String(n)] for the number a JSON integer literal [n] parses to. *)
Definition numberToString (n : Z) : string :=
  let x := nearestDouble (Z.abs n) in
  let s := if Z.shiftl 1 1024 <=? x then "Infinity"%string
           else positiveToString x in
  if n <? 0 then ("-" +:+ s)%string else s.

(** [String(v)].  An array prints its elements separated by commas,
    with [null] printed as nothing; a plain object prints as
    "[object Object]". *)
Fixpoint String_ (v : json) : string :=
  match v with
  | JNull => "null"
  | JBool true => "true"
  | JBool false => "false"
  | JNum n => numberToString n
  | JStr s => s
  | JArr items =>
      (fix join (l : list json) : string :=
         match l with
         | [] => EmptyString
         | x :: l' =>
             let sx := match x with JNull => EmptyString | _ => String_ x end in
             match l' with
             | [] => sx
             | _ => (sx +:+ "," +:+ join l')%string
             end
         end) items
  | JObj _ => "[object Object]"
  end.

(** [Boolean(v)] *)
Definition Boolean (v : json) : bool :=
  match v with
  | JNull => false
  | JBool b => b
  | JNum n => negb (n =? 0)
  | JStr s => JsString.truthy s
  | JArr _ | JObj _ => true
  end.

(** [a ?? b], where a property that is missing reads as [undefined]. *)
Definition nullish (a : option json) (b : json) : json :=
  match a with
  | None | Some JNull => b
  | Some v => v
  end.

End Js.

(** ** Control flow of a handler

    A library call returns, throws, or leaves what the model covers. *)
Inductive exn :=
| SyntaxError            (* [new RegExp] on an invalid pattern *)
| CastError              (* Mongoose could not cast a value to the path's type *)
| ValidationError        (* Mongoose document validation ([required]) *)
| DuplicateKey           (* MongoDB E11000 on a unique index *)
| JsonWebTokenError      (* jsonwebtoken: malformed token or wrong signature *)
| TokenExpiredError      (* jsonwebtoken: [exp] has passed *)
| SecretMissing          (* jsonwebtoken: the secret is empty or not set *)
| TypeError.             (* a method called on a value that lacks it *)

Inductive outcome (A : Type) :=
| Returns (a : A)
| Throws (e : exn)
| Unmodelled.
Arguments Returns {A} a.
Arguments Throws {A} e.
Arguments Unmodelled {A}.

#[global] Instance outcome_ret : MRet outcome := fun A a => Returns a.
#[global] Instance outcome_fmap : FMap outcome := fun A B f m =>
  match m with
  | Returns a => Returns (f a)
  | Throws e => Throws e
  | Unmodelled => Unmodelled
  end.
#[global] Instance outcome_bind : MBind outcome := fun A B k m =>
  match m with
  | Returns a => k a
  | Throws e => Throws e
  | Unmodelled => Unmodelled
  end.

(** [try { body } catch (error) { handler }]: only what the model does
    not cover escapes. *)
Definition try_catch {A} (body : outcome A) (handler : exn -> A) : option A :=
  match body with
  | Returns a => Some a
  | Throws e => Some (handler e)
  | Unmodelled => None
  end.

Fixpoint sequence {A} (l : list (outcome A)) : outcome (list A) :=
  match l with
  | [] => Returns []
  | m :: l' => x ← m; xs ← sequence l'; Returns (x :: xs)
  end.

(** ** express-validator chains on a request body *)
Module Validator.

(** [isString()]: [typeof value === 'string']. *)
Definition isString (v : json) : bool :=
  match v with JStr _ => true | _ => false end.

(** [isLength({min, max})] is a validator.js check on the string form
    of the value. *)
Definition isLength (min max : nat) (v : json) : bool :=
  let n := String.length (Js.String_ v) in
  ((min <=? n) && (n <=? max))%nat.

Definition isLengthMin (min : nat) (v : json) : bool :=
  (min <=? String.length (Js.String_ v))%nat.

(** [isArray({max})] *)
Definition isArray (max : nat) (v : json) : bool :=
  match v with
  | JArr items => (length items <=? max)%nat
  | _ => false
  end.

(** [isBoolean()]: validator.js accepts the strings true, false, 1
    and 0; express-validator applies it to the string form of the
    value, and to each element when the value is an array. *)
Definition isBooleanString (s : string) : bool :=
  bool_decide (s ∈ ["true"; "false"; "1"; "0"]).

Definition stringify (v : json) : string :=
  match v with JNull => EmptyString | _ => Js.String_ v end.

Definition isBoolean (v : json) : bool :=
  match v with
  | JArr items => forallb (fun x => isBooleanString (stringify x)) items
  | _ => isBooleanString (stringify v)
  end.

(** [.optional()]: the chain is skipped when the field is [undefined]. *)
Definition optional (chain : json -> bool) (v : option json) : bool :=
  match v with None => true | Some x => chain x end.

(** A chain without [.optional()] sees [undefined] as a failing value. *)
Definition required (chain : json -> bool) (v : option json) : bool :=
  match v with None => false | Some x => chain x end.

(** [validationResult(req)]: the fields whose chain failed. *)
Definition validationResult (checks : list (string * bool)) : list string :=
  (filter (fun c => c.2 = false) checks).*1.

End Validator.

(** ** Regular expressions: [new RegExp(q, "i")] and its use as a filter

    The engine is modelled on a fragment of the pattern grammar that
    ECMAScript (where the pattern is compiled) and PCRE (where MongoDB
    runs it) share: pattern characters, [.], the quantifiers [*], [+],
    [?] and their lazy forms, alternation, capturing groups and escaped
    syntax characters.  Assertions, classes, braces and the other
    escapes are outside the fragment. *)
Module RegExp.

Inductive regex :=
| Never
| Eps
| Chr (c : ascii)
| Dot
| Cat (r1 r2 : regex)
| Alt (r1 r2 : regex)
| Star (r : regex).

(** SyntaxCharacter of the pattern grammar. *)
Definition syntax_char (c : ascii) : bool :=
  (c =? "^")%char || (c =? "$")%char || (c =? "\")%char || (c =? ".")%char
  || (c =? "*")%char || (c =? "+")%char || (c =? "?")%char
  || (c =? "(")%char || (c =? ")")%char || (c =? "[")%char || (c =? "]")%char
  || (c =? "{")%char || (c =? "}")%char || (c =? "|")%char.

(** The alternatives already closed by [|] and the terms of the open
    alternative, both latest first. *)
Record frame := Frame { alts : list regex; terms : list regex }.

Definition sequence_of (ts : list regex) : regex := foldr Cat Eps (rev ts).

Definition close (f : frame) : regex :=
  foldr Alt Never (rev (sequence_of (terms f) :: alts f)).

Definition push (t : regex) (f : frame) : frame :=
  Frame (alts f) (t :: terms f).

(** Whether the last term can take a quantifier. *)
Inductive quant := NoAtom | Atom | Quantified | Lazy.

Inductive parsed := Pattern (r : regex) | Invalid | Unsupported.

Definition quantify (q : regex -> regex) (st : quant) (f : frame)
    (k : frame -> parsed) : parsed :=
  match st, terms f with
  | Atom, t :: ts => k (Frame (alts f) (q t :: ts))
  | _, _ => Invalid
  end.

Fixpoint parse (s : string) (cur : frame) (stack : list frame) (st : quant)
    : parsed :=
  match s with
  | EmptyString =>
      match stack with [] => Pattern (close cur) | _ => Invalid end
  | String c rest =>
      if (c =? "\")%char then
        match rest with
        | EmptyString => Invalid
        | String d rest' =>
            if syntax_char d || (d =? "/")%char
            then parse rest' (push (Chr d) cur) stack Atom
            else Unsupported
        end
      else if (c =? "(")%char then
        match rest with
        | String "?"%char _ => Unsupported
        | _ => parse rest (Frame [] []) (cur :: stack) NoAtom
        end
      else if (c =? ")")%char then
        match stack with
        | [] => Invalid
        | f :: stack' => parse rest (push (close cur) f) stack' Atom
        end
      else if (c =? "|")%char then
        parse rest (Frame (sequence_of (terms cur) :: alts cur) []) stack NoAtom
      else if (c =? "*")%char then
        quantify Star st cur (fun f => parse rest f stack Quantified)
      else if (c =? "+")%char then
        quantify (fun t => Cat t (Star t)) st cur
          (fun f => parse rest f stack Quantified)
      else if (c =? "?")%char then
        match st with
        | Quantified => parse rest cur stack Lazy
        | _ => quantify (fun t => Alt t Eps) st cur
                 (fun f => parse rest f stack Quantified)
        end
      else if (c =? ".")%char then parse rest (push Dot cur) stack Atom
      else if syntax_char c then Unsupported
      else parse rest (push (Chr c) cur) stack Atom
  end.

(** [new RegExp(pattern, "i")] *)
Definition compile (pattern : string) : outcome regex :=
  match parse pattern (Frame [] []) [] NoAtom with
  | Pattern r => Returns r
  | Invalid => Throws SyntaxError
  | Unsupported => Unmodelled
  end.

(** [Canonicalize(ch)] under the [i] flag: the code unit of
    [ch.toUpperCase()] when that is one code unit, and not an ASCII one
    for a [ch] that is not ASCII.  Below 256 the small letters a-z and
    the small letters of Latin-1 (224 to 254 without the division sign
    247) have their capital 32 before; the micro sign 181 and the
    y with diaeresis 255 have theirs above 255; the sharp s 223, whose
    upper case is two code units, stays. *)
Definition canonicalize (c : ascii) : N :=
  let n := N_of_ascii c in
  (if (97 <=? n) && (n <=? 122) then n - 32
   else if n =? 181 then 924
   else if (224 <=? n) && (n <=? 254) && negb (n =? 247) then n - 32
   else if n =? 255 then 376
   else n)%N.

(** Under the [i] flag two code units match when their canonical forms
    are the same. *)
Definition same_letter (c d : ascii) : bool :=
  (canonicalize c =? canonicalize d)%N.

(** The code unit [.] does not match: the line feed. *)
Definition newline (c : ascii) : bool := (c =? "010")%char.

Fixpoint nullable (r : regex) : bool :=
  match r with
  | Never | Chr _ | Dot => false
  | Eps | Star _ => true
  | Cat r1 r2 => nullable r1 && nullable r2
  | Alt r1 r2 => nullable r1 || nullable r2
  end.

(** What is left of [r] after reading [a]. *)
Fixpoint after (a : ascii) (r : regex) : regex :=
  match r with
  | Never | Eps => Never
  | Chr c => if same_letter c a then Eps else Never
  | Dot => if newline a then Never else Eps
  | Cat r1 r2 =>
      if nullable r1
      then Alt (Cat (after a r1) r2) (after a r2)
      else Cat (after a r1) r2
  | Alt r1 r2 => Alt (after a r1) (after a r2)
  | Star r1 => Cat (after a r1) (Star r1)
  end.

(** Some prefix of [s] is matched by [r]. *)
Fixpoint matches_at (r : regex) (s : string) : bool :=
  nullable r ||
  match s with
  | EmptyString => false
  | String a s' => matches_at (after a r) s'
  end.

(** [r.test(s)]: [r] matches somewhere in [s]. *)
Fixpoint test (r : regex) (s : string) : bool :=
  matches_at r s ||
  match s with
  | EmptyString => false
  | String _ s' => test r s'
  end.

(** The pattern that a string of pattern characters stands for: its
    characters in sequence. *)
Definition literal (q : string) : regex :=
  foldr Cat Eps (map Chr (String.list_ascii_of_string q)).

(** No syntax character occurs in [q]. *)
Definition ordinary (q : string) : Prop :=
  forall c, c ∈ String.list_ascii_of_string q -> syntax_char c = false.

(** [s] starts with the code units [q], up to case. *)
Fixpoint startsWith (q : list ascii) (s : string) : bool :=
  match q, s with
  | [], _ => true
  | _ :: _, EmptyString => false
  | c :: q', String a s' => same_letter c a && startsWith q' s'
  end.

End RegExp.

(** ** Session tokens: the calls into jsonwebtoken

    The compact serialisation is the library's and is not modelled: a
    token is its payload together with its signature, or a string that
    does not decode.  HMAC-SHA256 is modelled symbolically, as a free
    constructor over the key and the signed payload. *)
Module Jwt.

Record claims := Claims { id : N; email : string; iat : Z; exp : Z }.

Inductive signature := HS256 (key : string) (payload : claims).

Inductive token :=
| Signed (payload : claims) (sig : signature)
| Garbage (raw : string).

#[global] Instance claims_eq_dec : EqDecision claims.
Proof. solve_decision. Defined.
#[global] Instance signature_eq_dec : EqDecision signature.
Proof. solve_decision. Defined.

(** [Math.floor(Date.now() / 1000)] *)
Definition seconds (now_ms : Z) : Z := now_ms / 1000.

(** [jwt.sign({id, email}, secret, {expiresIn})], with [expiresIn]
    in seconds. *)
Definition sign (uid : N) (mail : string) (secret : string) (expiresIn : Z)
    (now_ms : Z) : outcome token :=
  if JsString.truthy secret then
    let c := Claims uid mail (seconds now_ms) (seconds now_ms + expiresIn) in
    Returns (Signed c (HS256 secret c))
  else Throws SecretMissing.

(** [jwt.verify(token, secret)] *)
Definition verify (t : token) (secret : string) (now_ms : Z) : outcome claims :=
  if JsString.truthy secret then
    match t with
    | Garbage _ => Throws JsonWebTokenError
    | Signed c sg =>
        if decide (sg = HS256 secret c) then
          if exp c <=? seconds now_ms then Throws TokenExpiredError
          else Returns c
        else Throws JsonWebTokenError
    end
  else Throws SecretMissing.

End Jwt.

(** ** Requests and responses *)

(** The value of the [Authorization] header: ["Bearer "] followed by
    credentials ([None] when nothing follows), or any other string. *)
Inductive header :=
| Bearer (credentials : option Jwt.token)
| Other (raw : string).

(** What a handler reads from its surroundings. *)
Record env := Env {
  JWT_SECRET : string;       (* [process.env.JWT_SECRET] *)
  now : Z;                   (* [Date.now()] *)
  fresh : N;                 (* the ObjectId the driver generates next *)
  random : nat -> N          (* the bytes the random pool yields next *)
}.

(** The summary documents, as the schema types them.  [slug] is [None]
    while the document has no such field. *)
Record Summary := {
  note : string;
  summary : string;
  tags : list string;
  starred : bool;
  slug : option string;
  createdAt : Z
}.

#[global] Instance Summary_eq_dec : EqDecision Summary.
Proof. solve_decision. Defined.

Inductive body :=
| Json (v : json)                                   (* an object literal *)
| Doc (id : N) (d : Summary)                        (* one document *)
| Docs (items : list (N * Summary))                 (* an array of documents *)
| Page (items : list (N * Summary)) (page pages total : Z)
| Session (token : Jwt.token) (uid : N) (mail : string) (* [{token, user: {id, email}}] *)
| ValidationErrors (fields : list string)           (* [{errors: errors.array()}] *)
| ErrorMessage (e : exn).                           (* [{message: error.message}] *)

Record response := Response { status : Z; payload : body }.

Definition message (m : string) : body := Json (JObj [("message", JStr m)]).

(** The identity [verifyJWT] attaches to the request as [req.user]. *)
Record user := User_ { user_id : N; user_email : string }.

(** [verifyJWT] (middleware/auth.js): either it answers the request
    itself or it hands [req.user] to the next handler. *)
Definition verifyJWT (e : env) (authorization : option header) : response + user :=
  let token :=
    match authorization with
    | Some (Bearer t) => t            (* [auth.slice(7)], falsy when empty *)
    | Some (Other _) | None => None
    end in
  match token with
  | None => inl (Response 401 (message "Unauthorized"))
  | Some t =>
      match Jwt.verify t (JWT_SECRET e) (now e) with
      | Returns payload => inr (User_ (Jwt.id payload) (Jwt.email payload))
      | _ => inl (Response 401 (message "Invalid token"))
      end
  end.

(** ** Mongoose: the Summary schema and the queries the handlers issue

    The collection is a finite map from [_id] to document.  Casting
    follows the schema types; values whose cast depends on machinery
    the model leaves out (date strings, [null], nested values) are
    [Unmodelled]. *)
Module Mongoose.

(** SchemaString cast. *)
Definition castString (v : json) : outcome string :=
  match v with
  | JStr s => Returns s
  | JNum n => Returns (Js.numberToString n)
  | JBool true => Returns "true"
  | JBool false => Returns "false"
  | JNull => Unmodelled
  | JArr _ | JObj _ => Throws CastError
  end.

(** SchemaBoolean cast. *)
Definition castBoolean (v : json) : outcome bool :=
  match v with
  | JBool b => Returns b
  | JNum 1 => Returns true
  | JNum 0 => Returns false
  | JStr s =>
      if bool_decide (s ∈ ["true"; "1"; "yes"]) then Returns true
      else if bool_decide (s ∈ ["false"; "0"; "no"]) then Returns false
      else Throws CastError
  | JNull => Unmodelled
  | _ => Throws CastError
  end.

(** SchemaDate cast: a number is a time value. *)
Definition castDate (v : json) : outcome Z :=
  match v with
  | JNum n =>
      if (Z.abs n <=? 8640000000000000) then Returns n else Throws CastError
  | JBool _ => Throws CastError
  | _ => Unmodelled
  end.

(** [tags: [{ type: String, trim: true }]] *)
Definition castTags (v : json) : outcome (list string) :=
  match v with
  | JArr items => sequence (map (fun x => JsString.trim <$> castString x) items)
  | _ => Unmodelled
  end.

(** The paths of [summarySchema].  In strict mode (the default) a key
    that is not a path is dropped, by the constructor and by an
    update alike. *)
Definition paths : list string :=
  ["note"; "summary"; "tags"; "starred"; "slug"; "createdAt"].

(** [required: true] on a String path rejects a missing value and the
    empty string. *)
Definition requiredString (v : option json) : outcome string :=
  match v with
  | None => Throws ValidationError
  | Some x =>
      s ← castString x;
      if JsString.truthy s then Returns s else Throws ValidationError
  end.

Definition orDefault {A} (d : A) (cast : json -> outcome A) (v : option json)
    : outcome A :=
  match v with None => Returns d | Some x => cast x end.

(** [new Summary(obj)] followed by the validation [save()] runs: each
    path takes the cast of its key or its default. *)
Definition construct (now_ms : Z) (obj : gmap string json) : outcome Summary :=
  n ← requiredString (obj !! "note");
  s ← requiredString (obj !! "summary");
  t ← orDefault [] castTags (obj !! "tags");
  b ← orDefault false castBoolean (obj !! "starred");
  g ← orDefault None (fun x => Some <$> castString x) (obj !! "slug");
  c ← orDefault now_ms castDate (obj !! "createdAt");
  Returns {| note := n; summary := s; tags := t; starred := b;
             slug := g; createdAt := c |}.

(** Another document already carries the slug (the unique index on
    [slug]). *)
Definition slugTaken (st : gmap N Summary) (self : N) (s : string) : bool :=
  bool_decide (Exists (fun p => p.1 <> self /\ slug p.2 = Some s) (map_to_list st)).

(** [doc.save()] of a new document. *)
Definition insert (st : gmap N Summary) (oid : N) (d : Summary)
    : outcome (gmap N Summary) :=
  match st !! oid with
  | Some _ => Throws DuplicateKey
  | None =>
      match slug d with
      | Some s => if slugTaken st oid s then Throws DuplicateKey
                  else Returns (<[oid := d]> st)
      | None => Returns (<[oid := d]> st)
      end
  end.

(** An update document after casting: the new value of each path it
    sets. *)
Record update := {
  set_note : option string;
  set_summary : option string;
  set_tags : option (list string);
  set_starred : option bool;
  set_slug : option string;
  set_createdAt : option Z
}.

Definition castOpt {A} (cast : json -> outcome A) (v : option json)
    : outcome (option A) :=
  match v with None => Returns None | Some x => Some <$> cast x end.

(** Keys that are neither a path nor simply dropped: update operators,
    dotted paths and the keys Mongoose manages itself. *)
Definition plainKey (k : string) : bool :=
  match k with
  | String "$"%char _ => false
  | _ => negb (bool_decide (k ∈ ["_id"; "id"; "__v"]))
         && negb (bool_decide ("."%char ∈ String.list_ascii_of_string k))
  end.

(** Casting of the update passed to [findByIdAndUpdate]. *)
Definition castUpdate (obj : gmap string json) : outcome update :=
  if forallb plainKey (map_to_list obj).*1 then
    n ← castOpt castString (obj !! "note");
    s ← castOpt castString (obj !! "summary");
    t ← castOpt castTags (obj !! "tags");
    b ← castOpt castBoolean (obj !! "starred");
    g ← castOpt castString (obj !! "slug");
    c ← castOpt castDate (obj !! "createdAt");
    Returns {| set_note := n; set_summary := s; set_tags := t;
               set_starred := b; set_slug := g; set_createdAt := c |}
  else Unmodelled.

Definition apply (u : update) (d : Summary) : Summary :=
  {| note := default (note d) (set_note u);
     summary := default (summary d) (set_summary u);
     tags := default (tags d) (set_tags u);
     starred := default (starred d) (set_starred u);
     slug := match set_slug u with Some s => Some s | None => slug d end;
     createdAt := default (createdAt d) (set_createdAt u) |}.

(** [Summary.findByIdAndUpdate(id, obj, { new: true })]: the new
    collection and the updated document, [None] when no document has
    the id. *)
Definition findByIdAndUpdate (st : gmap N Summary) (oid : N)
    (obj : gmap string json) : outcome (gmap N Summary * option Summary) :=
  u ← castUpdate obj;
  match st !! oid with
  | None => Returns (st, None)
  | Some d =>
      let d' := apply u d in
      match set_slug u with
      | Some s =>
          if slugTaken st oid s then Throws DuplicateKey
          else Returns (<[oid := d']> st, Some d')
      | None => Returns (<[oid := d']> st, Some d')
      end
  end.

(** The validation that [doc.save()] runs before it writes: the
    [required] paths are checked whether they were modified or not, and
    [required: true] on a String path refuses the empty string.  The
    answer is the error thrown, if any. *)
Definition validate (d : Summary) : option exn :=
  if JsString.truthy (note d) && JsString.truthy (summary d) then None
  else Some ValidationError.

(** [Summary.findOne({ slug })] *)
Definition findOneBySlug (st : gmap N Summary) (s : string) : option (N * Summary) :=
  head (filter (fun p => slug p.2 = Some s) (map_to_list st)).

End Mongoose.

(** ** nanoid: one symbol of the URL alphabet per byte of the pool *)
Module Nanoid.

Definition urlAlphabet : string :=
  "useandom-26T198340PX75pxJACKVERYMINDBUSHWOLF_GQZbfghjklqvwyzrict".

(** [urlAlphabet[byte & 63]] *)
Definition symbol (byte : N) : ascii :=
  default "u"%char (String.get (N.to_nat (N.land byte 63)) urlAlphabet).

(** [nanoid(size)], reading [size] bytes of the pool. *)
Definition nanoid (size : nat) (pool : nat -> N) : string :=
  String.string_of_list_ascii (map (fun i => symbol (pool i)) (seq 0 size)).

End Nanoid.

(** ** The order of a listing: [.sort(sort)]

    The sort string is kept parsed, as the scalar paths it names and
    their directions; ["-createdAt"] is [[(ByCreatedAt, Descending)]]. *)
Module Sort.

Inductive field := ById | ByNote | BySummary | ByStarred | BySlug | ByCreatedAt.
Inductive direction := Ascending | Descending.

Definition compareField (f : field) (a b : N * Summary) : comparison :=
  match f with
  | ById => (a.1 ?= b.1)%N
  | ByNote => String.compare (note a.2) (note b.2)
  | BySummary => String.compare (summary a.2) (summary b.2)
  | ByStarred => Bool.compare (starred a.2) (starred b.2)
  | BySlug =>
      match slug a.2, slug b.2 with
      | None, None => Eq
      | None, Some _ => Lt
      | Some _, None => Gt
      | Some x, Some y => String.compare x y
      end
  | ByCreatedAt => (createdAt a.2 ?= createdAt b.2)%Z
  end.

Fixpoint compareBy (spec : list (field * direction)) (a b : N * Summary)
    : comparison :=
  match spec with
  | [] => Eq
  | (f, d) :: spec' =>
      match (match d with
             | Ascending => compareField f a b
             | Descending => CompOpp (compareField f a b)
             end) with
      | Eq => compareBy spec' a b
      | c => c
      end
  end.

Definition leb (spec : list (field * direction)) (a b : N * Summary) : bool :=
  match compareBy spec a b with Gt => false | _ => true end.

Fixpoint insert {A} (le : A -> A -> bool) (x : A) (l : list A) : list A :=
  match l with
  | [] => [x]
  | y :: l' => if le x y then x :: l else y :: insert le x l'
  end.

(** A stable sort: documents that compare equal keep their order. *)
Definition sortBy (spec : list (field * direction)) (l : list (N * Summary))
    : list (N * Summary) :=
  foldr (insert (leb spec)) [] l.

End Sort.

(** ** The handlers of server.js

    A handler takes what it reads of the request and the collection and
    gives the collection it leaves and its answer.  [req.params.id] is
    kept as the ObjectId it denotes: a path parameter that is no
    ObjectId makes Mongoose throw before any lookup, which is not
    modelled. *)
Module Server.

(** [req.query] of [GET /api/summaries]: [page] and [limit] are kept
    as the integers [Number] reads from them. *)
Record query := Query {
  q : option string;
  page : option Z;
  limit : option Z;
  sort : option (list (Sort.field * Sort.direction))
}.

(** [{ $or: [{ note: re }, { summary: re }, { tags: re }] }]; on the
    array path the expression has to match one element. *)
Definition matches (re : RegExp.regex) (d : Summary) : bool :=
  RegExp.test re (note d) || RegExp.test re (summary d)
  || existsb (RegExp.test re) (tags d).

(** [Math.ceil(total / limit)] for a positive [limit]. *)
Definition ceilDiv (total limit : Z) : Z := - ((- total) / limit).

(** [find(filter)] *)
Definition find (keep : Summary -> bool) (st : gmap N Summary) : list (N * Summary) :=
  List.filter (fun p => keep p.2) (map_to_list st).

(** [GET /api/summaries] *)
Definition getSummaries (st : gmap N Summary) (rq : query) : option response :=
  try_catch
    (let q := JsString.trim (default EmptyString (q rq)) in
     let page := default 0 (page rq) in
     let limit := default 0 (limit rq) in
     let sort := default [(Sort.ByCreatedAt, Sort.Descending)] (sort rq) in
     filter ← (if JsString.truthy q
               then re ← RegExp.compile q; Returns (matches re)
               else Returns (fun _ => true));
     if (0 <? page) && (0 <? limit) then
       let skip := (page - 1) * limit in
       let items := take (Z.to_nat limit)
                      (drop (Z.to_nat skip) (Sort.sortBy sort (find filter st))) in
       let total := Z.of_nat (length (find filter st)) in
       Returns (Response 200 (Page items page (ceilDiv total limit) total))
     else
       Returns (Response 200 (Docs (Sort.sortBy sort (find filter st)))))
    (fun error => Response 500 (ErrorMessage error)).

Definition text (min max : nat) (v : json) : bool :=
  Validator.isString v && Validator.isLength min max v.

(** [tags.map((t) => String(t).trim()).filter(Boolean).slice(0, 10)] *)
Definition clean (tags : list json) : list string :=
  take 10 (List.filter JsString.truthy
             (map (fun t => JsString.trim (Js.String_ t)) tags)).

Definition withField (k : string) (v : option json) (o : gmap string json)
    : gmap string json :=
  match v with Some x => <[k := x]> o | None => o end.

(** [POST /api/summaries], behind [verifyJWT] *)
Definition postSummaries (e : env) (authorization : option header)
    (body : gmap string json) (st : gmap N Summary)
    : option (gmap N Summary * response) :=
  match verifyJWT e authorization with
  | inl r => Some (st, r)
  | inr user =>
      let errors := Validator.validationResult
        [("note", Validator.required (text 1 20000) (body !! "note"));
         ("summary", Validator.required (text 1 8000) (body !! "summary"));
         ("tags", Validator.optional (Validator.isArray 10) (body !! "tags"))] in
      match errors with
      | _ :: _ => Some (st, Response 400 (ValidationErrors errors))
      | [] =>
          try_catch
            (cleaned ← match default (JArr []) (body !! "tags") with
                       | JArr tags => Returns (clean tags)
                       | _ => Throws TypeError
                       end;
             let obj :=
               withField "note" (body !! "note")
                 (withField "summary" (body !! "summary")
                    (<["tags" := JArr (JStr <$> cleaned)]>
                       (<["userId" := JNum (Z.of_N (user_id user))]> ∅))) in
             doc ← Mongoose.construct (now e) obj;
             st' ← Mongoose.insert st (fresh e) doc;
             Returns (st', Response 201 (Doc (fresh e) doc)))
            (fun error => (st, Response 500 (ErrorMessage error)))
      end
  end.

(** [PUT /api/summaries/:id], behind [verifyJWT] *)
Definition putSummary (e : env) (authorization : option header) (oid : N)
    (body : gmap string json) (st : gmap N Summary)
    : option (gmap N Summary * response) :=
  match verifyJWT e authorization with
  | inl r => Some (st, r)
  | inr _ =>
      let errors := Validator.validationResult
        [("note", Validator.optional (text 1 20000) (body !! "note"));
         ("summary", Validator.optional (text 1 8000) (body !! "summary"));
         ("tags", Validator.optional (Validator.isArray 10) (body !! "tags"));
         ("starred", Validator.optional Validator.isBoolean (body !! "starred"))] in
      match errors with
      | _ :: _ => Some (st, Response 400 (ValidationErrors errors))
      | [] =>
          try_catch
            (r ← Mongoose.findByIdAndUpdate st oid body;
             match r.2 with
             | None => Returns (st, Response 404 (message "Summary not found"))
             | Some updated => Returns (r.1, Response 200 (Doc oid updated))
             end)
            (fun error => (st, Response 400 (ErrorMessage error)))
      end
  end.

(** [PATCH /api/summaries/:id/star] *)
Definition patchStar (oid : N) (body : gmap string json) (st : gmap N Summary)
    : gmap N Summary * response :=
  match st !! oid with
  | None => (st, Response 404 (message "Summary not found"))
  | Some doc =>
      let doc' :=
        {| note := note doc; summary := summary doc; tags := tags doc;
           starred := Js.Boolean (Js.nullish (body !! "starred")
                                    (JBool (negb (starred doc))));
           slug := slug doc; createdAt := createdAt doc |} in
      match Mongoose.validate doc' with
      | None => (<[oid := doc']> st, Response 200 (Doc oid doc'))
      | Some error => (st, Response 400 (ErrorMessage error))
      end
  end.

(** [POST /api/summaries/:id/share] *)
Definition postShare (e : env) (oid : N) (st : gmap N Summary)
    : option (gmap N Summary * response) :=
  try_catch
    (let slug := Nanoid.nanoid 10 (random e) in
     r ← Mongoose.findByIdAndUpdate st oid {[ "slug" := JStr slug ]};
     match r.2 with
     | None => Returns (st, Response 404 (message "Summary not found"))
     | Some _ => Returns (r.1, Response 200 (Json (JObj [("slug", JStr slug)])))
     end)
    (fun error => (st, Response 500 (ErrorMessage error))).

(** [GET /api/s/:slug].  The parameter of the route is a path segment
    that is not empty: a request for the empty slug does not reach the
    handler and falls through to the last one, the application's 404. *)
Definition getShared (s : string) (st : gmap N Summary) : response :=
  if JsString.truthy s then
    match Mongoose.findOneBySlug st s with
    | None => Response 404 (message "Not found")
    | Some (_, doc) =>
        Response 200
          (Json (JObj [("note", JStr (note doc));
                       ("summary", JStr (summary doc));
                       ("tags", JArr (JStr <$> tags doc));
                       ("createdAt", JNum (createdAt doc))]))
    end
  else Response 404 (message "Not Found").

End Server.

(** ** The User model

    Modelled from the spec: [backend/models/User.js] is not among the
    sources.  The spec gives a user an [email], "unique,
    case-sensitive-as-stored", and a [passwordHash], a "one-way salted
    hash" of the password; [User.create] stores the email as it is given
    and never the plain password.  The hash is kept symbolic. *)
Module UserModel.

Inductive hash := Salted (salt : N) (password : string).

Record User := { email : string; passwordHash : hash }.

(** [User.findOne({ email })] *)
Definition findOne (users : gmap N User) (mail : string) : option (N * User) :=
  head (filter (fun p => email p.2 = mail) (map_to_list users)).

(** [User.create({ email, password })] *)
Definition create (users : gmap N User) (oid salt : N) (mail password : string)
    : outcome (gmap N User * (N * User)) :=
  match users !! oid, findOne users mail with
  | None, None =>
      let u := {| email := mail; passwordHash := Salted salt password |} in
      Returns (<[oid := u]> users, (oid, u))
  | _, _ => Throws DuplicateKey
  end.

End UserModel.

(** ** The handlers of routes/auth.js *)
Section Auth.

(** validator.js's [isEmail], which [body("email").isEmail()] calls. *)
Variable isEmail : string -> bool.

(** [sign]: the token of a user, valid for fifteen minutes
    ([expiresIn: "15m"], 900 seconds). *)
Definition sign (e : env) (u : N * UserModel.User) : outcome Jwt.token :=
  Jwt.sign u.1 (UserModel.email u.2) (JWT_SECRET e) 900 (now e).

(** [POST /api/auth/register], for bodies whose [email] and
    [password], when present, are strings. *)
Definition register (e : env) (body : gmap string json)
    (users : gmap N UserModel.User)
    : option (gmap N UserModel.User * response) :=
  let errors := Validator.validationResult
    [("email", Validator.required
                 (fun v => isEmail (Validator.stringify v)) (body !! "email"));
     ("password", Validator.required (Validator.isLengthMin 6)
                    (body !! "password"))] in
  match errors with
  | _ :: _ => Some (users, Response 400 (ValidationErrors errors))
  | [] =>
      match body !! "email", body !! "password" with
      | Some (JStr mail), Some (JStr password) =>
          match UserModel.findOne users mail with
          | Some _ =>
              Some (users, Response 409 (message "Email already registered"))
          | None =>
              match UserModel.create users (fresh e) (random e 0) mail password with
              | Returns (users', u) =>
                  try_catch
                    (token ← sign e u;
                     Returns (users', Response 201
                                (Session token u.1 (UserModel.email u.2))))
                    (fun error => (users', Response 500 (ErrorMessage error)))
              | Throws error => Some (users, Response 500 (ErrorMessage error))
              | Unmodelled => None
              end
          end
      | _, _ => None
      end
  end.

End Auth.

(** ** The vocabulary of the specification *)
Module Spec.

(** The document [d] with its flag set to [b]. *)
Definition withStarred (b : bool) (d : Summary) : Summary :=
  {| note := note d; summary := summary d; tags := tags d; starred := b;
     slug := slug d; createdAt := createdAt d |}.

(** The document [d] with the slug [s]. *)
Definition withSlug (s : string) (d : Summary) : Summary :=
  {| note := note d; summary := summary d; tags := tags d;
     starred := starred d; slug := Some s; createdAt := createdAt d |}.

(** The document [d] with the slug [s] and the creation time [t]. *)
Definition overwritten (s : string) (t : Z) (d : Summary) : Summary :=
  {| note := note d; summary := summary d; tags := tags d;
     starred := starred d; slug := Some s; createdAt := t |}.

(** "note: 1-20,000 characters", "summary: 1-8,000 characters": the
    note and the summary of the Summary are not empty. *)
Definition filled (d : Summary) : Prop :=
  note d <> EmptyString /\ summary d <> EmptyString.

(** "At most 10 tags, each one a trimmed, non-empty string." *)
Definition tagsInvariant (ts : list string) : Prop :=
  (length ts <= 10)%nat /\ Forall (fun t => JsString.trimmed t /\ t <> EmptyString) ts.

(** "X occurs case-insensitively as a literal substring" of [s]. *)
Definition occurs (x s : string) : Prop :=
  exists pre post : string,
    JsString.toLowerCase s = (pre +:+ JsString.toLowerCase x +:+ post)%string.

(** X occurs in the note, in the summary or in at least one tag. *)
Definition mentions (x : string) (d : Summary) : Prop :=
  occurs x (note d) \/ occurs x (summary d) \/ Exists (occurs x) (tags d).

(** The filter reads the text: it is blank, or what is left of it
    after trimming is a pattern. *)
Definition readable (text : option string) : Prop :=
  let q := JsString.trim (default EmptyString text) in
  q = EmptyString \/ exists re, RegExp.compile q = Returns re.

(** The Summaries that match the filter: all of them when the text is
    blank, and otherwise those in whose note, summary or tags the
    pattern finds a match. *)
Definition selected (text : option string) (d : Summary) : Prop :=
  let q := JsString.trim (default EmptyString text) in
  q = EmptyString
  \/ exists re, RegExp.compile q = Returns re
       /\ (RegExp.test re (note d) = true \/ RegExp.test re (summary d) = true
           \/ Exists (fun t => RegExp.test re t = true) (tags d)).

(** The comparison on one key, in its direction. *)
Definition directed (f : Sort.field) (dir : Sort.direction)
    (x y : N * Summary) : comparison :=
  match dir with
  | Sort.Ascending => Sort.compareField f x y
  | Sort.Descending => CompOpp (Sort.compareField f x y)
  end.

(** [x] may stand before [y] in a listing sorted by [spec]: on the
    first key of [spec] on which the two differ, [x] has the smaller
    value if the key is ascending and the larger if it is descending. *)
Fixpoint inOrder (spec : list (Sort.field * Sort.direction))
    (x y : N * Summary) : Prop :=
  match spec with
  | [] => True
  | (f, dir) :: rest =>
      match Sort.compareField f x y with
      | Eq => inOrder rest x y
      | Lt => dir = Sort.Ascending
      | Gt => dir = Sort.Descending
      end
  end.

(** Every item may stand before every item after it. *)
Fixpoint sortedBy (spec : list (Sort.field * Sort.direction))
    (l : list (N * Summary)) : Prop :=
  match l with
  | [] => True
  | x :: l' => Forall (inOrder spec x) l' /\ sortedBy spec l'
  end.

(** Newest first: every item is at least as new as every item after
    it. *)
Fixpoint newestFirst (l : list (N * Summary)) : Prop :=
  match l with
  | [] => True
  | x :: l' =>
      Forall (fun y => createdAt y.2 <= createdAt x.2) l' /\ newestFirst l'
  end.

(** The restricted projection [{note, summary, tags, createdAt}]. *)
Definition projection (d : Summary) : json :=
  JObj [("note", JStr (note d)); ("summary", JStr (summary d));
        ("tags", JArr (JStr <$> tags d)); ("createdAt", JNum (createdAt d))].

(** The keys of an object. *)
Definition keys (v : json) : list string :=
  match v with JObj fields => fields.*1 | _ => [] end.

(** The unique index on [slug]: no two documents carry the same slug. *)
Definition uniqueSlugs (st : gmap N Summary) : Prop :=
  forall i j di dj s,
    st !! i = Some di -> st !! j = Some dj ->
    slug di = Some s -> slug dj = Some s -> i = j.

(** "Absent or ≤ 0", of a [page] or [limit] parameter. *)
Definition absentOrNonPositive (p : option Z) : Prop :=
  match p with None => True | Some z => z <= 0 end.

(** The items of a paginated answer. *)
Definition itemsOf (r : option response) : list (N * Summary) :=
  match r with
  | Some (Response _ (Page items _ _ _)) => items
  | _ => []
  end.

End Spec.

(** ** Sample data for the concrete cases *)
Module Sample.

Definition server : env :=
  {| JWT_SECRET := "s3cret"; now := 1700000000000; fresh := 7%N;
     random := fun _ => 0%N |}.

(** Tokens of two users, issued by [server] and still valid there. *)
Definition claimsOf (uid : N) (mail : string) : Jwt.claims :=
  Jwt.Claims uid mail 1700000000 1700000900.

Definition tokenOf (uid : N) (mail : string) : Jwt.token :=
  Jwt.Signed (claimsOf uid mail) (Jwt.HS256 "s3cret" (claimsOf uid mail)).

Definition alice : option header := Some (Bearer (Some (tokenOf 1 "alice@example.org"))).
Definition bob : option header := Some (Bearer (Some (tokenOf 2 "bob@example.org"))).

Definition doc (n s : string) (ts : list string) : Summary :=
  {| note := n; summary := s; tags := ts; starred := false; slug := None;
     createdAt := 1600000000000 |}.

Definition one (d : Summary) : gmap N Summary := {[ 1%N := d ]}.

(** A document created at time [t]. *)
Definition docAt (t : Z) : Summary :=
  {| note := "a"; summary := "s"; tags := []; starred := false; slug := None;
     createdAt := t |}.

Definition three : gmap N Summary :=
  {[ 1%N := docAt 10; 2%N := docAt 30; 3%N := docAt 20 ]}.

(** A stand-in for validator.js's [isEmail]: an [@] occurs. *)
Definition hasAt (s : string) : bool :=
  existsb (Ascii.eqb "@") (String.list_ascii_of_string s).

(** The body [{email: "a@b.com", password: "secret1"}]. *)
Definition registration : gmap string json :=
  {[ "email" := JStr "a@b.com"; "password" := JStr "secret1" ]}.

Definition issued : Jwt.token :=
  Jwt.Signed (Jwt.Claims 7 "a@b.com" 1700000000 1700000900)
             (Jwt.HS256 "s3cret" (Jwt.Claims 7 "a@b.com" 1700000000 1700000900)).

(** The body [{note: "hello world", summary: "hello", tags: ["t1"]}]. *)
Definition hello : gmap string json :=
  {[ "note" := JStr "hello world"; "summary" := JStr "hello";
     "tags" := JArr [JStr "t1"] ]}.

End Sample.

(** ** The rest of server.js: deletion and the CORS allow-list *)
Module Routes.

(** [DELETE /api/summaries/:id], behind [verifyJWT]:
    [Summary.findByIdAndDelete]. *)
Definition deleteSummary (e : env) (authorization : option header) (oid : N)
    (st : gmap N Summary) : gmap N Summary * response :=
  match verifyJWT e authorization with
  | inl r => (st, r)
  | inr _ =>
      match st !! oid with
      | None => (st, Response 404 (message "Summary not found"))
      | Some _ =>
          (delete oid st, Response 200 (message "Summary deleted successfully"))
      end
  end.

(** [s.split(sep)] for a separator of one code unit: the pieces between
    the separators, at least one. *)
Fixpoint split (sep : ascii) (s : string) : list string :=
  match s with
  | EmptyString => [EmptyString]
  | String c s' =>
      if (c =? sep)%char then EmptyString :: split sep s'
      else match split sep s' with
           | piece :: pieces => String c piece :: pieces
           | [] => [String c EmptyString]
           end
  end.

(** [ORIGINS]: the entries of [process.env.CORS_ORIGINS], or of the
    default when the variable is unset or empty, each trimmed. *)
Definition ORIGINS (CORS_ORIGINS : option string) : list string :=
  let configured := default EmptyString CORS_ORIGINS in
  map JsString.trim
      (split ","
         (if JsString.truthy configured then configured
          else "http://localhost:5173")).

(** [corsOptions.origin]: [true] stands for [cb(null, true)], [false]
    for [cb(new Error("Not allowed by CORS"))].  A request without an
    [Origin] header has [origin] undefined. *)
Definition corsOrigin (CORS_ORIGINS : option string) (origin : option string)
    : bool :=
  match origin with
  | None => true
  | Some o =>
      negb (JsString.truthy o) || bool_decide (o ∈ ORIGINS CORS_ORIGINS)
  end.

End Routes.

(** ** The rest of routes/auth.js: login *)
Section Login.

(** validator.js's [isEmail]. *)
Variable isEmail : string -> bool.

(** [user.comparePassword(password)], a method of the User model. *)
Variable comparePassword : UserModel.User -> string -> bool.

(** [POST /api/auth/login], for bodies whose [email] and [password],
    when present, are strings. *)
Definition login (e : env) (body : gmap string json)
    (users : gmap N UserModel.User) : option response :=
  let errors := Validator.validationResult
    [("email", Validator.required
                 (fun v => isEmail (Validator.stringify v)) (body !! "email"));
     ("password", Validator.required Validator.isString (body !! "password"))] in
  match errors with
  | _ :: _ => Some (Response 400 (ValidationErrors errors))
  | [] =>
      match body !! "email", body !! "password" with
      | Some (JStr mail), Some (JStr password) =>
          match UserModel.findOne users mail with
          | Some u =>
              if comparePassword u.2 password then
                try_catch
                  (token ← sign e u;
                   Returns (Response 200
                              (Session token u.1 (UserModel.email u.2))))
                  (fun error => Response 500 (ErrorMessage error))
              else Some (Response 401 (message "Invalid credentials"))
          | None => Some (Response 401 (message "Invalid credentials"))
          end
      | _, _ => None
      end
  end.

End Login.

(** ** The client: src/api.js and the history of the App component *)
Module Client.

(** [deriveTags]: [tagsInput.split(",").map((tag) => tag.trim()).filter(Boolean)] *)
Definition deriveTags (tagsInput : string) : list string :=
  List.filter JsString.truthy (map JsString.trim (Routes.split "," tagsInput)).

(** The body of [summaryAPI.save(note, summary, tags)]:
    [JSON.stringify({ note, summary, tags })]. *)
Definition saveBody (n s : string) (ts : list string) : gmap string json :=
  {[ "note" := JStr n; "summary" := JStr s; "tags" := JArr (JStr <$> ts) ]}.

(** The body of [summaryAPI.star(id, starred)]:
    [JSON.stringify({ starred })], which leaves an undefined field
    out. *)
Definition starBody (starred : option bool) : gmap string json :=
  match starred with
  | Some b => {[ "starred" := JBool b ]}
  | None => ∅
  end.

(** [toggleStar(item)]: [summaryAPI.star(item._id, !item.starred)], with
    the flag as the client last saw it. *)
Definition toggleStar (oid : N) (seen : bool) (st : gmap N Summary)
    : gmap N Summary * response :=
  Server.patchStar oid (starBody (Some (negb seen))) st.

(** The state that [loadHistoryPaged] writes: [history], [hasMore] and
    [page]. *)
Record view := View {
  history : list (N * Summary);
  hasMore : bool;
  page : Z
}.

(** The query of [summaryAPI.getAll({ q: search, page, limit: 10, sort:
    "-createdAt" })]: a parameter whose value is the empty string is
    left out of the query string. *)
Definition historyQuery (search : string) (pageToLoad : Z) : Server.query :=
  Server.Query (if JsString.truthy search then Some search else None)
               (Some pageToLoad) (Some 10)
               (Some [(Sort.ByCreatedAt, Sort.Descending)]).

(** [loadHistoryPaged(pageToLoad, reset)] against the collection [st],
    for the answers that are an array or a page. *)
Definition loadHistoryPaged (st : gmap N Summary) (search : string)
    (pageToLoad : Z) (reset : bool) (v : view) : option view :=
  match Server.getSummaries st (historyQuery search pageToLoad) with
  | Some (Response _ (Page items _ pages _)) =>
      Some {| history := if reset then items else history v ++ items;
              hasMore := pageToLoad <? pages;
              page := pageToLoad + 1 |}
  | Some (Response _ (Docs items)) =>
      Some {| history := if reset then items else history v ++ items;
              hasMore := false;
              page := page v |}
  | _ => None
  end.

(** The "Load more" button, pressed [n] times: it calls
    [loadHistoryPaged(page, false)] and is on the screen while
    [hasMore]. *)
Fixpoint loadMore (n : nat) (st : gmap N Summary) (search : string) (v : view)
    : option view :=
  match n with
  | O => Some v
  | S n' =>
      if hasMore v then
        match loadHistoryPaged st search (page v) false v with
        | Some v' => loadMore n' st search v'
        | None => None
        end
      else Some v
  end.

(** [init] of a [fetch]: the method, the body and the headers. *)
Record init := Init {
  method : option string;
  payload : option string;
  headers : gmap string string
}.

(** [withAuth(init)], reading [localStorage]: the later spread wins. *)
Definition withAuth (localStorage : gmap string string) (i : init) : init :=
  {| method := method i;
     payload := payload i;
     headers :=
       (match localStorage !! "token" with
        | Some t => if JsString.truthy t
                    then {[ "Authorization" := ("Bearer " +:+ t)%string ]}
                    else ∅
        | None => ∅
        end)
       ∪ headers i
       ∪ {[ "Content-Type" := "application/json" ]} |}.

(** What [request] does to [localStorage] once the answer is in:
    [if (res.status === 401) localStorage.removeItem("token")]. *)
Definition request (status : Z) (localStorage : gmap string string)
    : gmap string string :=
  if status =? 401 then delete "token" localStorage else localStorage.

(** [s.split(/\s+/)]: the pieces between the runs of white space;
    [inRun] says that the code unit before was white space. *)
Fixpoint splitSpaces (inRun : bool) (s : string) : list string :=
  match s with
  | EmptyString => [EmptyString]
  | String c s' =>
      if JsString.is_space c then
        if inRun then splitSpaces true s'
        else EmptyString :: splitSpaces true s'
      else
        match splitSpaces false s' with
        | piece :: pieces => String c piece :: pieces
        | [] => [String c EmptyString]
        end
  end.

(** [wordCount(value)] for a string:
    [!value.trim() ? 0 : value.trim().split(/\s+/).length]. *)
Definition wordCount (value : string) : nat :=
  if JsString.truthy (JsString.trim value)
  then length (splitSpaces false (JsString.trim value))
  else 0%nat.

End Client.

(** ** The test database: setup.js of the backend tests *)
Module TestDb.

(** The module state [mongo] and [ready], with what the calls do to the
    world: the in-memory servers created so far, the ones of them that
    run, and the server mongoose is connected to.  A server is known by
    its number in the order of creation. *)
Record state := State {
  mongo : option nat;
  ready : bool;
  created : nat;           (* [MongoMemoryServer.create()] calls so far *)
  running : list nat;      (* created and not stopped *)
  connected : option nat   (* since [connectDB(uri)], until [mongoose.disconnect()] *)
}.

Definition initial : state :=
  {| mongo := None; ready := false; created := 0; running := [];
     connected := None |}.

(** [await setupTestDB()] *)
Definition setupTestDB (s : state) : state :=
  if ready s then s
  else {| mongo := Some (created s); ready := true;
          created := S (created s); running := created s :: running s;
          connected := Some (created s) |}.

(** [await teardownTestDB()] *)
Definition teardownTestDB (s : state) : state :=
  match mongo s with
  | Some k => {| mongo := None; ready := false; created := created s;
                 running := List.filter (fun j => negb (j =? k)%nat) (running s);
                 connected := None |}
  | None => s
  end.

Inductive call := Setup | Teardown.

Definition step (s : state) (c : call) : state :=
  match c with Setup => setupTestDB s | Teardown => teardownTestDB s end.

(** The calls of the test files, each awaited before the next. *)
Definition run (calls : list call) (s : state) : state := foldl step s calls.

End TestDb.

(** ** More vocabulary: orders and views *)
Module Spec2.

(** The entries written one after the other with [sep] between them:
    [entries.join(sep)]. *)
Fixpoint joinWith (sep : ascii) (entries : list string) : string :=
  match entries with
  | [] => EmptyString
  | [x] => x
  | x :: rest => (x +:+ String sep (joinWith sep rest))%string
  end.

(** [sep] does not occur in [s]. *)
Definition free (sep : ascii) (s : string) : Prop :=
  sep ∉ String.list_ascii_of_string s.

(** A word: at least one code unit, none of them white space. *)
Definition word (s : string) : Prop :=
  s <> EmptyString
  /\ Forall (fun c => JsString.is_space c = false)
            (String.list_ascii_of_string s).

(** The query for the complete newest-first listing of a search, as
    the client's history query without [page] and [limit]. *)
Definition wholeQuery (search : string) : Server.query :=
  Server.Query (if JsString.truthy search then Some search else None)
               None None (Some [(Sort.ByCreatedAt, Sort.Descending)]).

End Spec2.

(** ** More sample data *)
Module Sample2.

(** The user that [Sample.registration] registers at [Sample.server]. *)
Definition member : UserModel.User :=
  {| UserModel.email := "a@b.com";
     UserModel.passwordHash := UserModel.Salted 0 "secret1" |}.

Definition members : gmap N UserModel.User := {[ 7%N := member ]}.

(** A stand-in for [comparePassword]: the hash is of that password. *)
Definition checks (u : UserModel.User) (password : string) : bool :=
  match UserModel.passwordHash u with
  | UserModel.Salted _ p => String.eqb p password
  end.

(** The body [{email: "a@b.com", password: "wrong12"}]. *)
Definition wrongPassword : gmap string json :=
  {[ "email" := JStr "a@b.com"; "password" := JStr "wrong12" ]}.

(** A server whose [JWT_SECRET] is not set. *)
Definition noSecret : env :=
  {| JWT_SECRET := ""; now := 1700000000000; fresh := 7%N;
     random := fun _ => 0%N |}.

(** What [Sample.server] stores for [Sample.hello]. *)
Definition created : Summary :=
  {| note := "hello world"; summary := "hello"; tags := ["t1"];
     starred := false; slug := None; createdAt := 1700000000000 |}.

Definition shared : Summary := Spec.withSlug "abc" (Sample.doc "n" "s" []).

(** [shared] with the note ["new"]. *)
Definition edited : Summary :=
  {| note := "new"; summary := "s"; tags := []; starred := false;
     slug := Some "abc"; createdAt := 1600000000000 |}.

(** Two documents, the second under the slug that [Sample.server]
    draws next. *)
Definition pair : gmap N Summary :=
  {[ 1%N := Sample.doc "n" "s" [];
     2%N := Spec.withSlug "uuuuuuuuuu" (Sample.doc "m" "t" []) ]}.

Definition newest : list (N * Summary) :=
  [(2%N, Sample.docAt 30); (3%N, Sample.docAt 20); (1%N, Sample.docAt 10)].

End Sample2.

(** * Properties *)

(** ** [trim] *)
Section Trim.
Import JsString.

Lemma trimEnd_cons c s d r :
  trimEnd s = String d r -> trimEnd (String c s) = String c (String d r).
Proof. intros H. simpl. now rewrite H. Qed.

Lemma trimEnd_idemp s : trimEnd (trimEnd s) = trimEnd s.
Proof.
  induction s as [|c s IH]; simpl; [reflexivity|].
  destruct (trimEnd s) as [|d r] eqn:E.
  - destruct (is_space c) eqn:Hc; simpl; [reflexivity|]. now rewrite Hc.
  - now apply trimEnd_cons.
Qed.

(** [trimEnd] keeps the first code unit of a string it does not erase. *)
Lemma trimEnd_head c s d r : trimEnd (String c s) = String d r -> d = c.
Proof.
  simpl. destruct (trimEnd s); [destruct (is_space c)|]; congruence.
Qed.

Lemma trimStart_head s c r : trimStart s = String c r -> is_space c = false.
Proof.
  induction s as [|d s IH]; simpl; [discriminate|].
  destruct (is_space d) eqn:Hd; [exact IH|]. congruence.
Qed.

Lemma trimStart_fix c s : is_space c = false -> trimStart (String c s) = String c s.
Proof. intros H. simpl. now rewrite H. Qed.

Lemma trim_idemp s : trim (trim s) = trim s.
Proof.
  unfold trim.
  destruct (trimStart s) as [|c r] eqn:E; [reflexivity|].
  pose proof (trimStart_head _ _ _ E) as Hc.
  destruct (trimEnd (String c r)) as [|d r'] eqn:E'; [reflexivity|].
  pose proof (trimEnd_head _ _ _ _ E') as ->.
  rewrite trimStart_fix by exact Hc.
  rewrite <- E'. apply trimEnd_idemp.
Qed.

Lemma trim_trimmed s : trimmed (trim s).
Proof. apply trim_idemp. Qed.

End Trim.

(** ** The star endpoint *)
Section Star.
Import Server Spec.

Lemma withStarred_id d : withStarred (starred d) d = d.
Proof. now destruct d. Qed.

Lemma validate_filled d : filled d -> Mongoose.validate d = None.
Proof.
  intros [Hn Hs]. unfold Mongoose.validate.
  destruct (note d); [contradiction|]. destruct (summary d); [contradiction|].
  reflexivity.
Qed.

Lemma validate_unfilled d :
  ~ filled d -> Mongoose.validate d = Some ValidationError.
Proof.
  intros H. unfold Mongoose.validate.
  destruct (note d) eqn:En; [reflexivity|].
  destruct (summary d) eqn:Es; [reflexivity|].
  exfalso. apply H. unfold filled. rewrite En, Es. split; discriminate.
Qed.

Lemma filled_dec d : filled d \/ ~ filled d.
Proof.
  unfold filled. destruct (note d); [right; intros [H _]; now apply H|].
  destruct (summary d); [right; intros [_ H]; now apply H|].
  left. split; discriminate.
Qed.

Lemma patchStar_found oid body st d :
  st !! oid = Some d -> filled d ->
  patchStar oid body st =
    (let d' := withStarred
                 (Js.Boolean (Js.nullish (body !! "starred") (JBool (negb (starred d))))) d in
     (<[oid := d']> st, Response 200 (Doc oid d'))).
Proof.
  intros H Hf. unfold patchStar. rewrite H.
  match goal with |- context [Mongoose.validate ?x] =>
    rewrite (validate_filled x Hf) end.
  reflexivity.
Qed.

Lemma patchStar_unfilled oid body st d :
  st !! oid = Some d -> ~ filled d ->
  patchStar oid body st = (st, Response 400 (ErrorMessage ValidationError)).
Proof.
  intros H Hf. unfold patchStar. rewrite H.
  match goal with |- context [Mongoose.validate ?x] =>
    rewrite (validate_unfilled x Hf) end.
  reflexivity.
Qed.

(** C9, as the code has it: on an existing Summary whose note and
    summary are not empty, a star PATCH whose body omits [starred]
    flips the stored flag, and a second such call restores the flag
    (and with it the whole collection); a body that gives a boolean
    sets the flag to that boolean.  On an existing Summary whose note
    or summary is empty the save is refused: the answer is 400 with
    the validation error and nothing is stored.  On an id that no
    Summary has the answer is 404 and nothing is stored. *)
Theorem star_toggles_or_sets (oid : N) (body : gmap string json) (st : gmap N Summary) :
  (forall d, st !! oid = Some d -> filled d -> body !! "starred" = None ->
     let d1 := withStarred (negb (starred d)) d in
     patchStar oid body st = (<[oid := d1]> st, Response 200 (Doc oid d1))
     /\ patchStar oid body (<[oid := d1]> st) = (st, Response 200 (Doc oid d)))
  /\ (forall d b, st !! oid = Some d -> filled d ->
        body !! "starred" = Some (JBool b) ->
        let d1 := withStarred b d in
        patchStar oid body st = (<[oid := d1]> st, Response 200 (Doc oid d1))
        /\ starred d1 = b)
  /\ (forall d, st !! oid = Some d -> ~ filled d ->
        patchStar oid body st = (st, Response 400 (ErrorMessage ValidationError)))
  /\ (st !! oid = None ->
        patchStar oid body st = (st, Response 404 (message "Summary not found"))).
Proof.
  split; [|split; [|split]].
  - intros d Hd Hf Hb d1. split.
    + rewrite (patchStar_found _ _ _ _ Hd Hf), Hb. reflexivity.
    + rewrite (patchStar_found _ _ _ d1) by (apply lookup_insert_eq || exact Hf).
      rewrite Hb. cbn. rewrite negb_involutive, insert_insert_eq.
      change (withStarred (starred d) d1) with (withStarred (starred d) d).
      rewrite withStarred_id, (insert_id _ _ _ Hd). reflexivity.
  - intros d b Hd Hf Hb d1. split; [|reflexivity].
    rewrite (patchStar_found _ _ _ _ Hd Hf), Hb. reflexivity.
  - intros d Hd Hf. exact (patchStar_unfilled _ _ _ _ Hd Hf).
  - intros H. unfold patchStar. now rewrite H.
Qed.

(** C10, as the code has it: the endpoint validates nothing of the
    body and reads the field by truthiness.  On an existing Summary
    whose note and summary are not empty, [starred: null] toggles like
    a missing field; a truthy value that is not a boolean, the string
    "false" included, stores [true]; the falsy values [0] and [""]
    store [false]; the answer is 200 whatever the value.  The one
    validation error of the endpoint does not come from the body: on
    an existing Summary whose note or summary is empty the save is
    refused with 400, whatever the body.  On an id that no Summary has
    the answer is 404; the answer is never the error list of the
    request validators. *)
Theorem star_coerces_by_truthiness (oid : N) (body : gmap string json)
    (st : gmap N Summary) :
  (forall d, st !! oid = Some d -> filled d ->
     (body !! "starred" = Some JNull ->
        patchStar oid body st =
          (<[oid := withStarred (negb (starred d)) d]> st,
           Response 200 (Doc oid (withStarred (negb (starred d)) d))))
     /\ (forall v, body !! "starred" = Some v -> v <> JNull ->
           patchStar oid body st =
             (<[oid := withStarred (Js.Boolean v) d]> st,
              Response 200 (Doc oid (withStarred (Js.Boolean v) d))))
     /\ status (patchStar oid body st).2 = 200)
  /\ Js.Boolean (JStr "false") = true
  /\ Js.Boolean (JNum 0) = false
  /\ Js.Boolean (JStr "") = false
  /\ (forall v, (exists n, v = JNum n /\ n <> 0) \/ (exists s, v = JStr s /\ s <> EmptyString)
                \/ (exists l, v = JArr l) \/ (exists o, v = JObj o) ->
        Js.Boolean v = true)
  /\ (forall d, st !! oid = Some d -> ~ filled d ->
        patchStar oid body st = (st, Response 400 (ErrorMessage ValidationError)))
  /\ (st !! oid = None -> status (patchStar oid body st).2 = 404)
  /\ (forall fields, payload (patchStar oid body st).2 <> ValidationErrors fields).
Proof.
  split; [|split; [|split; [|split; [|split; [|split; [|split]]]]]];
    try reflexivity.
  - intros d Hd Hf. split; [|split].
    + intros Hb. rewrite (patchStar_found _ _ _ _ Hd Hf), Hb. reflexivity.
    + intros v Hb Hv. rewrite (patchStar_found _ _ _ _ Hd Hf), Hb.
      destruct v; try reflexivity. congruence.
    + rewrite (patchStar_found _ _ _ _ Hd Hf). reflexivity.
  - intros v [(n & -> & Hn)|[(s & -> & Hs)|[(l & ->)|(o & ->)]]]; try reflexivity.
    + cbn. destruct (Z.eqb_spec n 0); [contradiction | reflexivity].
    + destruct s; [contradiction | reflexivity].
  - intros d Hd Hf. exact (patchStar_unfilled _ _ _ _ Hd Hf).
  - intros H. unfold patchStar. now rewrite H.
  - intros fields. unfold patchStar. destruct (st !! oid); [|discriminate].
    destruct (Mongoose.validate _); discriminate.
Qed.

End Star.

(** ** Slugs: the unique index, sharing and the public read *)
Section Slugs.
Import Server Spec Mongoose.

Lemma slugTaken_false (st : gmap N Summary) self s :
  slugTaken st self s = false <->
  (forall i d, st !! i = Some d -> i <> self -> slug d <> Some s).
Proof.
  unfold slugTaken. rewrite bool_decide_eq_false, Exists_exists. split.
  - intros H i d Hi Hne Hs. apply H. exists (i, d). split.
    + now apply elem_of_map_to_list.
    + split; assumption.
  - intros H ([i d] & Hin & Hne & Hs). apply elem_of_map_to_list in Hin.
    exact (H i d Hin Hne Hs).
Qed.


Lemma findOneBySlug_only (st : gmap N Summary) s i d :
  st !! i = Some d -> slug d = Some s ->
  (forall j dj, st !! j = Some dj -> slug dj = Some s -> j = i) ->
  findOneBySlug st s = Some (i, d).
Proof.
  intros Hi Hs Honly. unfold findOneBySlug.
  destruct (filter _ (map_to_list st)) as [|[j dj] l] eqn:E.
  - exfalso. eapply (filter_nil_not_elem_of _ _ (i, d) E); [exact Hs|].
    now apply elem_of_map_to_list.
  - assert (Hin : (j, dj) ∈ filter (fun p : N * Summary => slug p.2 = Some s)
                    (map_to_list st)) by (rewrite E; left).
    apply list_elem_of_filter in Hin as [Hsj Hin].
    apply elem_of_map_to_list in Hin.
    pose proof (Honly j dj Hin Hsj) as ->. cbn. congruence.
Qed.

Lemma findOneBySlug_none (st : gmap N Summary) s :
  (forall i d, st !! i = Some d -> slug d <> Some s) ->
  findOneBySlug st s = None.
Proof.
  intros H. unfold findOneBySlug.
  destruct (filter _ (map_to_list st)) as [|[j dj] l] eqn:E; [reflexivity|].
  assert (Hin : (j, dj) ∈ filter (fun p : N * Summary => slug p.2 = Some s)
                  (map_to_list st)) by (rewrite E; left).
  apply list_elem_of_filter in Hin as [Hsj Hin].
  apply elem_of_map_to_list in Hin. now destruct (H j dj Hin).
Qed.

Lemma castUpdate_slug s :
  castUpdate {[ "slug" := JStr s ]} =
  Returns {| set_note := None; set_summary := None; set_tags := None;
             set_starred := None; set_slug := Some s; set_createdAt := None |}.
Proof.
  unfold castUpdate. rewrite map_to_list_singleton. cbn [fmap list_fmap fst forallb].
  replace (plainKey "slug") with true by (vm_compute; reflexivity). cbn [andb].
  rewrite !lookup_singleton_ne by discriminate.
  rewrite lookup_singleton_eq. reflexivity.
Qed.



(** For a slug that is not empty the answer is the handler's. *)
Lemma getShared_routed (st : gmap N Summary) s :
  s <> EmptyString ->
  getShared s st =
    match findOneBySlug st s with
    | None => Response 404 (message "Not found")
    | Some (_, doc) => Response 200 (Json (projection doc))
    end.
Proof. intros H. unfold getShared. destruct s; [contradiction | reflexivity]. Qed.

Lemma getShared_empty (st : gmap N Summary) :
  getShared EmptyString st = Response 404 (message "Not Found").
Proof. reflexivity. Qed.

(** C8: under the unique index, the public read of a slug that a
    stored Summary carries answers exactly that Summary's projection
    [{note, summary, tags, createdAt}], an object without [_id], [id],
    [ownerId] or [slug]; the read of a slug that no Summary carries
    answers 404.  A slug is a path segment of the request and so is
    not empty. *)
Theorem shared_read_is_the_projection (st : gmap N Summary) (s : string) :
  uniqueSlugs st ->
  s <> EmptyString ->
  (forall i d, st !! i = Some d -> slug d = Some s ->
     getShared s st = Response 200 (Json (projection d))
     /\ keys (projection d) = ["note"; "summary"; "tags"; "createdAt"]
     /\ Forall (fun k => k ∉ keys (projection d)) ["_id"; "id"; "ownerId"; "slug"])
  /\ ((forall i d, st !! i = Some d -> slug d <> Some s) ->
        getShared s st = Response 404 (message "Not found")).
Proof.
  intros Huniq Hne. rewrite (getShared_routed st s Hne). split.
  - intros i d Hi Hs. split; [|split].
    + rewrite (findOneBySlug_only st s i d Hi Hs); [reflexivity|].
      intros j dj Hj Hsj. exact (Huniq j i dj d s Hj Hi Hsj Hs).
    + reflexivity.
    + cbn. repeat constructor; intros Hin;
        repeat (apply elem_of_cons in Hin as [Hin|Hin]; [discriminate|]);
        inversion Hin.
  - intros Hnone. now rewrite (findOneBySlug_none st s Hnone).
Qed.

End Slugs.

(** ** Sharing twice *)
Section Share.
Import Server Spec Mongoose.



Lemma nanoid_length pool : String.length (Nanoid.nanoid 10 pool) = 10%nat.
Proof. reflexivity. Qed.


End Share.

(** ** Listing: order and pagination *)
Section Listing.
Import Server Spec.

Lemma insert_perm {A} (le : A -> A -> bool) x l : Sort.insert le x l ≡ₚ x :: l.
Proof.
  induction l as [|y l IH]; cbn; [reflexivity|].
  destruct (le x y); [reflexivity|].
  rewrite IH. apply Permutation_swap.
Qed.

Lemma sortBy_perm spec l : Sort.sortBy spec l ≡ₚ l.
Proof.
  unfold Sort.sortBy. induction l as [|x l IH]; cbn; [reflexivity|].
  rewrite insert_perm. now rewrite IH.
Qed.

Lemma sortBy_length spec l : length (Sort.sortBy spec l) = length l.
Proof. apply Permutation_length, sortBy_perm. Qed.

(** Cutting a list into [n] slices of [l] items and gluing the slices
    gives the list back, as soon as [n] slices cover it. *)
Lemma concat_slices {A} (l : nat) (xs : list A) (n : nat) :
  (0 < l)%nat -> (length xs <= n * l)%nat ->
  concat (map (fun i => take l (drop (i * l) xs)) (seq 0 n)) = xs.
Proof.
  intros Hl. revert xs. induction n as [|n IH]; intros xs Hn.
  - cbn. symmetry. apply nil_length_inv. lia.
  - cbn [seq map concat]. rewrite Nat.mul_0_l, drop_0.
    rewrite <- fmap_S_seq.
    change (map ?f (S <$> ?l)) with (map f (map S l)). rewrite map_map.
    transitivity (take l xs ++ drop l xs); [|apply take_drop]. f_equal.
    rewrite <- (IH (drop l xs)) by (rewrite length_drop; lia).
    f_equal. apply map_ext. intros i. rewrite drop_drop. reflexivity.
Qed.

Lemma ceilDiv_is_ceiling (n l : Z) :
  0 < l -> n <= ceilDiv n l * l /\ (ceilDiv n l - 1) * l < n.
Proof.
  intros Hl. unfold ceilDiv.
  pose proof (Z.div_mod (- n) l ltac:(lia)) as Hdm.
  pose proof (Z.mod_pos_bound (- n) l Hl) as Hb. nia.
Qed.

Lemma getSummaries_paged st text srt all p l :
  getSummaries st (Query text None None srt) = Some (Response 200 (Docs all)) ->
  0 < p -> 0 < l ->
  getSummaries st (Query text (Some p) (Some l) srt) =
    Some (Response 200
            (Page (take (Z.to_nat l) (drop (Z.to_nat ((p - 1) * l)) all)) p
                  (ceilDiv (Z.of_nat (length all)) l) (Z.of_nat (length all)))).
Proof.
  intros H Hp Hl. unfold getSummaries in *. cbn [q page limit sort default] in *.
  destruct (JsString.truthy _).
  - destruct (RegExp.compile _) as [re| |]; cbn in H |- *; try discriminate.
    injection H as <-.
    destruct (Z.ltb_spec 0 p); [|lia]. destruct (Z.ltb_spec 0 l); [|lia].
    cbn. now rewrite sortBy_length.
  - cbn in H |- *. injection H as <-.
    destruct (Z.ltb_spec 0 p); [|lia]. destruct (Z.ltb_spec 0 l); [|lia].
    cbn. now rewrite sortBy_length.
Qed.

Lemma getSummaries_whole st text srt all p l :
  getSummaries st (Query text None None srt) = Some (Response 200 (Docs all)) ->
  absentOrNonPositive p \/ absentOrNonPositive l ->
  getSummaries st (Query text p l srt) = Some (Response 200 (Docs all)).
Proof.
  intros H Hpl. unfold getSummaries in *. cbn [q page limit sort] in *.
  assert (Hc : (0 <? default 0 p) && (0 <? default 0 l) = false).
  { apply andb_false_iff.
    destruct Hpl as [Hp|Hl']; [left; destruct p | right; destruct l];
      cbn in *; try reflexivity; apply Z.ltb_ge; lia. }
  destruct (JsString.truthy _).
  - destruct (RegExp.compile _) as [re| |]; cbn in H |- *; try discriminate.
    now rewrite Hc.
  - cbn in H |- *. now rewrite Hc.
Qed.

End Listing.

(** ** Searching with a pattern that has no syntax character *)
Section Search.
Import Server Spec RegExp.

Lemma parse_pattern_char c rest cur stack st :
  syntax_char c = false ->
  parse (String c rest) cur stack st = parse rest (push (Chr c) cur) stack Atom.
Proof.
  intros H. pose proof H as H'. unfold syntax_char in H'.
  repeat (apply orb_false_iff in H' as [H' ?]).
  cbn [parse]. rewrite H.
  repeat match goal with E : (_ =? _)%char = false |- _ => rewrite E; clear E end.
  reflexivity.
Qed.

Lemma parse_ordinary q cur st :
  ordinary q ->
  parse q cur [] st =
    Pattern (close (Frame (alts cur)
                      (rev (map Chr (String.list_ascii_of_string q)) ++ terms cur))).
Proof.
  revert cur st. induction q as [|c q IH]; intros cur st Hq.
  - destruct cur. reflexivity.
  - rewrite parse_pattern_char by (apply Hq; left).
    rewrite IH by (intros x Hx; apply Hq; now right).
    cbn. now rewrite <- app_assoc.
Qed.

Lemma compile_ordinary q :
  ordinary q -> compile q = Returns (Alt (literal q) Never).
Proof.
  intros Hq. unfold compile. rewrite parse_ordinary by exact Hq.
  cbn. unfold sequence_of, literal. now rewrite app_nil_r, rev_involutive.
Qed.

Lemma matches_at_Never s : matches_at Never s = false.
Proof. induction s; cbn; auto. Qed.

Lemma matches_at_Alt r1 r2 s :
  matches_at (Alt r1 r2) s = matches_at r1 s || matches_at r2 s.
Proof.
  revert r1 r2. induction s as [|a s IH]; intros r1 r2; cbn.
  - now rewrite !orb_false_r.
  - rewrite IH. destruct (nullable r1), (nullable r2); cbn;
      rewrite ?orb_true_r; try reflexivity.
Qed.

Lemma matches_at_Cat_Never r s : matches_at (Cat Never r) s = false.
Proof. induction s; cbn; auto. Qed.

Lemma matches_at_Cat_Eps r s : matches_at (Cat Eps r) s = matches_at r s.
Proof.
  destruct s as [|a s]; cbn; [reflexivity|].
  now rewrite matches_at_Alt, matches_at_Cat_Never.
Qed.

Lemma matches_at_literal q s :
  matches_at (literal q) s = startsWith (String.list_ascii_of_string q) s.
Proof.
  unfold literal. revert s.
  induction (String.list_ascii_of_string q) as [|c l IH]; intros s.
  - destruct s; reflexivity.
  - destruct s as [|a s]; [reflexivity|]. cbn.
    destruct (same_letter c a); cbn.
    + now rewrite matches_at_Cat_Eps.
    + now rewrite matches_at_Cat_Never.
Qed.

(** Every code unit is among the 256. *)
Lemma ascii_enumerated (c : ascii) : In c (map ascii_of_nat (seq 0 256)).
Proof.
  apply in_map_iff. exists (nat_of_ascii c). split.
  - apply ascii_nat_embedding.
  - apply in_seq. pose proof (nat_ascii_bounded c). lia.
Qed.

(** The canonical forms of two code units agree exactly when their
    lower-case forms do: checked on the 256 x 256 pairs. *)
Lemma same_letter_lower c d :
  same_letter c d = (JsString.lower c =? JsString.lower d)%char.
Proof.
  assert (H : forallb (fun c => forallb (fun d =>
                Bool.eqb (same_letter c d)
                         (JsString.lower c =? JsString.lower d)%char)
                (map ascii_of_nat (seq 0 256)))
                (map ascii_of_nat (seq 0 256)) = true)
    by (vm_compute; reflexivity).
  rewrite forallb_forall in H. specialize (H c (ascii_enumerated c)).
  rewrite forallb_forall in H. specialize (H d (ascii_enumerated d)).
  now apply Bool.eqb_prop.
Qed.

Lemma startsWith_spec q s :
  startsWith (String.list_ascii_of_string q) s = true <->
  exists post, JsString.toLowerCase s = (JsString.toLowerCase q +:+ post)%string.
Proof.
  revert s. induction q as [|c q IH]; intros s; cbn.
  - split; [intros _; now exists (JsString.toLowerCase s) | reflexivity].
  - destruct s as [|a s]; cbn.
    + split; [discriminate | intros [post H]; discriminate].
    + rewrite andb_true_iff, IH, same_letter_lower, Ascii.eqb_eq. split.
      * intros [-> [post ->]]. now exists post.
      * intros [post H]. injection H as -> H. split; [reflexivity | now exists post].
Qed.

Lemma test_literal q s :
  test (Alt (literal q) Never) s = true <-> occurs q s.
Proof.
  unfold occurs. induction s as [|a s IH]; cbn [test].
  - rewrite orb_false_r, matches_at_Alt, matches_at_Never, orb_false_r,
      matches_at_literal, startsWith_spec. split.
    + intros [post H]. now exists EmptyString, post.
    + intros ([|] & post & H); [now exists post | discriminate].
  - rewrite orb_true_iff, IH, matches_at_Alt, matches_at_Never, orb_false_r,
      matches_at_literal, startsWith_spec. split.
    + intros [[post H]|(pre & post & H)].
      * now exists EmptyString, post.
      * exists (String (JsString.lower a) pre), post. cbn. now rewrite H.
    + intros ([|c pre] & post & H).
      * left. now exists post.
      * right. cbn in H. injection H as _ H. now exists pre, post.
Qed.

Lemma matches_literal q d :
  matches (Alt (literal q) Never) d = true <-> mentions q d.
Proof.
  unfold matches, mentions. rewrite !orb_true_iff, !test_literal.
  rewrite existsb_exists, Exists_exists. split.
  - intros [[H|H]|(t & Ht & H)]; [auto | auto |].
    right; right. exists t. split; [now apply list_elem_of_In | now apply test_literal].
  - intros [H|[H|(t & Ht & H)]]; [auto | auto |].
    right. exists t. split; [now apply list_elem_of_In | now apply test_literal].
Qed.

Lemma elem_of_find keep (st : gmap N Summary) i d :
  (i, d) ∈ find keep st <-> st !! i = Some d /\ keep d = true.
Proof.
  unfold find. rewrite list_elem_of_In, filter_In, <- list_elem_of_In.
  now rewrite elem_of_map_to_list.
Qed.

Lemma NoDup_find keep (st : gmap N Summary) : NoDup (find keep st).
Proof.
  unfold find. apply NoDup_ListNoDup, List.NoDup_filter, NoDup_ListNoDup.
  apply NoDup_map_to_list.
Qed.

(** C3, as the code has it: the filter text is trimmed first.  When
    the trimmed text [q] is not empty and holds no syntax character of
    regular expressions, the listing answers 200 with exactly the stored
    Summaries in which [q] occurs, up to case, in the note, in the
    summary or in a tag, each once; when [q] is empty the listing
    holds every stored Summary. *)
Theorem list_search_literal (st : gmap N Summary) (x : string)
    (srt : option (list (Sort.field * Sort.direction))) :
  let q := JsString.trim x in
  (q <> EmptyString -> ordinary q ->
     exists items,
       getSummaries st (Query (Some x) None None srt)
         = Some (Response 200 (Docs items))
       /\ NoDup items
       /\ forall i d, (i, d) ∈ items <-> st !! i = Some d /\ mentions q d)
  /\ (q = EmptyString ->
       exists items,
         getSummaries st (Query (Some x) None None srt)
           = Some (Response 200 (Docs items))
         /\ NoDup items
         /\ forall i d, (i, d) ∈ items <-> st !! i = Some d).
Proof.
  intros q. split.
  - intros Hne Hord. unfold getSummaries.
    cbn [Server.q page limit sort default from_option id]. fold q.
    replace (JsString.truthy q) with true by (now destruct q).
    rewrite (compile_ordinary q Hord). cbn.
    eexists. split; [reflexivity|]. split.
    + rewrite sortBy_perm. apply NoDup_find.
    + intros i d. rewrite sortBy_perm, elem_of_find. now rewrite matches_literal.
  - intros Hq. unfold getSummaries.
    cbn [Server.q page limit sort default from_option id]. fold q. rewrite Hq. cbn.
    eexists. split; [reflexivity|]. split.
    + rewrite sortBy_perm. apply NoDup_find.
    + intros i d. rewrite sortBy_perm, elem_of_find. tauto.
Qed.

End Search.

(** ** Pagination *)
Section Pagination.
Import Server Spec RegExp.

Lemma string_compare_refl a : String.compare a a = Eq.
Proof.
  induction a as [|x a IH]; cbn; [reflexivity|].
  unfold Ascii.compare. now rewrite N.compare_refl.
Qed.

Lemma string_compare_lt_trans a b c :
  String.compare a b = Lt -> String.compare b c = Lt -> String.compare a c = Lt.
Proof.
  revert b c. induction a as [|x a IH]; intros [|y b] [|z c]; cbn;
    try congruence.
  unfold Ascii.compare.
  destruct (N.compare_spec (N_of_ascii x) (N_of_ascii y)) as [Exy|Lxy|Gxy];
    try discriminate;
    destruct (N.compare_spec (N_of_ascii y) (N_of_ascii z)) as [Eyz|Lyz|Gyz];
    try discriminate; intros H1 H2.
  - rewrite Exy, Eyz, N.compare_refl. now apply (IH b c).
  - rewrite Exy. now apply N.compare_lt_iff in Lyz as ->.
  - rewrite <- Eyz. now apply N.compare_lt_iff in Lxy as ->.
  - assert (L : (N_of_ascii x < N_of_ascii z)%N) by lia.
    now apply N.compare_lt_iff in L as ->.
Qed.

Lemma compareField_antisym f x y :
  Sort.compareField f y x = CompOpp (Sort.compareField f x y).
Proof.
  destruct f; cbn.
  - apply N.compare_antisym.
  - apply String.compare_antisym.
  - apply String.compare_antisym.
  - now destruct (starred x.2), (starred y.2).
  - destruct (slug x.2), (slug y.2); try reflexivity.
    apply String.compare_antisym.
  - apply Z.compare_antisym.
Qed.

Lemma compareField_eq_cong f x y z :
  Sort.compareField f x y = Eq ->
  Sort.compareField f x z = Sort.compareField f y z.
Proof.
  destruct f; cbn; intros H.
  - apply N.compare_eq_iff in H. now rewrite H.
  - apply String.compare_eq_iff in H. now rewrite H.
  - apply String.compare_eq_iff in H. now rewrite H.
  - destruct (starred x.2), (starred y.2); try discriminate; reflexivity.
  - destruct (slug x.2), (slug y.2); try discriminate; [|reflexivity].
    apply String.compare_eq_iff in H. now rewrite H.
  - apply Z.compare_eq_iff in H. now rewrite H.
Qed.

Lemma compareField_lt_trans f x y z :
  Sort.compareField f x y = Lt -> Sort.compareField f y z = Lt ->
  Sort.compareField f x z = Lt.
Proof.
  destruct f; cbn.
  - rewrite !N.compare_lt_iff. lia.
  - apply string_compare_lt_trans.
  - apply string_compare_lt_trans.
  - destruct (starred x.2), (starred y.2), (starred z.2); cbn; congruence.
  - destruct (slug x.2), (slug y.2), (slug z.2); try congruence.
    apply string_compare_lt_trans.
  - rewrite !Z.compare_lt_iff. lia.
Qed.

Lemma directed_antisym f dir x y :
  directed f dir y x = CompOpp (directed f dir x y).
Proof. unfold directed. destruct dir; now rewrite compareField_antisym. Qed.

Lemma directed_eq_cong f dir x y z :
  directed f dir x y = Eq -> directed f dir x z = directed f dir y z.
Proof.
  unfold directed. destruct dir; intros H.
  - now apply compareField_eq_cong.
  - f_equal. apply compareField_eq_cong.
    now destruct (Sort.compareField f x y).
Qed.

Lemma directed_lt_trans f dir x y z :
  directed f dir x y = Lt -> directed f dir y z = Lt -> directed f dir x z = Lt.
Proof.
  unfold directed. destruct dir; [apply compareField_lt_trans|].
  rewrite (compareField_antisym f y x), (compareField_antisym f z y),
    (compareField_antisym f z x).
  rewrite !CompOpp_involutive. intros H1 H2.
  exact (compareField_lt_trans f z y x H2 H1).
Qed.

Lemma compareBy_cons f dir spec x y :
  Sort.compareBy ((f, dir) :: spec) x y =
    match directed f dir x y with
    | Eq => Sort.compareBy spec x y
    | c => c
    end.
Proof. reflexivity. Qed.

Lemma compareBy_antisym spec x y :
  Sort.compareBy spec y x = CompOpp (Sort.compareBy spec x y).
Proof.
  induction spec as [|[f dir] spec IH]; [reflexivity|].
  rewrite !compareBy_cons, (directed_antisym f dir x y).
  destruct (directed f dir x y); cbn; [exact IH | reflexivity | reflexivity].
Qed.

Lemma compareBy_eq_cong spec x y z :
  Sort.compareBy spec x y = Eq -> Sort.compareBy spec x z = Sort.compareBy spec y z.
Proof.
  induction spec as [|[f dir] spec IH]; [reflexivity|].
  rewrite !compareBy_cons.
  destruct (directed f dir x y) eqn:E; try discriminate. intros H.
  rewrite (directed_eq_cong f dir x y z E).
  destruct (directed f dir y z); [now apply IH | reflexivity | reflexivity].
Qed.

Lemma compareBy_lt_trans spec x y z :
  Sort.compareBy spec x y = Lt -> Sort.compareBy spec y z = Lt ->
  Sort.compareBy spec x z = Lt.
Proof.
  induction spec as [|[f dir] spec IH]; [discriminate|].
  rewrite !compareBy_cons.
  destruct (directed f dir x y) eqn:Exy; try discriminate;
    destruct (directed f dir y z) eqn:Eyz; try discriminate; intros H1 H2.
  - rewrite (directed_eq_cong f dir x y z Exy), Eyz. now apply IH.
  - now rewrite (directed_eq_cong f dir x y z Exy), Eyz.
  - assert (Ezy : directed f dir z y = Eq)
      by (rewrite (directed_antisym f dir y z), Eyz; reflexivity).
    rewrite (directed_antisym f dir z x), (directed_eq_cong f dir z y x Ezy),
      (directed_antisym f dir x y), CompOpp_involutive, Exy.
    reflexivity.
  - now rewrite (directed_lt_trans f dir x y z Exy Eyz).
Qed.

Lemma leb_total spec x y : Sort.leb spec x y = false -> Sort.leb spec y x = true.
Proof.
  unfold Sort.leb. rewrite (compareBy_antisym spec x y).
  now destruct (Sort.compareBy spec x y).
Qed.

Lemma leb_trans spec x y z :
  Sort.leb spec x y = true -> Sort.leb spec y z = true -> Sort.leb spec x z = true.
Proof.
  unfold Sort.leb.
  destruct (Sort.compareBy spec x y) eqn:Exy; try discriminate;
    destruct (Sort.compareBy spec y z) eqn:Eyz; try discriminate; intros _ _.
  - now rewrite (compareBy_eq_cong spec x y z Exy), Eyz.
  - now rewrite (compareBy_eq_cong spec x y z Exy), Eyz.
  - assert (Ezy : Sort.compareBy spec z y = Eq)
      by (rewrite (compareBy_antisym spec y z), Eyz; reflexivity).
    rewrite (compareBy_antisym spec z x), (compareBy_eq_cong spec z y x Ezy),
      (compareBy_antisym spec x y), CompOpp_involutive, Exy.
    reflexivity.
  - now rewrite (compareBy_lt_trans spec x y z Exy Eyz).
Qed.

(** The comparison the sort runs on is the order of the specification. *)
Lemma leb_inOrder spec x y : Sort.leb spec x y = true <-> inOrder spec x y.
Proof.
  unfold Sort.leb. induction spec as [|[f dir] spec IH]; [cbn; tauto|].
  rewrite compareBy_cons. cbn [inOrder]. unfold directed.
  destruct dir; destruct (Sort.compareField f x y); cbn;
    try exact IH; split; congruence.
Qed.

Lemma insert_sortedBy spec x l :
  sortedBy spec l -> sortedBy spec (Sort.insert (Sort.leb spec) x l).
Proof.
  induction l as [|y l IH]; intros Hl.
  - cbn. split; [constructor | exact I].
  - cbn [Sort.insert]. destruct Hl as [Hy Hl].
    destruct (Sort.leb spec x y) eqn:E.
    + split; [|split; assumption].
      constructor; [now apply leb_inOrder|].
      eapply Forall_impl; [exact Hy|]. intros z Hz. cbn in Hz.
      apply leb_inOrder. apply (leb_trans spec x y z); [exact E|].
      now apply leb_inOrder.
    + split; [|now apply IH].
      apply Forall_forall. intros z Hz.
      rewrite insert_perm in Hz. apply elem_of_cons in Hz as [->|Hz].
      * apply leb_inOrder. now apply leb_total.
      * rewrite Forall_forall in Hy. now apply Hy.
Qed.

Lemma sortBy_sortedBy spec l : sortedBy spec (Sort.sortBy spec l).
Proof.
  unfold Sort.sortBy. induction l as [|x l IH]; [exact I|].
  cbn [foldr]. now apply insert_sortedBy.
Qed.

Lemma sortedBy_newestFirst l :
  sortedBy [(Sort.ByCreatedAt, Sort.Descending)] l -> newestFirst l.
Proof.
  induction l as [|x l IH]; [tauto|]. intros [Hx Hl]. split; [|now apply IH].
  eapply Forall_impl; [exact Hx|]. intros y Hy. cbn in Hy.
  destruct (Z.compare_spec (createdAt x.2) (createdAt y.2)); [lia | discriminate | lia].
Qed.

Lemma matches_selected re d :
  matches re d = true <->
  RegExp.test re (note d) = true \/ RegExp.test re (summary d) = true
  \/ Exists (fun t => RegExp.test re t = true) (tags d).
Proof.
  unfold matches. rewrite !orb_true_iff, existsb_exists, Exists_exists.
  split.
  - intros [[H|H]|(t & Ht & H)]; [auto | auto |].
    right; right. exists t. split; [now apply list_elem_of_In | exact H].
  - intros [H|[H|(t & Ht & H)]]; [auto | auto |].
    right. exists t. split; [now apply list_elem_of_In | exact H].
Qed.

(** The unpaginated listing of a readable filter: the stored Summaries
    that the filter selects, each once, in the order of the sort. *)
Lemma getSummaries_all st text srt :
  readable text ->
  exists all,
    getSummaries st (Query text None None srt) = Some (Response 200 (Docs all))
    /\ NoDup all
    /\ (forall i d, (i, d) ∈ all <-> st !! i = Some d /\ selected text d)
    /\ sortedBy (default [(Sort.ByCreatedAt, Sort.Descending)] srt) all.
Proof.
  unfold readable, selected, getSummaries.
  cbn [Server.q page limit sort default from_option id].
  set (q := JsString.trim (from_option id EmptyString text)).
  intros [Hq|[re Hre]].
  - rewrite Hq. cbn. eexists. split; [reflexivity|]. split; [|split].
    + rewrite sortBy_perm. apply NoDup_find.
    + intros i d. rewrite sortBy_perm, elem_of_find. tauto.
    + apply sortBy_sortedBy.
  - destruct (JsString.truthy q) eqn:Et.
    + rewrite Hre. cbn. eexists. split; [reflexivity|]. split; [|split].
      * rewrite sortBy_perm. apply NoDup_find.
      * intros i d. rewrite sortBy_perm, elem_of_find, matches_selected.
        split.
        -- intros [Hi Hm]. split; [exact Hi|]. right. now exists re.
        -- intros [Hi [Hq|(re' & Hre' & Hm)]].
           ++ rewrite Hq in Et. discriminate Et.
           ++ injection Hre' as <-. now split.
      * apply sortBy_sortedBy.
    + cbn. eexists. split; [reflexivity|]. split; [|split].
      * rewrite sortBy_perm. apply NoDup_find.
      * intros i d. rewrite sortBy_perm, elem_of_find.
        split; [intros [Hi _] | intros [Hi _]; now split].
        split; [exact Hi|]. left. now destruct q.
      * apply sortBy_sortedBy.
Qed.

(** C5: for a filter text that is read (blank, or a pattern), let
    [all] be the unpaginated answer.  It holds exactly the [N] stored
    Summaries that match the filter, each once, in the order of the
    sort, newest first when no sort is given; for a text without
    syntax characters the Summaries that match are those in which the
    trimmed text occurs.  For positive [page] and [limit] the answer
    is [{items, page, pages, total}] with [total = N] and
    [pages = ceil(N / limit)], the items are the [page]-th slice of
    [all], and the items of the pages 1..[pages], glued in order, are
    [all].  When [page] or [limit] is absent or ≤ 0 the answer is the
    plain array [all]. *)
Theorem list_pagination (st : gmap N Summary) (text : option string)
    (srt : option (list (Sort.field * Sort.direction))) :
  readable text ->
  exists all : list (N * Summary),
    let n := Z.of_nat (length all) in
    getSummaries st (Query text None None srt) = Some (Response 200 (Docs all))
    /\ NoDup all
    /\ (forall i d, (i, d) ∈ all <-> st !! i = Some d /\ selected text d)
    /\ (forall x, text = Some x -> JsString.trim x <> EmptyString ->
          ordinary (JsString.trim x) ->
          forall d, selected text d <-> mentions (JsString.trim x) d)
    /\ sortedBy (default [(Sort.ByCreatedAt, Sort.Descending)] srt) all
    /\ (srt = None -> newestFirst all)
    /\ (forall p l, 0 < p -> 0 < l ->
          exists items pages,
            getSummaries st (Query text (Some p) (Some l) srt)
              = Some (Response 200 (Page items p pages n))
            /\ items = take (Z.to_nat l) (drop (Z.to_nat ((p - 1) * l)) all)
            /\ n <= pages * l /\ (pages - 1) * l < n
            /\ concat (map (fun k => itemsOf (getSummaries st
                                      (Query text (Some (Z.of_nat k)) (Some l) srt)))
                        (seq 1 (Z.to_nat pages))) = all)
    /\ (forall p l, absentOrNonPositive p \/ absentOrNonPositive l ->
          getSummaries st (Query text p l srt) = Some (Response 200 (Docs all))).
Proof.
  intros Hread.
  destruct (getSummaries_all st text srt Hread) as (all & H & Hnd & Hin & Hsorted).
  exists all. intros n.
  split; [exact H|]. split; [exact Hnd|]. split; [exact Hin|].
  split; [|split; [exact Hsorted|split; [|split]]].
  - intros x -> Hne Hord d. unfold selected. cbn [default from_option id].
    rewrite (compile_ordinary _ Hord). split.
    + intros [Hq|(re & Hre & Hm)]; [contradiction|].
      injection Hre as <-. now apply matches_literal, matches_selected.
    + intros Hm. right. eexists. split; [reflexivity|].
      now apply matches_selected, matches_literal.
  - intros ->. now apply sortedBy_newestFirst.
  - intros p l Hp Hl.
    pose proof (ceilDiv_is_ceiling n l Hl) as [Hup Hlow].
    eexists _, _. split; [apply (getSummaries_paged _ _ _ _ _ _ H Hp Hl)|].
    split; [reflexivity|]. split; [exact Hup|]. split; [exact Hlow|].
    fold n. set (pages := ceilDiv n l) in *.
    rewrite <- fmap_S_seq.
    change (map ?f (S <$> ?xs)) with (map f (map S xs)). rewrite map_map.
    etransitivity;
      [|apply (concat_slices (Z.to_nat l) all (Z.to_nat pages)); [lia | subst n; nia]].
    f_equal. apply map_ext_in. intros k _.
    rewrite (getSummaries_paged _ _ _ _ (Z.of_nat (S k)) l H) by lia.
    cbn [itemsOf]. do 2 f_equal. nia.
  - intros p l. now apply getSummaries_whole.
Qed.

End Pagination.

(** ** Concrete requests *)
Section Cases.
Import Server Spec Sample.

(** C3 as stated fails in three ways.  The text " a" is trimmed: the
    Summary with note "ba" is listed although " a" does not occur in
    it.  The text "a.c" is read as a pattern: the Summary with note
    "abc" is listed although "a.c" does not occur in it.  The text "("
    is no pattern at all: the listing fails with 500. *)
Lemma list_search_not_literal :
  (getSummaries (one (doc "ba" "x" [])) (Query (Some " a") None None None)
     = Some (Response 200 (Docs [(1%N, doc "ba" "x" [])]))
   /\ ~ mentions " a" (doc "ba" "x" []))
  /\ (getSummaries (one (doc "abc" "x" [])) (Query (Some "a.c") None None None)
        = Some (Response 200 (Docs [(1%N, doc "abc" "x" [])]))
      /\ ~ mentions "a.c" (doc "abc" "x" []))
  /\ getSummaries (one (doc "abc" "x" [])) (Query (Some "(") None None None)
       = Some (Response 500 (ErrorMessage SyntaxError)).
Proof.
  repeat split.
  - intros H. apply matches_literal in H. vm_compute in H. discriminate.
  - intros H. apply matches_literal in H. vm_compute in H. discriminate.
Qed.

(** The letters of Latin-1 are folded like those of ASCII: the text of
    the one code unit 233, the small e with acute, finds the note of
    the one code unit 201, its capital. *)
Lemma search_folds_latin1 :
  getSummaries (one (doc (String "201" "") "x" []))
               (Query (Some (String "233" "")) None None None)
    = Some (Response 200 (Docs [(1%N, doc (String "201" "") "x" [])])).
Proof. vm_compute. reflexivity. Qed.

(** C9 as stated fails on an existing Summary whose note is empty: the
    star PATCH without [starred] is answered 400 with the validation
    error of the save, and the flag is not flipped. *)
Lemma star_toggle_refused :
  one (doc "" "s" []) !! 1%N = Some (doc "" "s" [])
  /\ (∅ : gmap string json) !! "starred" = None
  /\ patchStar 1 ∅ (one (doc "" "s" []))
       = (one (doc "" "s" []), Response 400 (ErrorMessage ValidationError)).
Proof. repeat split; vm_compute; reflexivity. Qed.

(** C10 as stated fails: the endpoint does answer with a validation
    error, on an existing Summary whose summary is empty, here for a
    body that gives a boolean. *)
Lemma star_validation_error :
  one (doc "n" "" []) !! 1%N = Some (doc "n" "" [])
  /\ patchStar 1 {[ "starred" := JBool true ]} (one (doc "n" "" []))
       = (one (doc "n" "" []), Response 400 (ErrorMessage ValidationError)).
Proof. split; vm_compute; reflexivity. Qed.


(** C4 fails on the code for updates: the create handler cleans the
    tags, the update handler stores what Mongoose casts.  The array
    [["", "a"]] passes both validations; a create stores [["a"]], an
    authenticated update leaves the empty string among the stored
    tags. *)
Theorem update_stores_empty_tag :
  putSummary server alice 1 {[ "tags" := JArr [JStr ""; JStr "a"] ]}
             (one (doc "n" "s" ["t1"]))
    = Some (one (doc "n" "s" [""; "a"]),
            Response 200 (Doc 1 (doc "n" "s" [""; "a"])))
  /\ tagsInvariant ["t1"]
  /\ ~ tagsInvariant [""; "a"]
  /\ exists st' d,
       postSummaries server alice (<["tags" := JArr [JStr ""; JStr "a"]]> hello) ∅
         = Some (st', Response 201 (Doc 7 d))
       /\ tags d = ["a"].
Proof.
  split; [vm_compute; reflexivity|]. split; [|split].
  - split; [cbn; lia|]. repeat constructor. discriminate.
  - intros [_ H]. apply Forall_cons in H as [[_ H] _]. now apply H.
  - eexists _, _. split; [vm_compute; reflexivity | reflexivity].
Qed.

End Cases.

(** ** Creating and updating *)
Section Writes.
Import Server Spec Mongoose.

(** The object handed to [new Summary] reads the same at every schema
    path whatever [userId] holds. *)
Lemma constructor_argument_paths (a b : option json) (t v w : json) (k : string) :
  k <> "userId" ->
  withField "note" a (withField "summary" b
    (<["tags" := t]> (<["userId" := v]> ∅))) !! k =
  withField "note" a (withField "summary" b
    (<["tags" := t]> (<["userId" := w]> ∅))) !! k.
Proof.
  intros Hk. destruct a, b; cbn [withField];
    rewrite !(lookup_insert (M := gmap string)), !lookup_empty;
    repeat case_decide; congruence.
Qed.

(** Strict mode: the constructor reads its argument at the paths of the
    schema and nowhere else. *)
Lemma construct_strict now_ms (obj1 obj2 : gmap string json) :
  (forall k, k ∈ paths -> obj1 !! k = obj2 !! k) ->
  construct now_ms obj1 = construct now_ms obj2.
Proof.
  intros H. unfold construct.
  rewrite (H "note"), (H "summary"), (H "tags"), (H "starred"), (H "slug"),
    (H "createdAt"); [reflexivity|..]; apply list_elem_of_In; cbn; tauto.
Qed.

Lemma construct_ignores_userId now_ms (a b : option json) (t v w : json) :
  construct now_ms (withField "note" a (withField "summary" b
    (<["tags" := t]> (<["userId" := v]> ∅)))) =
  construct now_ms (withField "note" a (withField "summary" b
    (<["tags" := t]> (<["userId" := w]> ∅)))).
Proof.
  apply construct_strict. intros k Hk. apply constructor_argument_paths.
  intros ->. apply list_elem_of_In in Hk. cbn in Hk.
  repeat (destruct Hk as [Hk|Hk]; [discriminate Hk|]). exact Hk.
Qed.

(** C2 fails on the code: the schema has no path for the owner, so the
    [userId] the handler passes to the constructor is dropped.  Whoever
    creates a Summary, the stored document and the answer are the
    same. *)
Theorem created_summary_has_no_owner (e : env) (h1 h2 : option header)
    (u1 u2 : user) (body : gmap string json) (st : gmap N Summary) :
  verifyJWT e h1 = inr u1 -> verifyJWT e h2 = inr u2 ->
  postSummaries e h1 body st = postSummaries e h2 body st.
Proof.
  intros H1 H2. unfold postSummaries. rewrite H1, H2.
  destruct (Validator.validationResult _); [|reflexivity].
  destruct (default (JArr []) (body !! "tags")); try reflexivity.
  cbn [mbind outcome_bind].
  now rewrite (construct_ignores_userId _ _ _ _ _ (JNum (Z.of_N (user_id u2)))).
Qed.

(** C1 fails on the code: the handler validates [note], [summary],
    [tags] and [starred] but hands the whole body to
    [findByIdAndUpdate], and [slug] and [createdAt] are paths of the
    schema.  An authenticated update whose body names them replaces
    both. *)
Theorem update_overwrites_slug_and_createdAt (e : env) (h : option header)
    (u : user) (oid : N) (st : gmap N Summary) (d : Summary)
    (s : string) (t : Z) :
  verifyJWT e h = inr u ->
  st !! oid = Some d ->
  slugTaken st oid s = false ->
  Z.abs t <= 8640000000000000 ->
  putSummary e h oid {[ "slug" := JStr s; "createdAt" := JNum t ]} st =
    Some (<[oid := overwritten s t d]> st,
          Response 200 (Doc oid (overwritten s t d))).
Proof.
  intros Hauth Hd Hfree Ht.
  set (body := ({[ "slug" := JStr s; "createdAt" := JNum t ]} : gmap string json)).
  assert (Hn : body !! "note" = None) by (vm_compute; reflexivity).
  assert (Hsu : body !! "summary" = None) by (vm_compute; reflexivity).
  assert (Hta : body !! "tags" = None) by (vm_compute; reflexivity).
  assert (Hst : body !! "starred" = None) by (vm_compute; reflexivity).
  assert (Hsl : body !! "slug" = Some (JStr s)) by (vm_compute; reflexivity).
  assert (Hc : body !! "createdAt" = Some (JNum t)) by (vm_compute; reflexivity).
  assert (Hk : forallb plainKey (map_to_list body).*1 = true)
    by (vm_compute; reflexivity).
  clearbody body.
  unfold putSummary. rewrite Hauth, Hn, Hsu, Hta, Hst.
  cbn [Validator.optional Validator.validationResult].
  unfold findByIdAndUpdate, castUpdate.
  rewrite Hk, Hn, Hsu, Hta, Hst, Hsl, Hc.
  cbn -[slugTaken Z.leb Z.abs].
  destruct (Z.leb_spec (Z.abs t) 8640000000000000); [|lia].
  cbn -[slugTaken]. rewrite Hd. cbn -[slugTaken]. rewrite Hfree. reflexivity.
Qed.

End Writes.

(** ** Registration and the session token *)
Section Tokens.
Variable isEmail : string -> bool.

Lemma verifyJWT_signed (e : env) (c : Jwt.claims) (sg : Jwt.signature) :
  verifyJWT e (Some (Bearer (Some (Jwt.Signed c sg)))) =
    if JsString.truthy (JWT_SECRET e)
       && bool_decide (sg = Jwt.HS256 (JWT_SECRET e) c)
       && negb (Jwt.exp c <=? Jwt.seconds (now e))
    then inr (User_ (Jwt.id c) (Jwt.email c))
    else inl (Response 401 (message "Invalid token")).
Proof.
  unfold verifyJWT, Jwt.verify.
  destruct (JsString.truthy (JWT_SECRET e)); [|reflexivity].
  cbn [andb]. destruct (decide (sg = _)) as [Hsg|Hsg].
  - rewrite (bool_decide_eq_true_2 _ Hsg). cbn [andb].
    now destruct (Jwt.exp c <=? Jwt.seconds (now e)).
  - now rewrite (bool_decide_eq_false_2 _ Hsg).
Qed.

(** C7: for a valid registration payload, whenever [register] answers
    with a token the answer is 201, the token carries the id of the
    stored user and the registered email, it expires 900 seconds after
    it was issued, and [verifyJWT] under the same secret yields that id
    and email until then, and 401 from then on and for any token whose
    signature is not the one of its payload; and [register] does answer
    with a token when the secret is set, the email is not registered
    yet and the id is fresh. *)
Theorem register_token_round_trip (e : env) (body : gmap string json)
    (users : gmap N UserModel.User) (mail pw : string) :
  body !! "email" = Some (JStr mail) ->
  body !! "password" = Some (JStr pw) ->
  isEmail mail = true ->
  (6 <= String.length pw)%nat ->
  (forall users' code token uid mail',
     register isEmail e body users
       = Some (users', Response code (Session token uid mail')) ->
     code = 201 /\ mail' = mail
     /\ (exists u, users' !! uid = Some u /\ UserModel.email u = mail)
     /\ (exists c, token = Jwt.Signed c (Jwt.HS256 (JWT_SECRET e) c)
           /\ Jwt.id c = uid /\ Jwt.email c = mail
           /\ Jwt.iat c = Jwt.seconds (now e) /\ Jwt.exp c = Jwt.iat c + 15 * 60)
     /\ (forall e', JWT_SECRET e' = JWT_SECRET e ->
           (Jwt.seconds (now e') < Jwt.seconds (now e) + 15 * 60 ->
              verifyJWT e' (Some (Bearer (Some token))) = inr (User_ uid mail))
           /\ (Jwt.seconds (now e) + 15 * 60 <= Jwt.seconds (now e') ->
                 verifyJWT e' (Some (Bearer (Some token)))
                   = inl (Response 401 (message "Invalid token")))
           /\ (forall c' sg, sg <> Jwt.HS256 (JWT_SECRET e) c' ->
                 verifyJWT e' (Some (Bearer (Some (Jwt.Signed c' sg))))
                   = inl (Response 401 (message "Invalid token")))))
  /\ (JWT_SECRET e <> EmptyString ->
      UserModel.findOne users mail = None -> users !! fresh e = None ->
      exists users' token,
        register isEmail e body users
          = Some (users', Response 201 (Session token (fresh e) mail))).
Proof.
  intros Hmail Hpw Hvalid Hlen.
  assert (Hreg : register isEmail e body users =
            match UserModel.findOne users mail with
            | Some _ => Some (users, Response 409 (message "Email already registered"))
            | None =>
                match UserModel.create users (fresh e) (random e 0) mail pw with
                | Returns (users', u) =>
                    try_catch
                      (token ← sign e u;
                       Returns (users', Response 201
                                  (Session token u.1 (UserModel.email u.2))))
                      (fun error => (users', Response 500 (ErrorMessage error)))
                | Throws error => Some (users, Response 500 (ErrorMessage error))
                | Unmodelled => None
                end
            end).
  { unfold register. rewrite Hmail, Hpw.
    cbn [Validator.required Validator.stringify Js.String_ Validator.isLengthMin].
    rewrite Hvalid. apply Nat.leb_le in Hlen.
    unfold Validator.isLengthMin. cbn [Js.String_]. rewrite Hlen. reflexivity. }
  rewrite Hreg. clear Hreg. split.
  - intros users' code token uid mail' H.
    destruct (UserModel.findOne users mail) eqn:Hfind; [discriminate|].
    unfold UserModel.create in H. rewrite Hfind in H.
    destruct (users !! fresh e) eqn:Hfresh; [discriminate|].
    unfold sign, Jwt.sign in H. cbn [fst snd UserModel.email] in H.
    destruct (JsString.truthy (JWT_SECRET e)) eqn:Hsecret; [|discriminate].
    cbn in H. injection H as <- <- <- <- <-.
    split; [reflexivity|]. split; [reflexivity|]. split.
    { eexists. split; [apply lookup_insert_eq | reflexivity]. }
    split.
    { eexists. split; [reflexivity|]. cbn. repeat split; lia. }
    intros e' Hsame. repeat split.
    + intros Hlive. rewrite verifyJWT_signed, Hsame, Hsecret.
      rewrite bool_decide_eq_true_2 by reflexivity. cbn [andb Jwt.exp].
      destruct (Z.leb_spec (Jwt.seconds (now e) + 900) (Jwt.seconds (now e')));
        [lia | reflexivity].
    + intros Hdead. rewrite verifyJWT_signed, Hsame, Hsecret.
      rewrite bool_decide_eq_true_2 by reflexivity. cbn [andb Jwt.exp].
      destruct (Z.leb_spec (Jwt.seconds (now e) + 900) (Jwt.seconds (now e')));
        [reflexivity | lia].
    + intros c' sg Hsg. rewrite verifyJWT_signed, Hsame.
      rewrite (bool_decide_eq_false_2 _ Hsg). now rewrite andb_false_r.
  - intros Hsecret Hfind Hfresh. rewrite Hfind.
    unfold UserModel.create. rewrite Hfind, Hfresh.
    unfold sign, Jwt.sign. cbn [fst snd UserModel.email].
    replace (JsString.truthy (JWT_SECRET e)) with true
      by (now destruct (JWT_SECRET e)).
    cbn. eexists _, _. reflexivity.
Qed.

End Tokens.


(** ** Invariants of the collection *)
Section Invariants.
Import Server Spec Mongoose.

Lemma uniqueSlugs_replace (st : gmap N Summary) oid d' :
  uniqueSlugs st ->
  (forall s j dj, slug d' = Some s -> st !! j = Some dj -> j <> oid ->
                  slug dj <> Some s) ->
  uniqueSlugs (<[oid := d']> st).
Proof.
  intros Hu Hfree i j di dj s Hi Hj Hsi Hsj.
  destruct (decide (i = oid)) as [->|Hio], (decide (j = oid)) as [->|Hjo];
    try reflexivity.
  - rewrite lookup_insert_eq in Hi. injection Hi as <-.
    rewrite lookup_insert_ne in Hj by congruence.
    destruct (Hfree s j dj Hsi Hj Hjo Hsj).
  - rewrite lookup_insert_eq in Hj. injection Hj as <-.
    rewrite lookup_insert_ne in Hi by congruence.
    destruct (Hfree s i di Hsj Hi Hio Hsi).
  - rewrite lookup_insert_ne in Hi, Hj by congruence.
    exact (Hu i j di dj s Hi Hj Hsi Hsj).
Qed.

Lemma insert_keeps_unique (st st' : gmap N Summary) oid d :
  uniqueSlugs st -> insert st oid d = Returns st' -> uniqueSlugs st'.
Proof.
  intros Hu H. unfold insert in H.
  destruct (st !! oid); [discriminate|].
  destruct (slug d) as [s|] eqn:Hs.
  - destruct (slugTaken st oid s) eqn:Ht; [discriminate|].
    injection H as <-. apply uniqueSlugs_replace; [exact Hu|].
    intros s' j dj Hs' Hj Hne. rewrite Hs in Hs'. injection Hs' as <-.
    exact (proj1 (slugTaken_false st oid s) Ht j dj Hj Hne).
  - injection H as <-. apply uniqueSlugs_replace; [exact Hu|].
    intros s' j dj Hs'. rewrite Hs in Hs'. discriminate.
Qed.

Lemma update_keeps_unique (st st' : gmap N Summary) oid obj r :
  uniqueSlugs st -> findByIdAndUpdate st oid obj = Returns (st', r) ->
  uniqueSlugs st'.
Proof.
  intros Hu H. unfold findByIdAndUpdate in H.
  destruct (castUpdate obj) as [u| |]; cbn -[slugTaken] in H; try discriminate.
  destruct (st !! oid) as [d|] eqn:Hd; [|now injection H as <- _].
  destruct (set_slug u) as [s|] eqn:Hs.
  - destruct (slugTaken st oid s) eqn:Ht; [discriminate|].
    injection H as <- _. apply uniqueSlugs_replace; [exact Hu|].
    intros s' j dj Hs' Hj Hne. unfold apply in Hs'. cbn in Hs'.
    rewrite Hs in Hs'. injection Hs' as <-.
    exact (proj1 (slugTaken_false st oid s) Ht j dj Hj Hne).
  - injection H as <- _. apply uniqueSlugs_replace; [exact Hu|].
    intros s' j dj Hs' Hj Hne Hsj. unfold apply in Hs'. cbn in Hs'.
    rewrite Hs in Hs'. apply Hne. exact (Hu j oid dj d s' Hj Hd Hsj Hs').
Qed.

(** The unique index holds in every collection the writing handlers
    leave behind. *)
Theorem handlers_keep_slugs_unique (e : env) (h : option header) (oid : N)
    (body : gmap string json) (st : gmap N Summary) :
  uniqueSlugs st ->
  (forall st' r, postSummaries e h body st = Some (st', r) -> uniqueSlugs st')
  /\ (forall st' r, putSummary e h oid body st = Some (st', r) -> uniqueSlugs st')
  /\ uniqueSlugs (patchStar oid body st).1
  /\ (forall st' r, postShare e oid st = Some (st', r) -> uniqueSlugs st').
Proof.
  intros Hu. repeat split.
  - intros st' r H. unfold postSummaries in H.
    destruct (verifyJWT e h); [injection H as <- _; exact Hu|].
    destruct (Validator.validationResult _); [|injection H as <- _; exact Hu].
    destruct (default (JArr []) (body !! "tags"));
      cbn [mbind outcome_bind try_catch] in H; try (injection H as <- _; exact Hu).
    destruct (construct _ _) as [d| |]; cbn [mbind outcome_bind try_catch] in H;
      try discriminate H; try (injection H as <- _; exact Hu).
    destruct (insert st (fresh e) d) as [st1| |] eqn:Hi;
      cbn [mbind outcome_bind try_catch] in H;
      try discriminate H; try (injection H as <- _; exact Hu).
    injection H as <- _. exact (insert_keeps_unique _ _ _ _ Hu Hi).
  - intros st' r H. unfold putSummary in H.
    destruct (verifyJWT e h); [injection H as <- _; exact Hu|].
    destruct (Validator.validationResult _); [|injection H as <- _; exact Hu].
    destruct (findByIdAndUpdate st oid body) as [[st1 [d|]]| |] eqn:Hf;
      cbn [mbind outcome_bind try_catch fst snd] in H;
      try discriminate H; try (injection H as <- _; exact Hu).
    injection H as <- _. exact (update_keeps_unique _ _ _ _ _ Hu Hf).
  - unfold patchStar. destruct (st !! oid) as [d|] eqn:Hd; [|exact Hu].
    destruct (validate _); [exact Hu|].
    cbn [fst]. apply uniqueSlugs_replace; [exact Hu|].
    intros s j dj Hs Hj Hne Hsj. apply Hne.
    exact (Hu j oid dj d s Hj Hd Hsj Hs).
  - intros st' r H. unfold postShare in H.
    generalize dependent (Nanoid.nanoid 10 (random e)). intros s H.
    destruct (findByIdAndUpdate st oid _) as [[st1 [d|]]| |] eqn:Hf;
      cbn [mbind outcome_bind try_catch fst snd] in H;
      try discriminate H; try (injection H as <- _; exact Hu).
    injection H as <- _. exact (update_keeps_unique _ _ _ _ _ Hu Hf).
Qed.

End Invariants.

(** ** What a create stores *)
Section Create.
Import Server Spec Mongoose.

Lemma clean_elements items :
  Forall (fun t => exists x, t = JsString.trim x /\ JsString.truthy t = true)
         (clean items).
Proof.
  unfold clean. apply Forall_take, Forall_forall. intros t Ht.
  apply list_elem_of_In, filter_In in Ht as [Hin Htruthy].
  apply in_map_iff in Hin as (x & <- & _). now exists (Js.String_ x).
Qed.

Lemma clean_invariant items : tagsInvariant (clean items).
Proof.
  split.
  - unfold clean. rewrite length_take. lia.
  - eapply Forall_impl; [apply clean_elements|].
    intros t (x & -> & Ht). split; [apply trim_trimmed|].
    intros E. rewrite E in Ht. discriminate.
Qed.

Lemma clean_fixed_by_trim items : JsString.trim <$> clean items = clean items.
Proof.
  pose proof (clean_invariant items) as [_ H].
  induction H as [|t l [Ht _] _ IH]; [reflexivity|].
  cbn. now rewrite Ht, IH.
Qed.

Lemma castTags_strings l :
  castTags (JArr (JStr <$> l)) = Returns (JsString.trim <$> l).
Proof.
  unfold castTags. induction l as [|t l IH]; [reflexivity|].
  cbn [fmap list_fmap map sequence] in *. rewrite IH. reflexivity.
Qed.

Lemma construct_argument now_ms (a b : option json) (cleaned : list string) (v : json) :
  construct now_ms
    (withField "note" a (withField "summary" b
       (<["tags" := JArr (JStr <$> cleaned)]> (<["userId" := v]> ∅)))) =
  n ← requiredString a; s ← requiredString b;
  Returns {| note := n; summary := s; tags := JsString.trim <$> cleaned;
             starred := false; slug := None; createdAt := now_ms |}.
Proof.
  set (obj := withField "note" a _).
  assert (Hn : obj !! "note" = a) by (destruct a, b; vm_compute; reflexivity).
  assert (Hs : obj !! "summary" = b) by (destruct a, b; vm_compute; reflexivity).
  assert (Ht : obj !! "tags" = Some (JArr (JStr <$> cleaned)))
    by (destruct a, b; vm_compute; reflexivity).
  assert (Hb : obj !! "starred" = None) by (destruct a, b; vm_compute; reflexivity).
  assert (Hg : obj !! "slug" = None) by (destruct a, b; vm_compute; reflexivity).
  assert (Hc : obj !! "createdAt" = None) by (destruct a, b; vm_compute; reflexivity).
  clearbody obj. unfold construct. rewrite Hn, Hs, Ht, Hb, Hg, Hc.
  cbn [orDefault]. rewrite castTags_strings.
  destruct (requiredString a); [|reflexivity..].
  destruct (requiredString b); reflexivity.
Qed.

Lemma verifyJWT_refuses e h r :
  verifyJWT e h = inl r -> exists m, r = Response 401 (message m).
Proof.
  unfold verifyJWT. intros H.
  destruct h as [[[t|]|raw]|]; try (injection H as <-; eauto).
  destruct (Jwt.verify t (JWT_SECRET e) (now e)); try discriminate H;
    injection H as <-; eauto.
Qed.

(** A Summary that the create handler answers with is stored under the
    fresh id, with tags that satisfy the invariant, not starred, without
    a slug, and created now. *)
Theorem created_summary_is_clean (e : env) (h : option header)
    (body : gmap string json) (st st' : gmap N Summary)
    (code : Z) (oid : N) (d : Summary) :
  postSummaries e h body st = Some (st', Response code (Doc oid d)) ->
  code = 201 /\ oid = fresh e /\ st' !! oid = Some d
  /\ tagsInvariant (tags d)
  /\ starred d = false /\ slug d = None /\ createdAt d = now e.
Proof.
  intros H. unfold postSummaries in H.
  destruct (verifyJWT e h) as [r|u] eqn:Hauth.
  { apply verifyJWT_refuses in Hauth as [m ->]. discriminate H. }
  destruct (Validator.validationResult _); [|discriminate H].
  destruct (default (JArr []) (body !! "tags")) as [| | | |items|];
    try discriminate H.
  cbn [mbind outcome_bind] in H. rewrite construct_argument in H.
  destruct (requiredString (body !! "note")) as [n| |];
    cbn [mbind outcome_bind try_catch] in H; try discriminate H.
  destruct (requiredString (body !! "summary")) as [s| |];
    cbn [mbind outcome_bind try_catch] in H; try discriminate H.
  unfold insert in H. cbn [slug] in H.
  destruct (st !! fresh e) eqn:Hfresh;
    cbn [mbind outcome_bind try_catch] in H; [discriminate H|].
  injection H as <- <- <- <-.
  rewrite clean_fixed_by_trim. cbn [tags starred slug createdAt].
  repeat split; try reflexivity; try apply clean_invariant.
  apply lookup_insert_eq.
Qed.

End Create.

(** ** The theorems at concrete requests *)
Section Witnesses.
Import Server Spec Sample Mongoose.

Lemma doc_filled ts : filled (doc "n" "s" ts).
Proof. split; discriminate. Defined.

Lemma star_toggles_or_sets_witness :
  one (doc "n" "s" []) !! 1%N = Some (doc "n" "s" [])
  /\ filled (doc "n" "s" [])
  /\ (∅ : gmap string json) !! "starred" = None
  /\ patchStar 1 ∅ (one (doc "n" "s" []))
       = (one (withStarred true (doc "n" "s" [])),
          Response 200 (Doc 1 (withStarred true (doc "n" "s" []))))
  /\ patchStar 1 ∅ (one (withStarred true (doc "n" "s" [])))
       = (one (doc "n" "s" []), Response 200 (Doc 1 (doc "n" "s" []))).
Proof.
  assert (H1 : one (doc "n" "s" []) !! 1%N = Some (doc "n" "s" []))
    by (vm_compute; reflexivity).
  assert (H2 : (∅ : gmap string json) !! "starred" = None) by reflexivity.
  split; [exact H1|]. split; [exact (doc_filled [])|]. split; [exact H2|].
  destruct (star_toggles_or_sets 1 ∅ (one (doc "n" "s" []))) as (Htoggle & _ & _).
  destruct (Htoggle _ H1 (doc_filled []) H2) as [Ha Hb].
  split; [rewrite Ha | rewrite <- Hb]; vm_compute; reflexivity.
Defined.

Lemma star_coerces_by_truthiness_witness :
  one (doc "n" "s" []) !! 1%N = Some (doc "n" "s" [])
  /\ filled (doc "n" "s" [])
  /\ ({[ "starred" := JStr "false" ]} : gmap string json) !! "starred"
       = Some (JStr "false")
  /\ patchStar 1 {[ "starred" := JStr "false" ]} (one (doc "n" "s" []))
       = (one (withStarred true (doc "n" "s" [])),
          Response 200 (Doc 1 (withStarred true (doc "n" "s" [])))).
Proof.
  assert (H1 : one (doc "n" "s" []) !! 1%N = Some (doc "n" "s" []))
    by (vm_compute; reflexivity).
  assert (H2 : ({[ "starred" := JStr "false" ]} : gmap string json) !! "starred"
                 = Some (JStr "false")) by (vm_compute; reflexivity).
  split; [exact H1|]. split; [exact (doc_filled [])|]. split; [exact H2|].
  destruct (star_coerces_by_truthiness 1 {[ "starred" := JStr "false" ]}
              (one (doc "n" "s" []))) as (Hset & _).
  destruct (Hset _ H1 (doc_filled [])) as (_ & Hv & _).
  rewrite (Hv _ H2) by discriminate. vm_compute. reflexivity.
Defined.

Lemma unique_one d : uniqueSlugs (one d).
Proof.
  intros i j di dj s Hi Hj _ _. unfold one in *.
  apply lookup_singleton_Some in Hi as [<- _].
  apply lookup_singleton_Some in Hj as [<- _]. reflexivity.
Defined.

Lemma shared_read_is_the_projection_witness :
  uniqueSlugs (one (withSlug "abc" (doc "n" "s" ["t"])))
  /\ getShared "abc" (one (withSlug "abc" (doc "n" "s" ["t"])))
       = Response 200 (Json (JObj [("note", JStr "n"); ("summary", JStr "s");
                                   ("tags", JArr [JStr "t"]);
                                   ("createdAt", JNum 1600000000000)]))
  /\ getShared "xyz" (one (withSlug "abc" (doc "n" "s" ["t"])))
       = Response 404 (message "Not found").
Proof.
  pose proof (unique_one (withSlug "abc" (doc "n" "s" ["t"]))) as Hu.
  split; [exact Hu|].
  destruct (shared_read_is_the_projection _ "abc" Hu ltac:(discriminate))
    as [Hfound _].
  destruct (shared_read_is_the_projection _ "xyz" Hu ltac:(discriminate))
    as [_ Hnone].
  split.
  - apply (Hfound 1%N (withSlug "abc" (doc "n" "s" ["t"])));
      vm_compute; reflexivity.
  - apply Hnone. intros i d Hi. unfold one in Hi.
    apply lookup_singleton_Some in Hi as [_ <-]. discriminate.
Defined.


Lemma list_pagination_witness :
  readable None
  /\ getSummaries three (Query None None None None)
       = Some (Response 200 (Docs [(2%N, docAt 30); (3%N, docAt 20); (1%N, docAt 10)]))
  /\ getSummaries three (Query None (Some 2) (Some 2) None)
       = Some (Response 200 (Page [(1%N, docAt 10)] 2 2 3))
  /\ getSummaries three (Query None (Some 0) (Some 2) None)
       = Some (Response 200 (Docs [(2%N, docAt 30); (3%N, docAt 20); (1%N, docAt 10)])).
Proof.
  assert (Hr : readable None) by (left; reflexivity).
  assert (H0 : getSummaries three (Query None None None None)
               = Some (Response 200
                         (Docs [(2%N, docAt 30); (3%N, docAt 20); (1%N, docAt 10)])))
    by (vm_compute; reflexivity).
  split; [exact Hr|]. split; [exact H0|].
  destruct (list_pagination three None None Hr) as (all & Hall).
  cbn zeta in Hall.
  destruct Hall as (H & _ & _ & _ & _ & _ & Hpaged & Hwhole).
  rewrite H0 in H. injection H as <-.
  split.
  - destruct (Hpaged 2 2 ltac:(lia) ltac:(lia))
      as (items & pages & Heq & -> & Hup & Hlow & _).
    cbn in Hup, Hlow. assert (pages = 2) as -> by lia.
    rewrite Heq. vm_compute. reflexivity.
  - apply (Hwhole (Some 0) (Some 2)). left. cbn. lia.
Defined.

Lemma list_search_literal_witness :
  JsString.trim " Hello " <> EmptyString
  /\ RegExp.ordinary (JsString.trim " Hello ")
  /\ exists items,
       getSummaries (one (doc "say hello" "x" [])) (Query (Some " Hello ") None None None)
         = Some (Response 200 (Docs items))
       /\ forall i d, (i, d) ∈ items <->
            one (doc "say hello" "x" []) !! i = Some d
            /\ mentions (JsString.trim " Hello ") d.
Proof.
  assert (Hne : JsString.trim " Hello " <> EmptyString) by (vm_compute; discriminate).
  assert (Hord : RegExp.ordinary (JsString.trim " Hello ")).
  { intros c Hc. vm_compute in Hc.
    repeat (apply elem_of_cons in Hc as [->|Hc]; [reflexivity|]). inversion Hc. }
  split; [exact Hne|]. split; [exact Hord|].
  destruct (list_search_literal (one (doc "say hello" "x" [])) " Hello " None)
    as [H _].
  destruct (H Hne Hord) as (items & Heq & _ & Hiff).
  exists items. split; assumption.
Defined.

Lemma created_summary_has_no_owner_witness :
  verifyJWT server alice = inr (User_ 1 "alice@example.org")
  /\ verifyJWT server bob = inr (User_ 2 "bob@example.org")
  /\ postSummaries server alice hello ∅ = postSummaries server bob hello ∅.
Proof.
  assert (Ha : verifyJWT server alice = inr (User_ 1 "alice@example.org"))
    by (vm_compute; reflexivity).
  assert (Hb : verifyJWT server bob = inr (User_ 2 "bob@example.org"))
    by (vm_compute; reflexivity).
  split; [exact Ha|]. split; [exact Hb|].
  exact (created_summary_has_no_owner server alice bob _ _ hello ∅ Ha Hb).
Defined.

Lemma update_overwrites_slug_and_createdAt_witness :
  verifyJWT server alice = inr (User_ 1 "alice@example.org")
  /\ one (doc "n" "s" []) !! 1%N = Some (doc "n" "s" [])
  /\ putSummary server alice 1 {[ "slug" := JStr "mine"; "createdAt" := JNum 0 ]}
                (one (doc "n" "s" []))
       = Some (one (overwritten "mine" 0 (doc "n" "s" [])),
               Response 200 (Doc 1 (overwritten "mine" 0 (doc "n" "s" [])))).
Proof.
  assert (Ha : verifyJWT server alice = inr (User_ 1 "alice@example.org"))
    by (vm_compute; reflexivity).
  assert (Hd : one (doc "n" "s" []) !! 1%N = Some (doc "n" "s" []))
    by (vm_compute; reflexivity).
  split; [exact Ha|]. split; [exact Hd|].
  rewrite (update_overwrites_slug_and_createdAt server alice _ 1 _ _ "mine" 0 Ha Hd);
    [vm_compute; reflexivity | vm_compute; reflexivity | vm_compute; discriminate].
Defined.

Lemma register_token_round_trip_witness :
  registration !! "email" = Some (JStr "a@b.com")
  /\ registration !! "password" = Some (JStr "secret1")
  /\ hasAt "a@b.com" = true
  /\ (6 <= String.length "secret1")%nat
  /\ (exists users',
        register hasAt server registration ∅
          = Some (users', Response 201 (Session issued 7 "a@b.com")))
  /\ verifyJWT server (Some (Bearer (Some issued))) = inr (User_ 7 "a@b.com").
Proof.
  assert (H1 : registration !! "email" = Some (JStr "a@b.com"))
    by (vm_compute; reflexivity).
  assert (H2 : registration !! "password" = Some (JStr "secret1"))
    by (vm_compute; reflexivity).
  assert (H3 : hasAt "a@b.com" = true) by reflexivity.
  assert (H4 : (6 <= String.length "secret1")%nat) by (cbn; lia).
  repeat (split; [assumption|]).
  destruct (register_token_round_trip hasAt server registration ∅ _ _ H1 H2 H3 H4)
    as [Hround Hfresh].
  destruct Hfresh as (users' & token & Hreg);
    [vm_compute; discriminate | vm_compute; reflexivity | vm_compute; reflexivity |].
  assert (token = issued) as ->.
  { assert (Hc : register hasAt server registration ∅
                 = Some ({[ 7%N := {| UserModel.email := "a@b.com";
                                      UserModel.passwordHash :=
                                        UserModel.Salted 0 "secret1" |} ]},
                         Response 201 (Session issued 7 "a@b.com")))
      by (vm_compute; reflexivity).
    rewrite Hc in Hreg. now injection Hreg. }
  split; [now exists users'|].
  destruct (Hround _ _ _ _ _ Hreg) as (_ & _ & _ & _ & Hverify).
  destruct (Hverify server eq_refl) as (Hlive & _).
  apply Hlive. vm_compute. reflexivity.
Defined.

Lemma handlers_keep_slugs_unique_witness :
  uniqueSlugs (one (withSlug "abc" (doc "n" "s" [])))
  /\ uniqueSlugs (patchStar 1 ∅ (one (withSlug "abc" (doc "n" "s" [])))).1.
Proof.
  pose proof (unique_one (withSlug "abc" (doc "n" "s" []))) as Hu.
  split; [exact Hu|].
  exact (proj1 (proj2 (proj2 (handlers_keep_slugs_unique server alice 1 ∅ _ Hu)))).
Defined.

Lemma created_summary_is_clean_witness :
  postSummaries server alice hello ∅
    = Some (<[7%N := {| note := "hello world"; summary := "hello"; tags := ["t1"];
                        starred := false; slug := None;
                        createdAt := 1700000000000 |}]> ∅,
            Response 201 (Doc 7 {| note := "hello world"; summary := "hello";
                                   tags := ["t1"]; starred := false; slug := None;
                                   createdAt := 1700000000000 |}))
  /\ tagsInvariant ["t1"].
Proof.
  assert (H : postSummaries server alice hello ∅
              = Some (<[7%N := {| note := "hello world"; summary := "hello";
                                  tags := ["t1"]; starred := false; slug := None;
                                  createdAt := 1700000000000 |}]> ∅,
                      Response 201 (Doc 7 {| note := "hello world"; summary := "hello";
                                             tags := ["t1"]; starred := false;
                                             slug := None;
                                             createdAt := 1700000000000 |})))
    by (vm_compute; reflexivity).
  split; [exact H|].
  exact (proj1 (proj2 (proj2 (proj2 (created_summary_is_clean _ _ _ _ _ _ _ _ H))))).
Defined.

End Witnesses.

(** ** Deleting *)
Section Deleting.
Import Server Spec Mongoose Routes.

Lemma getSummaries_everything (st : gmap N Summary) srt :
  getSummaries st (Query None None None srt) =
    Some (Response 200
            (Docs (Sort.sortBy (default [(Sort.ByCreatedAt, Sort.Descending)] srt)
                               (find (fun _ => true) st)))).
Proof. reflexivity. Qed.

Lemma elem_of_everything (st : gmap N Summary) spec i d :
  (i, d) ∈ Sort.sortBy spec (find (fun _ => true) st) <-> st !! i = Some d.
Proof. rewrite sortBy_perm, elem_of_find. tauto. Qed.

Lemma findOneBySlug_Some (st : gmap N Summary) s i d :
  findOneBySlug st s = Some (i, d) -> st !! i = Some d /\ slug d = Some s.
Proof.
  unfold findOneBySlug. intros H. apply head_Some_elem_of in H.
  apply list_elem_of_filter in H as [Hs Hin].
  apply elem_of_map_to_list in Hin. now split.
Qed.

Lemma findOneBySlug_None (st : gmap N Summary) s :
  findOneBySlug st s = None -> forall i d, st !! i = Some d -> slug d <> Some s.
Proof.
  unfold findOneBySlug. intros H i d Hi Hs. apply head_None in H.
  eapply (filter_nil_not_elem_of _ _ (i, d) H); [exact Hs|].
  now apply elem_of_map_to_list.
Qed.

(** An authenticated delete of a stored Summary answers 200 and removes
    that Summary and no other: a lookup, and the listing, afterwards
    show exactly the other Summaries, and deleting the same id again
    answers 404.  A delete of an id that no Summary has answers 404 and
    leaves the collection as it is. *)
Theorem delete_removes_the_summary (e : env) (h : option header) (u : user)
    (oid : N) (st : gmap N Summary) :
  verifyJWT e h = inr u ->
  (forall d, st !! oid = Some d ->
     exists st',
       deleteSummary e h oid st
         = (st', Response 200 (message "Summary deleted successfully"))
       /\ (forall j dj, st' !! j = Some dj <-> st !! j = Some dj /\ j <> oid)
       /\ (forall srt before after,
             getSummaries st (Query None None None srt)
               = Some (Response 200 (Docs before)) ->
             getSummaries st' (Query None None None srt)
               = Some (Response 200 (Docs after)) ->
             forall x, x ∈ after <-> x ∈ before /\ x.1 <> oid)
       /\ deleteSummary e h oid st'
            = (st', Response 404 (message "Summary not found")))
  /\ (st !! oid = None ->
        deleteSummary e h oid st
          = (st, Response 404 (message "Summary not found"))).
Proof.
  intros Hauth. unfold deleteSummary. rewrite Hauth. split.
  - intros d Hd. exists (delete oid st). rewrite Hd.
    assert (Hlook : forall j dj, delete oid st !! j = Some dj
                                 <-> st !! j = Some dj /\ j <> oid).
    { intros j dj. rewrite lookup_delete_Some. split; intros [? ?]; split; auto. }
    split; [reflexivity|]. split; [exact Hlook|]. split.
    + intros srt before after Hb Ha [i di].
      rewrite getSummaries_everything in Hb, Ha.
      injection Hb as <-. injection Ha as <-.
      rewrite !elem_of_everything. apply Hlook.
    + now rewrite lookup_delete_eq.
  - intros Hd. now rewrite Hd.
Qed.

(** Deleting a shared Summary withdraws its slug: under the unique
    index the public read of that slug answers 404 afterwards (from the
    handler, or from the application when the slug is empty), and the
    public read of every other slug answers what it answered before. *)
Theorem deleted_summary_is_unshared (e : env) (h : option header) (u : user)
    (oid : N) (st : gmap N Summary) (d : Summary) (s : string) :
  verifyJWT e h = inr u ->
  uniqueSlugs st ->
  st !! oid = Some d -> slug d = Some s ->
  getShared s (deleteSummary e h oid st).1
    = Response 404 (message (if JsString.truthy s then "Not found"
                             else "Not Found"))
  /\ forall s', s' <> s ->
       getShared s' (deleteSummary e h oid st).1 = getShared s' st.
Proof.
  intros Hauth Hu Hd Hs. unfold deleteSummary. rewrite Hauth, Hd. cbn [fst].
  split.
  - unfold getShared. destruct (JsString.truthy s); [|reflexivity].
    rewrite findOneBySlug_none; [reflexivity|].
    intros i di Hi Hsi. apply lookup_delete_Some in Hi as [Hne Hi].
    apply Hne. symmetry. exact (Hu i oid di d s Hi Hd Hsi Hs).
  - intros s' Hne. unfold getShared.
    destruct (JsString.truthy s'); [|reflexivity].
    destruct (findOneBySlug st s') as [[i di]|] eqn:Hf.
    + apply findOneBySlug_Some in Hf as [Hi Hsi].
      assert (Hio : i <> oid) by (intros ->; congruence).
      rewrite (findOneBySlug_only (delete oid st) s' i di); [reflexivity| | |].
      * apply lookup_delete_Some. split; [congruence | exact Hi].
      * exact Hsi.
      * intros j dj Hj Hsj. apply lookup_delete_Some in Hj as [_ Hj].
        exact (Hu j i dj di s' Hj Hi Hsj Hsi).
    + rewrite findOneBySlug_none; [reflexivity|].
      intros i di Hi. apply lookup_delete_Some in Hi as [_ Hi].
      exact (findOneBySlug_None st s' Hf i di Hi).
Qed.

End Deleting.

(** ** Refusals and failures *)
Section Failures.
Import Server Spec Mongoose Routes.

(** [verifyJWT] lets a request through exactly when it carries a
    Bearer token that is signed over its own payload with the server's
    non-empty secret and has not expired, and then [req.user] is the id
    and email of that payload; every other request is answered 401. *)
Theorem verifyJWT_accepts_exactly (e : env) (h : option header) :
  (forall u,
     verifyJWT e h = inr u <->
     exists c,
       h = Some (Bearer (Some (Jwt.Signed c (Jwt.HS256 (JWT_SECRET e) c))))
       /\ JWT_SECRET e <> EmptyString
       /\ Jwt.seconds (now e) < Jwt.exp c
       /\ u = User_ (Jwt.id c) (Jwt.email c))
  /\ (forall r, verifyJWT e h = inl r -> status r = 401).
Proof.
  split.
  - intros u. split.
    + intros H. destruct h as [[[[c sg|raw]|]|raw]|];
        try (cbn in H; discriminate H).
      * rewrite verifyJWT_signed in H.
        destruct (JsString.truthy (JWT_SECRET e)) eqn:Hs; [|discriminate H].
        destruct (bool_decide (sg = _)) eqn:Hsg; [|discriminate H].
        destruct (Z.leb_spec (Jwt.exp c) (Jwt.seconds (now e))); [discriminate H|].
        cbn in H. injection H as <-. apply bool_decide_eq_true in Hsg as ->.
        exists c. repeat split; [|assumption].
        intros E. rewrite E in Hs. discriminate Hs.
      * unfold verifyJWT, Jwt.verify in H.
        destruct (JsString.truthy (JWT_SECRET e)); discriminate H.
    + intros (c & -> & Hs & Hlive & ->). rewrite verifyJWT_signed.
      replace (JsString.truthy (JWT_SECRET e)) with true
        by (now destruct (JWT_SECRET e)).
      rewrite bool_decide_eq_true_2 by reflexivity.
      destruct (Z.leb_spec (Jwt.exp c) (Jwt.seconds (now e))); [lia | reflexivity].
  - intros r H. apply verifyJWT_refuses in H as [m ->]. reflexivity.
Qed.

(** A write that is not answered with success stores nothing: the
    collection after a create that is not answered 201, or after an
    update, delete, star or share that is not answered 200, is the
    collection before. *)
Theorem failed_writes_change_nothing (e : env) (h : option header) (oid : N)
    (body : gmap string json) (st : gmap N Summary) :
  (forall st' r, postSummaries e h body st = Some (st', r) ->
                 status r <> 201 -> st' = st)
  /\ (forall st' r, putSummary e h oid body st = Some (st', r) ->
                    status r <> 200 -> st' = st)
  /\ (status (deleteSummary e h oid st).2 <> 200 ->
      (deleteSummary e h oid st).1 = st)
  /\ (status (patchStar oid body st).2 <> 200 -> (patchStar oid body st).1 = st)
  /\ (forall st' r, postShare e oid st = Some (st', r) ->
                    status r <> 200 -> st' = st).
Proof.
  repeat split.
  - intros st' r H Hr. unfold postSummaries in H.
    destruct (verifyJWT e h); [now injection H as <- _|].
    destruct (Validator.validationResult _); [|now injection H as <- _].
    destruct (default (JArr []) (body !! "tags"));
      cbn [mbind outcome_bind try_catch] in H; try (now injection H as <- _).
    destruct (construct _ _) as [d| |]; cbn [mbind outcome_bind try_catch] in H;
      try discriminate H; try (now injection H as <- _).
    destruct (insert st (fresh e) d) as [st1| |];
      cbn [mbind outcome_bind try_catch] in H;
      try discriminate H; try (now injection H as <- _).
    injection H as _ <-. now destruct Hr.
  - intros st' r H Hr. unfold putSummary in H.
    destruct (verifyJWT e h); [now injection H as <- _|].
    destruct (Validator.validationResult _); [|now injection H as <- _].
    destruct (findByIdAndUpdate st oid body) as [[st1 [d|]]| |];
      cbn [mbind outcome_bind try_catch fst snd] in H;
      try discriminate H; try (now injection H as <- _).
    injection H as _ <-. now destruct Hr.
  - unfold deleteSummary. destruct (verifyJWT e h); [reflexivity|].
    destruct (st !! oid); [|reflexivity]. intros Hr. now destruct Hr.
  - unfold patchStar. destruct (st !! oid); [|reflexivity].
    destruct (validate _); [reflexivity|].
    intros Hr. now destruct Hr.
  - intros st' r H Hr. unfold postShare in H.
    generalize dependent (Nanoid.nanoid 10 (random e)). intros s H.
    destruct (findByIdAndUpdate st oid _) as [[st1 [d|]]| |];
      cbn [mbind outcome_bind try_catch fst snd] in H;
      try discriminate H; try (now injection H as <- _).
    injection H as _ <-. now destruct Hr.
Qed.

Lemma slugTaken_true (st : gmap N Summary) self s j dj :
  st !! j = Some dj -> j <> self -> slug dj = Some s -> slugTaken st self s = true.
Proof.
  intros Hj Hne Hs. destruct (slugTaken st self s) eqn:E; [reflexivity|].
  destruct (proj1 (slugTaken_false st self s) E j dj Hj Hne Hs).
Qed.

(** The unique index fails an operation rather than let two Summaries
    carry one slug: when another Summary already carries the slug, a
    share that draws it is answered 500 and an authenticated update
    that names it is answered 400, and neither stores anything. *)
Theorem slug_collision_changes_nothing (e : env) (h : option header) (u : user)
    (oid j : N) (st : gmap N Summary) (d dj : Summary) :
  st !! oid = Some d -> j <> oid -> st !! j = Some dj ->
  (slug dj = Some (Nanoid.nanoid 10 (random e)) ->
     postShare e oid st = Some (st, Response 500 (ErrorMessage DuplicateKey)))
  /\ (forall s, slug dj = Some s -> verifyJWT e h = inr u ->
        putSummary e h oid {[ "slug" := JStr s ]} st
          = Some (st, Response 400 (ErrorMessage DuplicateKey))).
Proof.
  intros Hd Hne Hj. split.
  - intros Hs. unfold postShare, findByIdAndUpdate. rewrite castUpdate_slug.
    cbn -[slugTaken Nanoid.nanoid]. rewrite Hd. cbn -[slugTaken Nanoid.nanoid].
    now rewrite (slugTaken_true st oid _ j dj Hj Hne Hs).
  - intros s Hs Hauth. unfold putSummary. rewrite Hauth.
    rewrite !lookup_singleton_ne by discriminate.
    cbn [Validator.optional Validator.validationResult filter list_filter
           fmap list_fmap].
    unfold findByIdAndUpdate. rewrite castUpdate_slug.
    cbn -[slugTaken]. rewrite Hd. cbn -[slugTaken].
    now rewrite (slugTaken_true st oid _ j dj Hj Hne Hs).
Qed.

End Failures.

(** ** What create and update store *)
Section Stored.
Import Server Spec Mongoose Routes.

Lemma validationResult_nil checks :
  Validator.validationResult checks = [] -> Forall (fun c => c.2 = true) checks.
Proof.
  unfold Validator.validationResult. intros H.
  apply fmap_nil_inv in H. apply Forall_forall. intros c Hc.
  destruct (c.2) eqn:E; [reflexivity|].
  exfalso. eapply (filter_nil_not_elem_of _ _ c H); [exact E | exact Hc].
Qed.

(** What a create that answers with a document went through. *)
Lemma postSummaries_created e h body (st st' : gmap N Summary) code oid d :
  postSummaries e h body st = Some (st', Response code (Doc oid d)) ->
  exists items,
    default (JArr []) (body !! "tags") = JArr items
    /\ Validator.optional (Validator.isArray 10) (body !! "tags") = true
    /\ requiredString (body !! "note") = Returns (note d)
    /\ requiredString (body !! "summary") = Returns (summary d)
    /\ tags d = clean items
    /\ oid = fresh e /\ st !! oid = None /\ st' = <[oid := d]> st.
Proof.
  intros H. unfold postSummaries in H.
  destruct (verifyJWT e h) as [r|u] eqn:Hauth.
  { apply verifyJWT_refuses in Hauth as [m ->]. discriminate H. }
  destruct (Validator.validationResult _) eqn:Hv; [|discriminate H].
  apply validationResult_nil in Hv.
  apply Forall_cons in Hv as [_ Hv]. apply Forall_cons in Hv as [_ Hv].
  apply Forall_cons in Hv as [Htags _]. cbn [snd] in Htags.
  destruct (default (JArr []) (body !! "tags")) as [| | | |items|] eqn:Hdef;
    try discriminate H.
  exists items. split; [reflexivity|]. split; [exact Htags|].
  cbn [mbind outcome_bind] in H. rewrite construct_argument in H.
  destruct (requiredString (body !! "note")) as [n| |];
    cbn [mbind outcome_bind try_catch] in H; try discriminate H.
  destruct (requiredString (body !! "summary")) as [s| |];
    cbn [mbind outcome_bind try_catch] in H; try discriminate H.
  unfold insert in H. cbn [slug] in H.
  destruct (st !! fresh e) eqn:Hfresh;
    cbn [mbind outcome_bind try_catch] in H; [discriminate H|].
  injection H as <- _ <- <-.
  rewrite clean_fixed_by_trim. cbn [note summary tags].
  repeat split; try reflexivity. exact Hfresh.
Qed.

(** The [slice(0, 10)] of the create handler never cuts anything: the
    validation has already refused more than ten tags, so a created
    Summary stores every tag of the body that is not blank, converted
    to a string and trimmed, in the body's order. *)
Theorem created_tags_are_not_truncated (e : env) (h : option header)
    (body : gmap string json) (st st' : gmap N Summary)
    (code : Z) (oid : N) (d : Summary) :
  postSummaries e h body st = Some (st', Response code (Doc oid d)) ->
  tags d = List.filter JsString.truthy
             (map (fun t => JsString.trim (Js.String_ t))
                  (match body !! "tags" with
                   | Some (JArr items) => items
                   | _ => []
                   end)).
Proof.
  intros H. apply postSummaries_created in H
    as (items & Hdef & Hvalid & _ & _ & -> & _).
  assert (Hlen : (length items <= 10)%nat).
  { destruct (body !! "tags") as [v|]; cbn in Hdef, Hvalid.
    - subst v. cbn in Hvalid. now apply Nat.leb_le.
    - injection Hdef as <-. cbn. lia. }
  assert (Hitems : match body !! "tags" with
                   | Some (JArr items) => items
                   | _ => []
                   end = items).
  { destruct (body !! "tags") as [v|]; cbn in Hdef; [now subst v|].
    now injection Hdef. }
  rewrite Hitems. unfold clean. apply take_ge.
  etransitivity; [apply List.filter_length_le|]. now rewrite length_map.
Qed.

(** A Summary that has just been created is listed: the unfiltered
    listing of the new collection holds it and one item more than the
    listing before, and a search whose trimmed text has no syntax
    character and occurs in the Summary lists it too. *)
Theorem created_summary_is_listed (e : env) (h : option header)
    (body : gmap string json) (st st' : gmap N Summary)
    (code : Z) (oid : N) (d : Summary) :
  postSummaries e h body st = Some (st', Response code (Doc oid d)) ->
  (forall srt, exists before after,
     getSummaries st (Query None None None srt) = Some (Response 200 (Docs before))
     /\ getSummaries st' (Query None None None srt) = Some (Response 200 (Docs after))
     /\ (oid, d) ∈ after
     /\ (forall x, x ∈ before -> x ∈ after)
     /\ length after = S (length before))
  /\ (forall x srt,
        JsString.trim x <> EmptyString -> RegExp.ordinary (JsString.trim x) ->
        mentions (JsString.trim x) d ->
        exists items,
          getSummaries st' (Query (Some x) None None srt)
            = Some (Response 200 (Docs items))
          /\ (oid, d) ∈ items).
Proof.
  intros H. apply postSummaries_created in H
    as (items & _ & _ & _ & _ & _ & -> & Hfresh & ->).
  split.
  - intros srt. eexists _, _.
    split; [apply getSummaries_everything|].
    split; [apply getSummaries_everything|].
    split; [apply elem_of_everything, lookup_insert_eq|]. split.
    + intros [i di]. rewrite !elem_of_everything. intros Hi.
      rewrite lookup_insert_ne; [exact Hi | congruence].
    + rewrite !sortBy_length. unfold find.
      rewrite map_to_list_insert by exact Hfresh. reflexivity.
  - intros x srt Hne Hord Hm. unfold getSummaries.
    cbn [Server.q page limit sort default from_option id].
    replace (JsString.truthy (JsString.trim x)) with true
      by (now destruct (JsString.trim x)).
    rewrite (compile_ordinary _ Hord). cbn.
    eexists. split; [reflexivity|].
    rewrite sortBy_perm, elem_of_find, matches_literal.
    split; [apply lookup_insert_eq | exact Hm].
Qed.

End Stored.

(** ** What an update touches *)
Section Updating.
Import Server Spec Mongoose Routes.

(** What an update that answers with a document went through. *)
Lemma putSummary_updated e h oid body (st st' : gmap N Summary) code d' :
  putSummary e h oid body st = Some (st', Response code (Doc oid d')) ->
  exists u d,
    castUpdate body = Returns u /\ st !! oid = Some d
    /\ d' = apply u d /\ st' = <[oid := d']> st.
Proof.
  intros H. unfold putSummary in H.
  destruct (verifyJWT e h) as [r|usr] eqn:Hauth.
  { apply verifyJWT_refuses in Hauth as [m ->]. discriminate H. }
  destruct (Validator.validationResult _); [|discriminate H].
  unfold findByIdAndUpdate in H.
  destruct (castUpdate body) as [u| |];
    cbn [mbind outcome_bind try_catch] in H; try discriminate H.
  destruct (st !! oid) as [d|] eqn:Hd;
    cbn [mbind outcome_bind try_catch fst snd] in H; [|discriminate H].
  exists u, d. split; [reflexivity|]. split; [reflexivity|].
  destruct (set_slug u) as [s|].
  - destruct (slugTaken st oid s);
      cbn [mbind outcome_bind try_catch fst snd] in H; [discriminate H|].
    injection H as <- _ <-. now split.
  - cbn [mbind outcome_bind try_catch fst snd] in H.
    injection H as <- _ <-. now split.
Qed.

Lemma castUpdate_Returns body u :
  castUpdate body = Returns u ->
  castOpt castString (body !! "note") = Returns (set_note u)
  /\ castOpt castString (body !! "summary") = Returns (set_summary u)
  /\ castOpt castTags (body !! "tags") = Returns (set_tags u)
  /\ castOpt castBoolean (body !! "starred") = Returns (set_starred u)
  /\ castOpt castString (body !! "slug") = Returns (set_slug u)
  /\ castOpt castDate (body !! "createdAt") = Returns (set_createdAt u).
Proof.
  unfold castUpdate. intros H.
  destruct (forallb plainKey _); [|discriminate H].
  destruct (castOpt castString (body !! "note")); cbn [mbind outcome_bind] in H;
    try discriminate H.
  destruct (castOpt castString (body !! "summary")); cbn [mbind outcome_bind] in H;
    try discriminate H.
  destruct (castOpt castTags (body !! "tags")); cbn [mbind outcome_bind] in H;
    try discriminate H.
  destruct (castOpt castBoolean (body !! "starred")); cbn [mbind outcome_bind] in H;
    try discriminate H.
  destruct (castOpt castString (body !! "slug")); cbn [mbind outcome_bind] in H;
    try discriminate H.
  destruct (castOpt castDate (body !! "createdAt")); cbn [mbind outcome_bind] in H;
    try discriminate H.
  injection H as <-. cbn. repeat split.
Qed.

(** An update whose keys are plain ones (no update operator such as
    [$set], no dotted path, none of [_id], [id], [__v]), whose tags,
    if any, hold no [null], and whose body names neither [slug] nor
    [createdAt] keeps both, and keeps every other Summary: the
    answered document is the stored one with the note, summary and
    flag of the body where the body gives them, and with the stored
    values where it does not. *)
Theorem update_keeps_slug_and_createdAt (e : env) (h : option header) (oid : N)
    (body : gmap string json) (st st' : gmap N Summary) (code : Z)
    (d' : Summary) :
  (forall k, is_Some (body !! k) -> plainKey k = true) ->
  (forall items, body !! "tags" = Some (JArr items) -> JNull ∉ items) ->
  putSummary e h oid body st = Some (st', Response code (Doc oid d')) ->
  body !! "slug" = None -> body !! "createdAt" = None ->
  exists d,
    st !! oid = Some d /\ st' !! oid = Some d'
    /\ (forall j, j <> oid -> st' !! j = st !! j)
    /\ slug d' = slug d /\ createdAt d' = createdAt d
    /\ (forall n, body !! "note" = Some (JStr n) -> note d' = n)
    /\ (body !! "note" = None -> note d' = note d)
    /\ (forall s, body !! "summary" = Some (JStr s) -> summary d' = s)
    /\ (body !! "summary" = None -> summary d' = summary d)
    /\ (forall b, body !! "starred" = Some (JBool b) -> starred d' = b)
    /\ (body !! "starred" = None -> starred d' = starred d)
    /\ (body !! "tags" = None -> tags d' = tags d).
Proof.
  intros _ _ H Hslug Hcreated.
  apply putSummary_updated in H as (u & d & Hu & Hd & -> & ->).
  apply castUpdate_Returns in Hu as (Hn & Hs & Ht & Hb & Hg & Hc).
  rewrite Hslug in Hg. rewrite Hcreated in Hc.
  cbn in Hg, Hc. injection Hg as Hg. injection Hc as Hc.
  exists d. split; [exact Hd|]. split; [apply lookup_insert_eq|].
  split; [intros j Hj; apply lookup_insert_ne; congruence|].
  unfold apply. cbn [note summary tags starred slug createdAt].
  rewrite <- Hg, <- Hc. cbn [default from_option id].
  repeat split.
  - intros n E. rewrite E in Hn. cbn in Hn. injection Hn as <-. reflexivity.
  - intros E. rewrite E in Hn. cbn in Hn. injection Hn as <-. reflexivity.
  - intros s E. rewrite E in Hs. cbn in Hs. injection Hs as <-. reflexivity.
  - intros E. rewrite E in Hs. cbn in Hs. injection Hs as <-. reflexivity.
  - intros b E. rewrite E in Hb. cbn in Hb. injection Hb as <-. reflexivity.
  - intros E. rewrite E in Hb. cbn in Hb. injection Hb as <-. reflexivity.
  - intros E. rewrite E in Ht. cbn in Ht. injection Ht as <-. reflexivity.
Qed.

Lemma apply_nothing d :
  apply {| set_note := None; set_summary := None; set_tags := None;
           set_starred := None; set_slug := None; set_createdAt := None |} d = d.
Proof. now destruct d. Qed.

(** Strict mode on updates: an authenticated update whose body holds
    only keys that are no path of the schema (and no update operator,
    dotted path or key that Mongoose manages), such as [ownerId] or
    [userId], is answered 200 with the stored document and changes
    nothing. *)
Theorem update_without_schema_keys_changes_nothing (e : env)
    (h : option header) (u : user) (oid : N) (body : gmap string json)
    (st : gmap N Summary) (d : Summary) :
  verifyJWT e h = inr u ->
  st !! oid = Some d ->
  (forall k, is_Some (body !! k) -> plainKey k = true /\ k ∉ paths) ->
  putSummary e h oid body st = Some (st, Response 200 (Doc oid d)).
Proof.
  intros Hauth Hd Hkeys.
  assert (Hnone : forall k, k ∈ paths -> body !! k = None).
  { intros k Hk. destruct (body !! k) eqn:E; [|reflexivity].
    destruct (Hkeys k) as [_ Hn]; [now rewrite E|]. contradiction. }
  assert (Hin : forall k, In k paths -> body !! k = None)
    by (intros k Hk; now apply Hnone, list_elem_of_In).
  assert (Hplain : forallb plainKey (map_to_list body).*1 = true).
  { apply forallb_forall. intros k Hk. apply list_elem_of_In in Hk.
    apply list_elem_of_fmap in Hk as ([k' v] & -> & Hkv).
    apply elem_of_map_to_list in Hkv. cbn.
    apply (Hkeys k'). now rewrite Hkv. }
  unfold putSummary. rewrite Hauth.
  rewrite (Hin "note"), (Hin "summary"), (Hin "tags"), (Hin "starred")
    by (cbn; tauto).
  cbn [Validator.optional Validator.validationResult filter list_filter
         fmap list_fmap].
  unfold findByIdAndUpdate, castUpdate. rewrite Hplain.
  rewrite (Hin "note"), (Hin "summary"), (Hin "tags"), (Hin "starred"),
    (Hin "slug"), (Hin "createdAt") by (cbn; tauto).
  cbn [castOpt mbind outcome_bind mret outcome_ret]. rewrite Hd.
  cbn [set_slug mbind outcome_bind try_catch fst snd].
  rewrite apply_nothing, (insert_id _ _ _ Hd). reflexivity.
Qed.

End Updating.

(** ** Pages and order of the listing *)
Section Pages.
Import Server Spec Spec2.

(** Every page holds at most [limit] items, all of them items of the
    complete listing; a page before the last holds exactly [limit], the
    last page holds at least one, and a page past the last is empty,
    with the same totals, and is no error. *)
Theorem page_sizes (st : gmap N Summary) (text : option string)
    (srt : option (list (Sort.field * Sort.direction)))
    (all : list (N * Summary)) (p l : Z) :
  getSummaries st (Query text None None srt) = Some (Response 200 (Docs all)) ->
  0 < p -> 0 < l ->
  exists items pages,
    getSummaries st (Query text (Some p) (Some l) srt)
      = Some (Response 200 (Page items p pages (Z.of_nat (length all))))
    /\ Z.of_nat (length items) <= l
    /\ Forall (fun x => x ∈ all) items
    /\ (p < pages -> Z.of_nat (length items) = l)
    /\ (p = pages -> items <> [])
    /\ (pages < p -> items = []).
Proof.
  intros H Hp Hl.
  pose proof (ceilDiv_is_ceiling (Z.of_nat (length all)) l Hl) as [Hup Hlow].
  eexists _, _. split; [apply (getSummaries_paged _ _ _ _ _ _ H Hp Hl)|].
  set (pages := ceilDiv (Z.of_nat (length all)) l) in *.
  set (k := Z.to_nat ((p - 1) * l)).
  assert (Hlen : length (take (Z.to_nat l) (drop k all))
                 = (Z.to_nat l `min` (length all - k))%nat)
    by (now rewrite length_take, length_drop).
  split; [rewrite Hlen; lia|]. split.
  - apply Forall_take, Forall_drop, Forall_forall. auto.
  - split; [|split].
    + intros Hlt. rewrite Hlen. subst k. nia.
    + intros -> E. apply (f_equal length) in E. rewrite Hlen in E.
      cbn in E. subst k pages. nia.
    + intros Hgt. apply nil_length_inv. rewrite Hlen. subst k. nia.
Qed.

Lemma newest_leb (a b : N * Summary) :
  Sort.leb [(Sort.ByCreatedAt, Sort.Descending)] a b = true
  <-> createdAt b.2 <= createdAt a.2.
Proof.
  unfold Sort.leb. cbn.
  destruct (Z.compare_spec (createdAt a.2) (createdAt b.2)); cbn;
    split; intros; try lia; try reflexivity; discriminate.
Qed.

Lemma insert_newestFirst x l :
  newestFirst l ->
  newestFirst (Sort.insert (Sort.leb [(Sort.ByCreatedAt, Sort.Descending)]) x l).
Proof.
  induction l as [|y l IH]; intros Hl; cbn; [now split|].
  destruct Hl as [Hy Hl].
  destruct (Sort.leb _ x y) eqn:E.
  - apply newest_leb in E. cbn. split; [|now split].
    constructor; [exact E|].
    eapply Forall_impl; [exact Hy|]. cbn. intros z Hz. lia.
  - assert (Hxy : createdAt x.2 <= createdAt y.2).
    { destruct (Z.le_gt_cases (createdAt y.2) (createdAt x.2)) as [Hle|Hgt];
        [|lia]. apply newest_leb in Hle. congruence. }
    cbn. split; [|now apply IH].
    rewrite insert_perm. now constructor.
Qed.

Lemma sortBy_newestFirst l :
  newestFirst (Sort.sortBy [(Sort.ByCreatedAt, Sort.Descending)] l).
Proof.
  unfold Sort.sortBy. induction l as [|x l IH]; cbn; [exact I|].
  now apply insert_newestFirst.
Qed.

Lemma newestFirst_drop n l : newestFirst l -> newestFirst (drop n l).
Proof.
  revert l. induction n as [|n IH]; intros [|x l] H; cbn; try exact H.
  apply IH, H.
Qed.

Lemma newestFirst_take n l : newestFirst l -> newestFirst (take n l).
Proof.
  revert l. induction n as [|n IH]; intros [|x l] H; cbn; try exact I.
  destruct H as [Hx H]. split; [now apply Forall_take | now apply IH].
Qed.

(** Without a [sort] parameter the listing is newest first, as a plain
    array and on every page, whatever the filter. *)
Theorem default_listing_is_newest_first (st : gmap N Summary)
    (text : option string) (p l : option Z) :
  (forall items,
     getSummaries st (Query text p l None) = Some (Response 200 (Docs items)) ->
     newestFirst items)
  /\ (forall items pg pages total,
        getSummaries st (Query text p l None)
          = Some (Response 200 (Page items pg pages total)) ->
        newestFirst items).
Proof.
  unfold getSummaries. cbn [q page limit sort default from_option id].
  destruct (JsString.truthy _).
  - destruct (RegExp.compile _) as [re| |];
      cbn [mbind outcome_bind try_catch mret outcome_ret];
      [|split; intros; discriminate..].
    destruct ((0 <? _) && (0 <? _)); cbn [try_catch]; split; intros;
      try discriminate;
      match goal with H : Some _ = Some _ |- _ => injection H as <- end;
      try match goal with H : _ = _ |- _ => clear H end.
    + apply newestFirst_take, newestFirst_drop, sortBy_newestFirst.
    + apply sortBy_newestFirst.
  - cbn [mbind outcome_bind try_catch mret outcome_ret].
    destruct ((0 <? _) && (0 <? _)); cbn [try_catch]; split; intros;
      try discriminate;
      match goal with H : Some _ = Some _ |- _ => injection H as <- end;
      try match goal with H : _ = _ |- _ => clear H end.
    + apply newestFirst_take, newestFirst_drop, sortBy_newestFirst.
    + apply sortBy_newestFirst.
Qed.

End Pages.

(** ** Accounts: registering twice, logging in, creating with the token *)
Section Accounts.
Import Server Spec Mongoose.
Variable isEmail : string -> bool.
Variable comparePassword : UserModel.User -> string -> bool.

Lemma findOne_is_Some (users : gmap N UserModel.User) mail i u :
  users !! i = Some u -> UserModel.email u = mail ->
  is_Some (UserModel.findOne users mail).
Proof.
  intros Hi Hu. unfold UserModel.findOne.
  destruct (filter _ (map_to_list users)) as [|x l] eqn:E; [|now eexists].
  exfalso. eapply (filter_nil_not_elem_of _ _ (i, u) E); [exact Hu|].
  now apply elem_of_map_to_list.
Qed.

Lemma findOne_Some (users : gmap N UserModel.User) mail i u :
  UserModel.findOne users mail = Some (i, u) ->
  users !! i = Some u /\ UserModel.email u = mail.
Proof.
  unfold UserModel.findOne. intros H. apply head_Some_elem_of in H.
  apply list_elem_of_filter in H as [Hs Hin].
  apply elem_of_map_to_list in Hin. now split.
Qed.

(** The path of [register] once both fields are strings. *)
Lemma register_strings e body users mail pw :
  body !! "email" = Some (JStr mail) -> body !! "password" = Some (JStr pw) ->
  register isEmail e body users =
    if isEmail mail && (6 <=? String.length pw)%nat then
      match UserModel.findOne users mail with
      | Some _ => Some (users, Response 409 (message "Email already registered"))
      | None =>
          match users !! fresh e with
          | Some _ => Some (users, Response 500 (ErrorMessage DuplicateKey))
          | None =>
              let u := {| UserModel.email := mail;
                          UserModel.passwordHash :=
                            UserModel.Salted (random e 0) pw |} in
              if JsString.truthy (JWT_SECRET e) then
                Some (<[fresh e := u]> users,
                      Response 201
                        (Session
                           (Jwt.Signed
                              (Jwt.Claims (fresh e) mail (Jwt.seconds (now e))
                                          (Jwt.seconds (now e) + 900))
                              (Jwt.HS256 (JWT_SECRET e)
                                 (Jwt.Claims (fresh e) mail (Jwt.seconds (now e))
                                             (Jwt.seconds (now e) + 900))))
                           (fresh e) mail))
              else Some (<[fresh e := u]> users,
                         Response 500 (ErrorMessage SecretMissing))
          end
      end
    else Some (users, Response 400
                 (ValidationErrors
                    ((if isEmail mail then [] else ["email"])
                     ++ (if (6 <=? String.length pw)%nat then [] else ["password"])))).
Proof.
  intros Hmail Hpw. unfold register. rewrite Hmail, Hpw.
  cbn [Validator.required Validator.stringify Js.String_].
  unfold Validator.isLengthMin. cbn [Js.String_].
  destruct (isEmail mail), (6 <=? String.length pw)%nat; try reflexivity.
  cbn [andb Validator.validationResult].
  change (Validator.validationResult [("email", true); ("password", true)])
    with (@nil string).
  cbn iota. destruct (UserModel.findOne users mail) eqn:Hf; [reflexivity|].
  unfold UserModel.create. rewrite Hf.
  destruct (users !! fresh e); [reflexivity|].
  unfold sign, Jwt.sign. cbn [fst snd UserModel.email].
  destruct (JsString.truthy (JWT_SECRET e)); reflexivity.
Qed.

(** Registering an email that has just been registered is answered 409
    and stores nothing, whatever the password of the second attempt. *)
Theorem register_same_email_twice (e e' : env) (body body' : gmap string json)
    (users users' : gmap N UserModel.User) (mail pw pw' : string)
    (token : Jwt.token) (uid : N) :
  body !! "email" = Some (JStr mail) -> body !! "password" = Some (JStr pw) ->
  register isEmail e body users
    = Some (users', Response 201 (Session token uid mail)) ->
  body' !! "email" = Some (JStr mail) -> body' !! "password" = Some (JStr pw') ->
  (6 <= String.length pw')%nat ->
  register isEmail e' body' users'
    = Some (users', Response 409 (message "Email already registered")).
Proof.
  intros Hmail Hpw H Hmail' Hpw' Hlen.
  rewrite (register_strings _ _ _ _ _ Hmail Hpw) in H.
  rewrite (register_strings _ _ _ _ _ Hmail' Hpw').
  destruct (isEmail mail); [|discriminate H]. apply Nat.leb_le in Hlen.
  rewrite Hlen. cbn [andb] in H |- *.
  destruct ((6 <=? String.length pw)%nat); [|discriminate H].
  destruct (UserModel.findOne users mail); [discriminate H|].
  destruct (users !! fresh e); [discriminate H|].
  destruct (JsString.truthy (JWT_SECRET e)); [|discriminate H].
  cbn zeta in H. injection H as <- _ _.
  set (m := <[fresh e := _]> users).
  assert (Hs : is_Some (UserModel.findOne m mail))
    by (eapply findOne_is_Some; [apply lookup_insert_eq | reflexivity]).
  destruct Hs as [x Hx]. rewrite Hx. reflexivity.
Qed.

(** When the signing secret is missing, a valid registration of a new
    email stores the user and then fails: the answer is 500, the user
    stays stored, and registering the same email again is answered
    409. *)
Theorem register_without_secret_strands_the_user (e e' : env)
    (body : gmap string json) (users : gmap N UserModel.User)
    (mail pw : string) :
  JWT_SECRET e = EmptyString ->
  body !! "email" = Some (JStr mail) -> body !! "password" = Some (JStr pw) ->
  isEmail mail = true -> (6 <= String.length pw)%nat ->
  UserModel.findOne users mail = None -> users !! fresh e = None ->
  exists users',
    register isEmail e body users
      = Some (users', Response 500 (ErrorMessage SecretMissing))
    /\ (exists u, users' !! fresh e = Some u /\ UserModel.email u = mail)
    /\ register isEmail e' body users'
         = Some (users', Response 409 (message "Email already registered")).
Proof.
  intros Hsecret Hmail Hpw Hvalid Hlen Hfind Hfresh.
  rewrite !(register_strings _ _ _ _ _ Hmail Hpw).
  apply Nat.leb_le in Hlen. rewrite Hvalid, Hlen, Hfind, Hfresh, Hsecret.
  cbn [andb JsString.truthy]. eexists. split; [reflexivity|]. split.
  - eexists. split; [apply lookup_insert_eq | reflexivity].
  - rewrite (register_strings _ _ _ _ _ Hmail Hpw), Hvalid, Hlen. cbn [andb].
    set (m := <[fresh e := _]> users).
    assert (Hs : is_Some (UserModel.findOne m mail))
      by (eapply findOne_is_Some; [apply lookup_insert_eq | reflexivity]).
    destruct Hs as [x Hx]. rewrite Hx. reflexivity.
Qed.

(** [register] never touches a stored user: whatever it answers, it
    leaves the users as they are or adds one user under the fresh id,
    with the email of the body; and it adds that user exactly when it
    answers 201, or 500 for want of a signing secret. *)
Theorem register_only_adds_the_registered_user (e : env)
    (body : gmap string json) (users users' : gmap N UserModel.User)
    (r : response) :
  register isEmail e body users = Some (users', r) ->
  (users' = users /\ status r <> 201)
  \/ (exists mail pw,
        body !! "email" = Some (JStr mail)
        /\ body !! "password" = Some (JStr pw)
        /\ users !! fresh e = None
        /\ users' = <[fresh e := {| UserModel.email := mail;
                                    UserModel.passwordHash :=
                                      UserModel.Salted (random e 0) pw |}]> users
        /\ (status r = 201
            \/ (status r = 500 /\ JWT_SECRET e = EmptyString))).
Proof.
  intros H.
  destruct (body !! "email") as [[| | |mail| |]|] eqn:Hmail;
    try (unfold register in H; rewrite Hmail in H;
         destruct (Validator.validationResult _);
         [destruct (body !! "password"); discriminate H
         |injection H as <- <-; left; split; [reflexivity | discriminate]]).
  destruct (body !! "password") as [[| | |pw| |]|] eqn:Hpw;
    try (unfold register in H; rewrite Hmail, Hpw in H;
         destruct (Validator.validationResult _);
         [discriminate H
         |injection H as <- <-; left; split; [reflexivity | discriminate]]).
  rewrite (register_strings _ _ _ _ _ Hmail Hpw) in H.
  destruct (isEmail mail && (6 <=? String.length pw)%nat);
    [|injection H as <- <-; left; split; [reflexivity | discriminate]].
  destruct (UserModel.findOne users mail);
    [injection H as <- <-; left; split; [reflexivity | discriminate]|].
  destruct (users !! fresh e) eqn:Hfresh;
    [injection H as <- <-; left; split; [reflexivity | discriminate]|].
  right. exists mail, pw.
  destruct (JsString.truthy (JWT_SECRET e)) eqn:Hs; injection H as <- <-.
  - repeat split. now left.
  - repeat split. right. split; [reflexivity|]. now destruct (JWT_SECRET e).
Qed.

(** The path of [login] once both fields are strings. *)
Lemma login_strings e body users mail pw :
  body !! "email" = Some (JStr mail) -> body !! "password" = Some (JStr pw) ->
  login isEmail comparePassword e body users =
    if isEmail mail then
      match UserModel.findOne users mail with
      | Some u =>
          if comparePassword u.2 pw then
            if JsString.truthy (JWT_SECRET e) then
              Some (Response 200
                      (Session
                         (Jwt.Signed
                            (Jwt.Claims u.1 (UserModel.email u.2)
                                        (Jwt.seconds (now e))
                                        (Jwt.seconds (now e) + 900))
                            (Jwt.HS256 (JWT_SECRET e)
                               (Jwt.Claims u.1 (UserModel.email u.2)
                                           (Jwt.seconds (now e))
                                           (Jwt.seconds (now e) + 900))))
                         u.1 (UserModel.email u.2)))
            else Some (Response 500 (ErrorMessage SecretMissing))
          else Some (Response 401 (message "Invalid credentials"))
      | None => Some (Response 401 (message "Invalid credentials"))
      end
    else Some (Response 400 (ValidationErrors ["email"])).
Proof.
  intros Hmail Hpw. unfold login. rewrite Hmail, Hpw.
  cbn [Validator.required Validator.stringify Js.String_ Validator.isString].
  destruct (isEmail mail); [|reflexivity].
  change (Validator.validationResult [("email", true); ("password", true)])
    with (@nil string).
  cbn iota. destruct (UserModel.findOne users mail) as [u|]; [|reflexivity].
  destruct (comparePassword u.2 pw); [|reflexivity].
  unfold sign, Jwt.sign. destruct (JsString.truthy (JWT_SECRET e)); reflexivity.
Qed.

(** Whenever [login] answers with a token, the answer is 200, the token
    names a stored user whose email is the one of the body and whose
    [comparePassword] accepts the password of the body, and [verifyJWT]
    under the same secret yields that user for the next fifteen
    minutes. *)
Theorem login_token_round_trip (e : env) (body : gmap string json)
    (users : gmap N UserModel.User) (code : Z) (token : Jwt.token)
    (uid : N) (mail : string) :
  login isEmail comparePassword e body users
    = Some (Response code (Session token uid mail)) ->
  code = 200
  /\ (exists u pw,
        users !! uid = Some u /\ UserModel.email u = mail
        /\ body !! "email" = Some (JStr mail)
        /\ body !! "password" = Some (JStr pw)
        /\ comparePassword u pw = true)
  /\ (forall e', JWT_SECRET e' = JWT_SECRET e ->
        Jwt.seconds (now e') < Jwt.seconds (now e) + 15 * 60 ->
        verifyJWT e' (Some (Bearer (Some token))) = inr (User_ uid mail)).
Proof.
  intros H.
  destruct (body !! "email") as [[| | |mail0| |]|] eqn:Hmail;
    try (unfold login in H; rewrite Hmail in H;
         destruct (Validator.validationResult _);
         [destruct (body !! "password"); discriminate H | discriminate H]).
  destruct (body !! "password") as [[| | |pw| |]|] eqn:Hpw;
    try (unfold login in H; rewrite Hmail, Hpw in H;
         destruct (Validator.validationResult _); discriminate H).
  rewrite (login_strings _ _ _ _ _ Hmail Hpw) in H.
  destruct (isEmail mail0); [|discriminate H].
  destruct (UserModel.findOne users mail0) as [[i u]|] eqn:Hf; [|discriminate H].
  destruct (comparePassword (i, u).2 pw) eqn:Hc; [|discriminate H].
  destruct (JsString.truthy (JWT_SECRET e)) eqn:Hs; [|discriminate H].
  apply findOne_Some in Hf as [Hi Hu]. cbn [fst snd] in *.
  injection H as <- <- <- <-. split; [reflexivity|]. split.
  - exists u, pw. rewrite Hu. repeat split; assumption.
  - intros e' Hsame Hlive. rewrite verifyJWT_signed, Hsame, Hs.
    rewrite bool_decide_eq_true_2 by reflexivity. cbn [andb Jwt.exp].
    destruct (Z.leb_spec (Jwt.seconds (now e) + 900) (Jwt.seconds (now e')));
      [lia | reflexivity].
Qed.

(** A login with an unknown email and a login with a wrong password are
    answered alike: 401 with the message "Invalid credentials". *)
Theorem login_failures_look_alike (e : env) (body : gmap string json)
    (users : gmap N UserModel.User) (mail pw : string) :
  body !! "email" = Some (JStr mail) -> body !! "password" = Some (JStr pw) ->
  isEmail mail = true ->
  (forall i u, users !! i = Some u -> UserModel.email u = mail ->
               comparePassword u pw = false) ->
  login isEmail comparePassword e body users
    = Some (Response 401 (message "Invalid credentials")).
Proof.
  intros Hmail Hpw Hvalid Hwrong.
  rewrite (login_strings _ _ _ _ _ Hmail Hpw), Hvalid.
  destruct (UserModel.findOne users mail) as [[i u]|] eqn:Hf; [|reflexivity].
  apply findOne_Some in Hf as [Hi Hu]. cbn [snd].
  now rewrite (Hwrong i u Hi Hu).
Qed.

(** A create with a valid token and a valid body under a fresh id. *)
Lemma postSummaries_valid e h u body (st : gmap N Summary) n s :
  verifyJWT e h = inr u ->
  body !! "note" = Some (JStr n) ->
  (1 <= String.length n <= 20000)%nat ->
  body !! "summary" = Some (JStr s) ->
  (1 <= String.length s <= 8000)%nat ->
  (forall v, body !! "tags" = Some v ->
             exists items, v = JArr items /\ (length items <= 10)%nat) ->
  st !! fresh e = None ->
  exists d,
    postSummaries e h body st
      = Some (<[fresh e := d]> st, Response 201 (Doc (fresh e) d))
    /\ note d = n /\ summary d = s.
Proof.
  intros Hauth Hn Hnl Hs Hsl Ht Hfresh.
  unfold postSummaries. rewrite Hauth, Hn, Hs.
  assert (Hv : Validator.optional (Validator.isArray 10) (body !! "tags") = true).
  { destruct (body !! "tags") as [v|]; [|reflexivity].
    destruct (Ht v eq_refl) as (items & -> & Hl). cbn. now apply Nat.leb_le. }
  assert (Hd : exists items, default (JArr []) (body !! "tags") = JArr items).
  { destruct (body !! "tags") as [v|]; [|now exists []].
    destruct (Ht v eq_refl) as (items & -> & _). now exists items. }
  destruct Hd as [items Hd]. rewrite Hv, Hd.
  assert (H1 : text 1 20000 (JStr n) = true).
  { unfold text, Validator.isLength. cbn [Validator.isString Js.String_ andb].
    apply andb_true_iff. split; apply Nat.leb_le; lia. }
  assert (H2 : text 1 8000 (JStr s) = true).
  { unfold text, Validator.isLength. cbn [Validator.isString Js.String_ andb].
    apply andb_true_iff. split; apply Nat.leb_le; lia. }
  cbn [Validator.required]. rewrite H1, H2.
  change (Validator.validationResult
            [("note", true); ("summary", true); ("tags", true)])
    with (@nil string).
  cbn iota. cbn [mbind outcome_bind]. rewrite construct_argument.
  assert (Hrn : Mongoose.requiredString (Some (JStr n)) = Returns n)
    by (destruct n; [cbn in Hnl; lia | reflexivity]).
  assert (Hrs : Mongoose.requiredString (Some (JStr s)) = Returns s)
    by (destruct s; [cbn in Hsl; lia | reflexivity]).
  rewrite Hrn, Hrs. cbn [mbind outcome_bind].
  unfold Mongoose.insert. rewrite Hfresh. cbn [slug mbind outcome_bind try_catch].
  eexists. split; [reflexivity|]. split; reflexivity.
Qed.


End Accounts.

(** ** The CORS allow-list *)
Section Cors.
Import Routes Spec2.

Lemma split_free sep s : free sep s -> split sep s = [s].
Proof.
  unfold free. induction s as [|c s IH]; intros H; [reflexivity|].
  cbn [String.list_ascii_of_string] in H.
  apply not_elem_of_cons in H as [Hc Hs]. cbn [split].
  destruct (Ascii.eqb_spec c sep) as [->|_]; [contradiction|].
  now rewrite (IH Hs).
Qed.

Lemma split_app sep x rest :
  free sep x -> split sep (x +:+ String sep rest) = x :: split sep rest.
Proof.
  unfold free. induction x as [|c x IH]; intros H.
  - change (split sep (String sep rest) = EmptyString :: split sep rest).
    cbn [split]. destruct (Ascii.eqb_spec sep sep) as [_|Hn]; [reflexivity|].
    now destruct Hn.
  - cbn [String.list_ascii_of_string] in H.
    apply not_elem_of_cons in H as [Hc Hx].
    change (String c x +:+ String sep rest)%string
      with (String c (x +:+ String sep rest))%string.
    change (split sep (String c ?s))
      with (if (c =? sep)%char then EmptyString :: split sep s
            else match split sep s with
                 | piece :: pieces => String c piece :: pieces
                 | [] => [String c EmptyString]
                 end).
    destruct (Ascii.eqb_spec c sep) as [->|_]; [contradiction|].
    now rewrite (IH Hx).
Qed.

(** Splitting undoes joining, for entries that do not hold the
    separator. *)
Lemma split_joinWith sep entries :
  entries <> [] -> Forall (free sep) entries ->
  split sep (joinWith sep entries) = entries.
Proof.
  induction entries as [|x [|y l] IH]; intros Hne H; [contradiction| |].
  - cbn. apply split_free. now apply Forall_cons in H as [H _].
  - apply Forall_cons in H as [Hx H].
    change (joinWith sep (x :: y :: l))
      with (x +:+ String sep (joinWith sep (y :: l)))%string.
    rewrite split_app by exact Hx. f_equal. now apply IH.
Qed.

(** Without a configured list (the variable unset or empty) the server
    allows a request exactly when it has no origin, an empty one, or
    the origin [http://localhost:5173]; a request without an [Origin]
    header is allowed under every configuration. *)
Theorem cors_default_origin (o : string) :
  (corsOrigin None (Some o) = true
     <-> o = EmptyString \/ o = "http://localhost:5173")
  /\ (corsOrigin (Some EmptyString) (Some o) = corsOrigin None (Some o))
  /\ (forall configured, corsOrigin configured None = true).
Proof.
  split; [|split; reflexivity].
  unfold corsOrigin. rewrite orb_true_iff, negb_true_iff, bool_decide_eq_true.
  change (ORIGINS None) with ["http://localhost:5173"].
  rewrite list_elem_of_singleton. split; (intros [H|H]; [left | right; exact H]).
  - now destruct o.
  - now subst o.
Qed.

(** A configured list allows exactly its entries, each read without the
    white space around it: for entries free of commas, joined by
    commas into a non-empty list, a request with an origin is allowed
    exactly when the origin is empty or is one of the trimmed entries.
    An allowed origin that is not empty therefore has no white space
    at either end. *)
Theorem cors_listed_origins (entries : list string) (o : string) :
  entries <> [] -> Forall (free ",") entries ->
  joinWith "," entries <> EmptyString ->
  (corsOrigin (Some (joinWith "," entries)) (Some o) = true
     <-> o = EmptyString \/ o ∈ JsString.trim <$> entries)
  /\ (corsOrigin (Some (joinWith "," entries)) (Some o) = true ->
      o = EmptyString \/ JsString.trimmed o).
Proof.
  intros Hne Hfree Hcfg.
  assert (Horigins : ORIGINS (Some (joinWith "," entries))
                     = JsString.trim <$> entries).
  { unfold ORIGINS. cbn [default from_option id].
    replace (JsString.truthy (joinWith "," entries)) with true
      by (now destruct (joinWith "," entries)).
    now rewrite split_joinWith. }
  assert (Hiff : corsOrigin (Some (joinWith "," entries)) (Some o) = true
                 <-> o = EmptyString \/ o ∈ JsString.trim <$> entries).
  { unfold corsOrigin. rewrite orb_true_iff, negb_true_iff, bool_decide_eq_true.
    rewrite Horigins. split; (intros [H|H]; [left | right; exact H]).
    - now destruct o.
    - now subst o. }
  split; [exact Hiff|].
  intros H. apply Hiff in H as [H|H]; [now left | right].
  apply list_elem_of_fmap in H as (x & -> & _). apply trim_trimmed.
Qed.

End Cors.

(** ** The client's tags and the server's cleaning *)
Section ClientTags.
Import Server Spec Spec2 Mongoose Routes.

Lemma split_pieces_free sep s : Forall (free sep) (split sep s).
Proof.
  induction s as [|c s IH].
  - repeat constructor. unfold free. cbn. apply not_elem_of_nil.
  - cbn [split]. destruct (Ascii.eqb_spec c sep) as [->|Hc].
    + constructor; [|exact IH]. unfold free. cbn. apply not_elem_of_nil.
    + destruct (split sep s) as [|piece pieces]; apply Forall_cons in IH || idtac.
      * repeat constructor. unfold free. cbn.
        apply not_elem_of_cons. split; [congruence | apply not_elem_of_nil].
      * destruct IH as [Hp Hps]. constructor; [|exact Hps].
        unfold free in *. cbn. apply not_elem_of_cons. split; [congruence | exact Hp].
Qed.

Lemma trimStart_free sep s : free sep s -> free sep (JsString.trimStart s).
Proof.
  unfold free. induction s as [|c s IH]; intros H; [exact H|].
  cbn [JsString.trimStart]. destruct (JsString.is_space c); [|exact H].
  apply IH. cbn in H. now apply not_elem_of_cons in H as [_ H].
Qed.

Lemma trimEnd_free sep s : free sep s -> free sep (JsString.trimEnd s).
Proof.
  unfold free. induction s as [|c s IH]; intros H; [exact H|].
  cbn in H. apply not_elem_of_cons in H as [Hc Hs]. specialize (IH Hs).
  cbn [JsString.trimEnd]. destruct (JsString.trimEnd s) as [|d r].
  - destruct (JsString.is_space c); [exact IH|].
    cbn. apply not_elem_of_cons. split; [exact Hc | apply not_elem_of_nil].
  - cbn. apply not_elem_of_cons. split; [exact Hc | exact IH].
Qed.

Lemma deriveTags_elements input :
  Forall (fun t => JsString.trimmed t /\ t <> EmptyString /\ free "," t)
         (Client.deriveTags input).
Proof.
  unfold Client.deriveTags. apply Forall_forall. intros t Ht.
  apply list_elem_of_In, filter_In in Ht as [Hin Htruthy].
  apply in_map_iff in Hin as (x & <- & Hx).
  split; [apply trim_trimmed|]. split.
  - intros E. rewrite E in Htruthy. discriminate.
  - apply trimEnd_free, trimStart_free.
    pose proof (split_pieces_free "," input) as Hfree.
    rewrite Forall_forall in Hfree. now apply Hfree, list_elem_of_In.
Qed.

Lemma clean_of_clean_strings l :
  Forall (fun t => JsString.trimmed t /\ t <> EmptyString) l ->
  clean (JStr <$> l) = take 10 l.
Proof.
  intros H. unfold clean. f_equal.
  induction H as [|t l [Ht Hne] _ IH]; [reflexivity|].
  cbn -[JsString.trim]. unfold JsString.trimmed in Ht. rewrite Ht.
  destruct t; [contradiction|]. cbn -[JsString.trim]. f_equal. exact IH.
Qed.

(** The tags the client derives from its input line are trimmed, not
    empty and free of commas.  Saved with a valid token, note and
    summary, at most ten of them are stored exactly as derived; more
    than ten make the server refuse the whole save with 400, and
    nothing is stored. *)
Theorem derived_tags_are_stored_as_typed (e : env) (h : option header)
    (u : user) (n s input : string) (st : gmap N Summary) :
  verifyJWT e h = inr u ->
  (1 <= String.length n <= 20000)%nat ->
  (1 <= String.length s <= 8000)%nat ->
  st !! fresh e = None ->
  Forall (fun t => JsString.trimmed t /\ t <> EmptyString /\ free "," t)
         (Client.deriveTags input)
  /\ ((length (Client.deriveTags input) <= 10)%nat ->
      exists d,
        postSummaries e h (Client.saveBody n s (Client.deriveTags input)) st
          = Some (<[fresh e := d]> st, Response 201 (Doc (fresh e) d))
        /\ note d = n /\ summary d = s
        /\ tags d = Client.deriveTags input)
  /\ ((10 < length (Client.deriveTags input))%nat ->
      postSummaries e h (Client.saveBody n s (Client.deriveTags input)) st
        = Some (st, Response 400 (ValidationErrors ["tags"]))).
Proof.
  intros Hauth Hn Hs Hfresh.
  set (ts := Client.deriveTags input).
  pose proof (deriveTags_elements input) as Hts. fold ts in Hts.
  assert (Hbn : Client.saveBody n s ts !! "note" = Some (JStr n))
    by (vm_compute; reflexivity).
  assert (Hbs : Client.saveBody n s ts !! "summary" = Some (JStr s))
    by (vm_compute; reflexivity).
  assert (Hbt : Client.saveBody n s ts !! "tags" = Some (JArr (JStr <$> ts)))
    by (vm_compute; reflexivity).
  clearbody ts. split; [exact Hts|]. split.
  - intros Hlen.
    destruct (postSummaries_valid e h u (Client.saveBody n s ts) st n s
                Hauth Hbn Hn Hbs Hs) as (d & Hpost & Hdn & Hds);
      [|exact Hfresh|].
    { intros v Hv. rewrite Hbt in Hv. injection Hv as <-.
      eexists. split; [reflexivity|]. now rewrite length_fmap. }
    exists d. split; [exact Hpost|]. split; [exact Hdn|]. split; [exact Hds|].
    apply postSummaries_created in Hpost as (items & Hdef & _ & _ & _ & -> & _).
    rewrite Hbt in Hdef. cbn in Hdef. injection Hdef as <-.
    rewrite clean_of_clean_strings.
    + now apply take_ge.
    + eapply Forall_impl; [exact Hts|]. cbn. tauto.
  - intros Hlen. unfold postSummaries. rewrite Hauth, Hbn, Hbs, Hbt.
    assert (H1 : text 1 20000 (JStr n) = true).
    { unfold text, Validator.isLength. cbn [Validator.isString Js.String_ andb].
      apply andb_true_iff. split; apply Nat.leb_le; lia. }
    assert (H2 : text 1 8000 (JStr s) = true).
    { unfold text, Validator.isLength. cbn [Validator.isString Js.String_ andb].
      apply andb_true_iff. split; apply Nat.leb_le; lia. }
    cbn [Validator.required Validator.optional Validator.isArray].
    rewrite H1, H2, length_fmap.
    destruct (Nat.leb_spec (length ts) 10); [lia|]. reflexivity.
Qed.

(** The client never asks for a toggle: [toggleStar] sends the negation
    of the flag it last saw.  On a Summary whose note and summary are
    not empty the stored flag becomes that value whatever it was; on
    one whose note or summary is empty the save is refused with 400
    and nothing is stored.  Either way, pressing the star twice from
    the same view leaves the collection and the answer of the first
    press. *)
Theorem client_star_is_idempotent (oid : N) (seen : bool)
    (st : gmap N Summary) (d : Summary) :
  st !! oid = Some d ->
  (filled d ->
     Client.toggleStar oid seen st
       = (<[oid := withStarred (negb seen) d]> st,
          Response 200 (Doc oid (withStarred (negb seen) d))))
  /\ (~ filled d ->
      Client.toggleStar oid seen st
        = (st, Response 400 (ErrorMessage ValidationError)))
  /\ Client.toggleStar oid seen (Client.toggleStar oid seen st).1
     = Client.toggleStar oid seen st.
Proof.
  intros Hd.
  assert (H1 : filled d ->
               Client.toggleStar oid seen st
               = (<[oid := withStarred (negb seen) d]> st,
                  Response 200 (Doc oid (withStarred (negb seen) d)))).
  { intros Hf. unfold Client.toggleStar, Client.starBody.
    rewrite (patchStar_found _ _ _ _ Hd Hf), lookup_singleton_eq. reflexivity. }
  assert (H2 : ~ filled d ->
               Client.toggleStar oid seen st
               = (st, Response 400 (ErrorMessage ValidationError))).
  { intros Hf. unfold Client.toggleStar.
    exact (patchStar_unfilled _ _ _ _ Hd Hf). }
  split; [exact H1|]. split; [exact H2|].
  destruct (filled_dec d) as [Hf|Hf].
  - rewrite (H1 Hf). cbn [fst].
    unfold Client.toggleStar, Client.starBody.
    rewrite (patchStar_found _ _ _ (withStarred (negb seen) d))
      by (apply lookup_insert_eq || exact Hf).
    rewrite lookup_singleton_eq. cbn. now rewrite insert_insert_eq.
  - rewrite (H2 Hf). cbn [fst]. exact (H2 Hf).
Qed.

End ClientTags.

(** ** The client's history *)
Section ClientHistory.
Import Server Spec Spec2.

Lemma loadHistoryPaged_page st search all k (reset : bool) v :
  getSummaries st (wholeQuery search) = Some (Response 200 (Docs all)) ->
  0 < k ->
  Client.loadHistoryPaged st search k reset v =
    Some {| Client.history :=
              if reset then take 10 (drop (Z.to_nat ((k - 1) * 10)) all)
              else Client.history v
                   ++ take 10 (drop (Z.to_nat ((k - 1) * 10)) all);
            Client.hasMore := k <? ceilDiv (Z.of_nat (length all)) 10;
            Client.page := k + 1 |}.
Proof.
  intros H Hk. unfold Client.loadHistoryPaged, Client.historyQuery.
  unfold wholeQuery in H.
  rewrite (getSummaries_paged st _ _ all k 10 H Hk ltac:(lia)). reflexivity.
Qed.

(** Once [k] pages are loaded, pressing "Load more" often enough ends
    with the whole listing. *)
Lemma loadMore_from st search all (n : nat) (k : Z) v :
  getSummaries st (wholeQuery search) = Some (Response 200 (Docs all)) ->
  1 <= k ->
  Client.history v = take (Z.to_nat (k * 10)) all ->
  Client.page v = k + 1 ->
  Client.hasMore v = (k <? ceilDiv (Z.of_nat (length all)) 10) ->
  ceilDiv (Z.of_nat (length all)) 10 - k <= Z.of_nat n ->
  exists v', Client.loadMore n st search v = Some v'
             /\ Client.history v' = all /\ Client.hasMore v' = false.
Proof.
  intros H. revert k v. induction n as [|n IH]; intros k v Hk Hh Hp Hm Hn.
  - exists v. split; [reflexivity|].
    pose proof (ceilDiv_is_ceiling (Z.of_nat (length all)) 10 ltac:(lia)) as [Hup _].
    split.
    + rewrite Hh. apply take_ge. lia.
    + rewrite Hm. apply Z.ltb_ge. lia.
  - cbn [Client.loadMore]. destruct (Client.hasMore v) eqn:Hmore.
    + symmetry in Hm. apply Z.ltb_lt in Hm.
      rewrite Hp, (loadHistoryPaged_page st search all (k + 1) false v H)
        by lia.
      apply (IH (k + 1)); cbn [Client.history Client.page Client.hasMore];
        try lia; try reflexivity.
      rewrite Hh. replace (k + 1 - 1) with k by lia.
      rewrite take_take_drop. f_equal. lia.
    + exists v. split; [reflexivity|]. split; [|exact Hmore].
      symmetry in Hm. apply Z.ltb_ge in Hm.
      pose proof (ceilDiv_is_ceiling (Z.of_nat (length all)) 10 ltac:(lia))
        as [Hup _].
      rewrite Hh. apply take_ge. lia.
Qed.

(** The history the client shows converges to the server's listing:
    after the first load, which replaces the history by the first ten
    items, pressing "Load more" while it is offered appends page after
    page, and after at most [pages - 1] presses the history is the
    complete newest-first listing of the search and the button is
    gone. *)
Theorem load_more_reaches_the_whole_listing (st : gmap N Summary)
    (search : string) (all : list (N * Summary)) (v0 : Client.view) :
  getSummaries st (wholeQuery search) = Some (Response 200 (Docs all)) ->
  exists v1,
    Client.loadHistoryPaged st search 1 true v0 = Some v1
    /\ Client.history v1 = take 10 all
    /\ forall n : nat,
         ceilDiv (Z.of_nat (length all)) 10 - 1 <= Z.of_nat n ->
         exists v, Client.loadMore n st search v1 = Some v
                   /\ Client.history v = all /\ Client.hasMore v = false.
Proof.
  intros H. eexists. split; [apply (loadHistoryPaged_page _ _ _ 1 true v0 H); lia|].
  split; [reflexivity|]. intros n Hn.
  apply (loadMore_from st search all n 1); cbn; try lia; try reflexivity.
  exact H.
Qed.

End ClientHistory.

(** ** The client's requests *)
Section ClientRequests.
Import Client.

Lemma withAuth_Authorization ls i :
  headers (withAuth ls i) !! "Authorization" =
    match ls !! "token" with
    | Some t => if JsString.truthy t then Some ("Bearer " +:+ t)%string
                else headers i !! "Authorization"
    | None => headers i !! "Authorization"
    end.
Proof.
  assert (Hd : ({[ "Content-Type" := "application/json" ]} : gmap string string)
                 !! "Authorization" = None)
    by (apply lookup_singleton_ne; intros H; discriminate H).
  unfold withAuth. cbn [headers].
  destruct (ls !! "token") as [t|]; [destruct (JsString.truthy t)|].
  - rewrite <- (assoc_L (∪)).
    apply lookup_union_Some_l, lookup_singleton_eq.
  - rewrite (left_id_L ∅ (∪)).
    destruct (headers i !! "Authorization") as [a|] eqn:Ha.
    + now apply lookup_union_Some_l.
    + apply lookup_union_None. now split.
  - rewrite (left_id_L ∅ (∪)).
    destruct (headers i !! "Authorization") as [a|] eqn:Ha.
    + now apply lookup_union_Some_l.
    + apply lookup_union_None. now split.
Qed.

(** The headers of a request built by [withAuth]: a stored token that
    is not empty is sent as the bearer credentials and replaces an
    Authorization header of the caller; without one the caller's header,
    if any, goes out.  Content-Type is the caller's, JSON by default,
    and every other header is the caller's.  After an answer with
    status 401 the stored token is gone, so the next request carries
    only what the caller supplies; any other answer leaves the headers
    of the next request as they were. *)
Theorem request_headers (localStorage : gmap string string) (i : init)
    (status : Z) :
  (forall t, localStorage !! "token" = Some t -> t <> EmptyString ->
     headers (withAuth localStorage i) !! "Authorization"
       = Some ("Bearer " +:+ t)%string)
  /\ (localStorage !! "token" = None \/ localStorage !! "token" = Some EmptyString ->
      headers (withAuth localStorage i) !! "Authorization"
        = headers i !! "Authorization")
  /\ headers (withAuth localStorage i) !! "Content-Type"
       = Some (default "application/json"%string (headers i !! "Content-Type"))
  /\ (forall k, k <> "Authorization"%string -> k <> "Content-Type"%string ->
      headers (withAuth localStorage i) !! k = headers i !! k)
  /\ headers (withAuth (request status localStorage) i) !! "Authorization"
       = (if status =? 401 then headers i !! "Authorization"
          else headers (withAuth localStorage i) !! "Authorization").
Proof.
  split; [|split; [|split; [|split]]].
  - intros t Ht Hne. rewrite withAuth_Authorization, Ht.
    destruct t; [contradiction|]. reflexivity.
  - intros [H|H]; rewrite withAuth_Authorization, H; reflexivity.
  - unfold withAuth. cbn [headers].
    set (a := match localStorage !! "token" with
              | Some t => if JsString.truthy t
                          then {[ "Authorization" := ("Bearer " +:+ t)%string ]}
                          else ∅
              | None => ∅
              end : gmap string string).
    assert (Ha : a !! "Content-Type" = None).
    { subst a. destruct (localStorage !! "token") as [t|];
        [destruct (JsString.truthy t)|]; try apply lookup_empty.
      apply lookup_singleton_ne. intros H; discriminate H. }
    destruct (headers i !! "Content-Type") as [c|] eqn:Hc; cbn [default from_option].
    + apply lookup_union_Some_l. rewrite lookup_union_r by exact Ha. exact Hc.
    + rewrite lookup_union_r.
      * apply lookup_singleton_eq.
      * apply lookup_union_None. now split.
  - intros k Hk1 Hk2. unfold withAuth. cbn [headers].
    set (a := match localStorage !! "token" with
              | Some t => if JsString.truthy t
                          then {[ "Authorization" := ("Bearer " +:+ t)%string ]}
                          else ∅
              | None => ∅
              end : gmap string string).
    assert (Ha : a !! k = None).
    { subst a. destruct (localStorage !! "token") as [t|];
        [destruct (JsString.truthy t)|]; try apply lookup_empty.
      apply lookup_singleton_ne. congruence. }
    assert (Hd : ({[ "Content-Type" := "application/json" ]} : gmap string string)
                   !! k = None)
      by (apply lookup_singleton_ne; congruence).
    destruct (headers i !! k) as [x|] eqn:Hx.
    + apply lookup_union_Some_l. rewrite lookup_union_r by exact Ha. exact Hx.
    + apply lookup_union_None. split; [|exact Hd].
      apply lookup_union_None. now split.
  - unfold request. destruct (status =? 401); [|reflexivity].
    rewrite withAuth_Authorization, lookup_delete_eq. reflexivity.
Qed.

End ClientRequests.

(** ** The test database *)
Section TestDatabase.
Import TestDb.

(** What every reachable state of the test database satisfies. *)
Lemma run_invariant calls s :
  running s = option_list (mongo s) ->
  connected s = mongo s ->
  ready s = bool_decide (is_Some (mongo s)) ->
  (forall k, mongo s = Some k -> (k < created s)%nat) ->
  let s' := run calls s in
  running s' = option_list (mongo s')
  /\ connected s' = mongo s'
  /\ ready s' = bool_decide (is_Some (mongo s'))
  /\ (forall k, mongo s' = Some k -> (k < created s')%nat).
Proof.
  revert s. induction calls as [|c calls IH]; intros s Hr Hc Hy Hk.
  - cbn. auto.
  - cbn [run foldl]. apply IH; destruct c; cbn [step].
    all: unfold setupTestDB, teardownTestDB.
    all: destruct (mongo s) as [k|] eqn:Hm; rewrite ?Hy; cbn;
      rewrite ?Hm; cbn; try assumption; try reflexivity.
    all: try (rewrite Hr; cbn; rewrite ?Nat.eqb_refl; reflexivity).
    all: try (intros k' Hk'; try discriminate Hk'; injection Hk' as <-; lia).
    all: try (intros k' Hk'; discriminate Hk').
Qed.

(** The test files never leak a server: after any sequence of awaited
    [setupTestDB] and [teardownTestDB] calls, the only in-memory server
    that runs is the one the module holds in [mongo], mongoose is
    connected to that server and to no other, and [ready] is true
    exactly when there is one.  A further [teardownTestDB] therefore
    leaves no server running and mongoose disconnected, and a further
    [setupTestDB] creates a server only when none is held. *)
Theorem test_database_holds_one_server (calls : list call) :
  let s := run calls initial in
  (running s = option_list (mongo s)
   /\ connected s = mongo s
   /\ (ready s = true <-> is_Some (mongo s)))
  /\ (running (teardownTestDB s) = []
      /\ connected (teardownTestDB s) = None
      /\ ready (teardownTestDB s) = false)
  /\ (created (setupTestDB s) = if ready s then created s else S (created s)).
Proof.
  destruct (run_invariant calls initial) as (Hr & Hc & Hy & Hk);
    try reflexivity; [intros k Hk; discriminate Hk|].
  cbn zeta. set (s := run calls initial) in *. split; [|split].
  - split; [exact Hr|]. split; [exact Hc|]. rewrite Hy.
    rewrite bool_decide_eq_true. reflexivity.
  - unfold teardownTestDB. destruct (mongo s) as [k|] eqn:Hm; cbn.
    + rewrite Hr. cbn. rewrite Nat.eqb_refl. auto.
    + rewrite Hr, Hc, Hy. auto.
  - unfold setupTestDB. destruct (ready s); reflexivity.
Qed.

End TestDatabase.

(** ** Counting words *)
Section Words.
Import JsString Client Spec2.

Lemma splitSpaces_length_pos b s : (1 <= length (splitSpaces b s))%nat.
Proof.
  revert b. induction s as [|c s IH]; intros b; cbn [splitSpaces]; [cbn; lia|].
  destruct (is_space c).
  - destruct b; [apply IH|]. cbn. lia.
  - destruct (splitSpaces false s); cbn; lia.
Qed.

Lemma splitSpaces_cons_length b c s :
  is_space c = false ->
  length (splitSpaces b (String c s)) = length (splitSpaces false s).
Proof.
  intros Hc. cbn [splitSpaces]. rewrite Hc.
  pose proof (splitSpaces_length_pos false s).
  destruct (splitSpaces false s); cbn in *; [lia | reflexivity].
Qed.

Lemma word_cons c s :
  word (String c s) -> is_space c = false /\ (s = EmptyString \/ word s).
Proof.
  intros [_ H]. cbn in H. apply Forall_cons in H as [Hc Hs].
  split; [exact Hc|]. destruct s as [|d s]; [now left|].
  right. split; [discriminate | exact Hs].
Qed.

(** A word followed by a separator and more: the word is one piece. *)
Lemma splitSpaces_word b w sep r :
  word w -> is_space sep = true ->
  length (splitSpaces b (w +:+ String sep r))
    = S (length (splitSpaces true r)).
Proof.
  intros Hw Hsep. revert b. induction w as [|c w IH]; intros b.
  { now destruct Hw as [Hw _]. }
  apply word_cons in Hw as [Hc [->|Hw]].
  - change (length (splitSpaces b (String c (String sep r)))
            = S (length (splitSpaces true r))).
    rewrite splitSpaces_cons_length by exact Hc.
    cbn [splitSpaces]. rewrite Hsep. reflexivity.
  - change (length (splitSpaces b (String c (w +:+ String sep r)))
            = S (length (splitSpaces true r))).
    rewrite splitSpaces_cons_length by exact Hc. apply IH, Hw.
Qed.

Lemma splitSpaces_one_word b w : word w -> length (splitSpaces b w) = 1%nat.
Proof.
  intros Hw. revert b. induction w as [|c w IH]; intros b.
  { now destruct Hw as [Hw _]. }
  apply word_cons in Hw as [Hc [->|Hw]];
    rewrite splitSpaces_cons_length by exact Hc; [reflexivity | apply IH, Hw].
Qed.

Lemma joinWith_cons2 sep x y rest :
  joinWith sep (x :: y :: rest) = (x +:+ String sep (joinWith sep (y :: rest)))%string.
Proof. reflexivity. Qed.

Lemma splitSpaces_joinWith b sep ws :
  Forall word ws -> is_space sep = true -> ws <> [] ->
  length (splitSpaces b (joinWith sep ws)) = length ws.
Proof.
  intros Hws Hsep. revert b.
  induction Hws as [|x ws Hx Hws IH]; intros b Hne; [contradiction|].
  destruct ws as [|y rest].
  - cbn [joinWith length]. now apply splitSpaces_one_word.
  - rewrite joinWith_cons2, splitSpaces_word by assumption.
    cbn [length]. f_equal. now apply IH.
Qed.

Lemma trimEnd_word w : word w -> trimEnd w = w.
Proof.
  induction w as [|c w IH]; intros Hw; [reflexivity|].
  apply word_cons in Hw as [Hc [->|Hw]].
  - cbn. now rewrite Hc.
  - cbn [trimEnd]. rewrite (IH Hw). destruct w; [now destruct Hw|reflexivity].
Qed.

(** [trimEnd] leaves alone what comes before a suffix it leaves alone. *)
Lemma trimEnd_app x r :
  r <> EmptyString -> trimEnd r = r -> trimEnd (x +:+ r) = (x +:+ r)%string.
Proof.
  intros Hne Hr. induction x as [|c x IH]; [exact Hr|].
  change (trimEnd (String c (x +:+ r)) = String c (x +:+ r)).
  cbn [trimEnd]. rewrite IH.
  destruct (x +:+ r)%string eqn:E; [|reflexivity].
  destruct x; [|discriminate E]. now destruct Hne.
Qed.

Lemma joinWith_trimEnd sep ws :
  Forall word ws -> ws <> [] ->
  trimEnd (joinWith sep ws) = joinWith sep ws
  /\ joinWith sep ws <> EmptyString.
Proof.
  intros Hws. induction Hws as [|x ws Hx Hws IH]; intros Hne; [contradiction|].
  destruct ws as [|y rest].
  - cbn [joinWith]. split; [now apply trimEnd_word | apply Hx].
  - rewrite joinWith_cons2. destruct IH as [IH1 IH2]; [discriminate|].
    split.
    + apply trimEnd_app; [discriminate|].
      destruct (joinWith sep (y :: rest)) as [|d r] eqn:E; [contradiction|].
      now apply trimEnd_cons.
    + destruct x; [now destruct Hx | discriminate].
Qed.

Lemma joinWith_head sep x ws :
  word x -> exists c r, joinWith sep (x :: ws) = String c r /\ is_space c = false.
Proof.
  intros Hx. destruct x as [|c x]; [now destruct Hx|].
  apply word_cons in Hx as [Hc _].
  destruct ws; [exists c, x | eexists c, _]; split; try exact Hc; reflexivity.
Qed.

(** The word counter counts words: for words written one after the
    other with one white-space code unit between each two, the count is
    the number of words; and the count is zero exactly for the values
    that are empty or all white space. *)
Theorem word_count_counts_words (sep : ascii) (words : list string) :
  is_space sep = true ->
  Forall word words ->
  wordCount (joinWith sep words) = length words
  /\ (forall value, wordCount value = 0%nat <-> trim value = EmptyString).
Proof.
  intros Hsep Hws. split; [|intros value].
  - destruct words as [|x ws]; [reflexivity|].
    assert (Htrim : trim (joinWith sep (x :: ws)) = joinWith sep (x :: ws)).
    { unfold trim. apply Forall_cons in Hws as Hx. destruct Hx as [Hx _].
      destruct (joinWith_head sep x ws Hx) as (c & r & E & Hc).
      rewrite E, (trimStart_fix c r Hc), <- E.
      now apply joinWith_trimEnd. }
    unfold wordCount. rewrite Htrim.
    destruct (joinWith_trimEnd sep (x :: ws) Hws) as [_ Hne]; [discriminate|].
    destruct (joinWith sep (x :: ws)) as [|c r] eqn:E; [contradiction|].
    cbn [truthy]. rewrite <- E. now apply splitSpaces_joinWith.
  - unfold wordCount. destruct (trim value) as [|c r] eqn:E; cbn [truthy].
    + tauto.
    + pose proof (splitSpaces_length_pos false (String c r)).
      split; [lia | discriminate].
Qed.

End Words.

(** ** More theorems at concrete requests *)
Section Witnesses2.
Import Server Spec Spec2 Sample Sample2 Mongoose Routes.

Lemma alice_verified : verifyJWT server alice = inr (User_ 1 "alice@example.org").
Proof. vm_compute. reflexivity. Defined.

Lemma delete_removes_the_summary_witness :
  exists st',
    deleteSummary server alice 1 (one (doc "n" "s" []))
      = (st', Response 200 (message "Summary deleted successfully"))
    /\ deleteSummary server alice 1 st'
         = (st', Response 404 (message "Summary not found")).
Proof.
  destruct (delete_removes_the_summary server alice _ 1 (one (doc "n" "s" []))
              alice_verified) as [Hfound _].
  destruct (Hfound (doc "n" "s" []) ltac:(vm_compute; reflexivity))
    as (st' & Heq & _ & _ & Hagain).
  exists st'. split; assumption.
Defined.

Lemma deleted_summary_is_unshared_witness :
  getShared "abc" (deleteSummary server alice 1 (one shared)).1
    = Response 404 (message "Not found").
Proof.
  apply (deleted_summary_is_unshared server alice _ 1 (one shared) shared "abc"
           alice_verified (unique_one shared));
    vm_compute; reflexivity.
Defined.

Lemma slug_collision_changes_nothing_witness :
  postShare server 1 pair = Some (pair, Response 500 (ErrorMessage DuplicateKey))
  /\ putSummary server alice 1 {[ "slug" := JStr "uuuuuuuuuu" ]} pair
       = Some (pair, Response 400 (ErrorMessage DuplicateKey)).
Proof.
  destruct (slug_collision_changes_nothing server alice (User_ 1 "alice@example.org")
              1 2 pair (doc "n" "s" []) (withSlug "uuuuuuuuuu" (doc "m" "t" [])))
    as [Hshare Hput];
    [vm_compute; reflexivity | intros H; discriminate H | vm_compute; reflexivity |].
  split.
  - apply Hshare. vm_compute. reflexivity.
  - apply Hput; [reflexivity | exact alice_verified].
Defined.

Lemma hello_created :
  postSummaries server alice hello ∅
    = Some (<[7%N := created]> ∅, Response 201 (Doc 7 created)).
Proof. vm_compute. reflexivity. Defined.

Lemma created_tags_are_not_truncated_witness :
  tags created
    = List.filter JsString.truthy
        (map (fun t => JsString.trim (Js.String_ t))
             (match hello !! "tags" with
              | Some (JArr items) => items
              | _ => []
              end)).
Proof.
  exact (created_tags_are_not_truncated server alice hello ∅ _ 201 7 created
           hello_created).
Defined.

Lemma created_summary_is_listed_witness :
  exists before after,
    getSummaries ∅ (Query None None None None) = Some (Response 200 (Docs before))
    /\ getSummaries (<[7%N := created]> ∅) (Query None None None None)
         = Some (Response 200 (Docs after))
    /\ (7%N, created) ∈ after
    /\ length after = S (length before).
Proof.
  destruct (created_summary_is_listed server alice hello ∅ _ 201 7 created
              hello_created) as [Hall _].
  destruct (Hall None) as (before & after & H1 & H2 & H3 & _ & H4).
  exists before, after. auto.
Defined.

Lemma update_keeps_slug_and_createdAt_witness :
  putSummary server alice 1 {[ "note" := JStr "new" ]} (one shared)
    = Some (one edited, Response 200 (Doc 1 edited))
  /\ slug edited = slug shared /\ createdAt edited = createdAt shared.
Proof.
  assert (H : putSummary server alice 1 {[ "note" := JStr "new" ]} (one shared)
              = Some (one edited, Response 200 (Doc 1 edited)))
    by (vm_compute; reflexivity).
  split; [exact H|].
  destruct (update_keeps_slug_and_createdAt server alice 1
              {[ "note" := JStr "new" ]} (one shared) (one edited) 200 edited)
    as (d & Hd & _ & _ & Hslug & Hat & _);
    [ intros k [v Hk]; apply lookup_singleton_Some in Hk as [<- _]; reflexivity
    | intros items Hk; apply lookup_singleton_Some in Hk as [E _];
      discriminate E
    | exact H | vm_compute; reflexivity | vm_compute; reflexivity |].
  assert (d = shared) as ->.
  { assert (Hs : one shared !! 1%N = Some shared) by (vm_compute; reflexivity).
    rewrite Hs in Hd. now injection Hd. }
  split; assumption.
Defined.

Lemma update_without_schema_keys_changes_nothing_witness :
  putSummary server alice 1 {[ "userId" := JStr "u1" ]} (one shared)
    = Some (one shared, Response 200 (Doc 1 shared)).
Proof.
  apply (update_without_schema_keys_changes_nothing server alice _ 1 _ _ shared
           alice_verified); [vm_compute; reflexivity|].
  intros k [v Hk]. apply lookup_singleton_Some in Hk as [<- _].
  split; [reflexivity|]. apply (bool_decide_unpack _). vm_compute. reflexivity.
Defined.

Lemma three_listed :
  getSummaries three (Query None None None None)
    = Some (Response 200 (Docs newest)).
Proof. vm_compute. reflexivity. Defined.

Lemma page_sizes_witness :
  exists items pages,
    getSummaries three (Query None (Some 2) (Some 2) None)
      = Some (Response 200 (Page items 2 pages 3))
    /\ Z.of_nat (length items) <= 2
    /\ Forall (fun x => x ∈ newest) items.
Proof.
  destruct (page_sizes three None None newest 2 2 three_listed
              ltac:(lia) ltac:(lia)) as (items & pages & H1 & H2 & H3 & _).
  exists items, pages. auto.
Defined.

Lemma registration_registered :
  register hasAt server registration ∅
    = Some (members, Response 201 (Session issued 7 "a@b.com")).
Proof. vm_compute. reflexivity. Defined.

Lemma register_same_email_twice_witness :
  register hasAt server registration members
    = Some (members, Response 409 (message "Email already registered")).
Proof.
  apply (register_same_email_twice hasAt server server registration registration
           ∅ members "a@b.com" "secret1" "secret1" issued 7);
    first [exact registration_registered | vm_compute; reflexivity | cbn; lia].
Defined.

Lemma register_without_secret_strands_the_user_witness :
  exists users',
    register hasAt noSecret registration ∅
      = Some (users', Response 500 (ErrorMessage SecretMissing))
    /\ (exists u, users' !! 7%N = Some u /\ UserModel.email u = "a@b.com")
    /\ register hasAt server registration users'
         = Some (users', Response 409 (message "Email already registered")).
Proof.
  apply (register_without_secret_strands_the_user hasAt noSecret server
           registration ∅ "a@b.com" "secret1");
    try (vm_compute; reflexivity).
  cbn. lia.
Defined.

Lemma register_only_adds_the_registered_user_witness :
  (members = ∅ /\ status (Response 201 (Session issued 7 "a@b.com")) <> 201)
  \/ (exists mail pw,
        registration !! "email" = Some (JStr mail)
        /\ registration !! "password" = Some (JStr pw)
        /\ (∅ : gmap N UserModel.User) !! fresh server = None
        /\ members = <[fresh server := {| UserModel.email := mail;
                                          UserModel.passwordHash :=
                                            UserModel.Salted (random server 0) pw |}]> ∅
        /\ (status (Response 201 (Session issued 7 "a@b.com")) = 201
            \/ (status (Response 201 (Session issued 7 "a@b.com")) = 500
                /\ JWT_SECRET server = EmptyString))).
Proof.
  exact (register_only_adds_the_registered_user hasAt server registration ∅ members
           _ registration_registered).
Defined.

Lemma registration_logs_in :
  login hasAt checks server registration members
    = Some (Response 200 (Session issued 7 "a@b.com")).
Proof. vm_compute. reflexivity. Defined.

Lemma login_token_round_trip_witness :
  verifyJWT server (Some (Bearer (Some issued))) = inr (User_ 7 "a@b.com").
Proof.
  destruct (login_token_round_trip hasAt checks server registration members 200
              issued 7 "a@b.com" registration_logs_in) as (_ & _ & Hverify).
  apply Hverify; vm_compute; reflexivity.
Defined.

Lemma login_failures_look_alike_witness :
  login hasAt checks server wrongPassword members
    = Some (Response 401 (message "Invalid credentials")).
Proof.
  apply (login_failures_look_alike hasAt checks server wrongPassword members
           "a@b.com" "wrong12"); try (vm_compute; reflexivity).
  intros i u Hu _. unfold members in Hu.
  apply lookup_singleton_Some in Hu as [_ <-]. reflexivity.
Defined.


Lemma cors_listed_origins_witness :
  corsOrigin (Some "http://a.example, http://b.example") (Some "http://b.example")
    = true.
Proof.
  destruct (cors_listed_origins ["http://a.example"; " http://b.example"]
              "http://b.example") as [Hiff _].
  - discriminate.
  - repeat constructor; apply (bool_decide_unpack _); vm_compute; reflexivity.
  - intros H; discriminate H.
  - apply Hiff. right. apply (bool_decide_unpack _). vm_compute. reflexivity.
Defined.

Lemma derived_tags_are_stored_as_typed_witness :
  Client.deriveTags "t1, ,t2" = ["t1"; "t2"]
  /\ exists d,
       postSummaries server alice
         (Client.saveBody "hello world" "hello" (Client.deriveTags "t1, ,t2")) ∅
         = Some (<[7%N := d]> ∅, Response 201 (Doc 7 d))
       /\ tags d = Client.deriveTags "t1, ,t2".
Proof.
  split; [vm_compute; reflexivity|].
  destruct (derived_tags_are_stored_as_typed server alice _ "hello world" "hello"
              "t1, ,t2" ∅ alice_verified) as (_ & Hfew & _);
    first [vm_compute; reflexivity
          | split; apply Nat.leb_le; vm_compute; reflexivity
          | idtac].
  destruct Hfew as (d & H1 & _ & _ & H2); [vm_compute; lia|].
  exists d. split; assumption.
Defined.

Lemma client_star_is_idempotent_witness :
  Client.toggleStar 1 false (Client.toggleStar 1 false (one (doc "n" "s" []))).1
    = Client.toggleStar 1 false (one (doc "n" "s" [])).
Proof.
  apply (client_star_is_idempotent 1 false (one (doc "n" "s" [])) (doc "n" "s" [])).
  vm_compute. reflexivity.
Defined.

Lemma load_more_reaches_the_whole_listing_witness :
  exists v1,
    Client.loadHistoryPaged three "" 1 true (Client.View [] false 1) = Some v1
    /\ Client.history v1 = take 10 newest.
Proof.
  destruct (load_more_reaches_the_whole_listing three "" newest
              (Client.View [] false 1)) as (v1 & H1 & H2 & _).
  - vm_compute. reflexivity.
  - exists v1. split; assumption.
Defined.

Lemma word_count_counts_words_witness :
  Client.wordCount "hello big world" = 3%nat.
Proof.
  apply (word_count_counts_words " " ["hello"; "big"; "world"]).
  - reflexivity.
  - repeat constructor; discriminate.
Defined.

End Witnesses2.
